(** * pysui: the Sui type classifiers of [src/sui/sui_types.py]

    A shallow embedding of the descriptor and object classes and of the two
    classifiers [from_object_descriptor] and [from_object_type].

    Python dictionaries, lists and class instances are mutable objects that
    are passed by reference, so the embedding keeps an explicit object store
    ([heap]) and every function of the source is a computation over it
    ([Py]).  Exceptions are values of [exn]; a computation that raises keeps
    the store as it was when the exception left it. *)

From stdpp Require Import base option gmap strings list fin_maps.
From Stdlib Require Import ZArith String Ascii DecimalString DecimalPos DecimalZ.

Local Open Scope string_scope.

(** ** Values and the object store *)

Definition loc := positive.

(** A Python value as the JSON decoder produces it.  Scalars are immutable
    and carried by value; dictionaries, lists and instances live in the
    store and are named by a reference. *)
Inductive value :=
| VNone
| VBool (b : bool)
| VInt (n : Z)
| VStr (s : string)
| VRef (l : loc).

Arguments VRef l%_positive.

Global Instance value_eq_dec : EqDecision value.
Proof. solve_decision. Defined.

(** The exceptions the module can raise.  The source defines no exception
    class of its own: a missing key is Python's [KeyError], an index past
    the end of a list is [IndexError]; [ValueError] comes from [json.dumps]
    only. *)
Inductive exn :=
| KeyError (key : string)
| IndexError
| TypeError
| AttributeError
| ValueError.

Inductive result (A : Type) :=
| Ok (a : A)
| Raise (e : exn).
Arguments Ok {A} a.
Arguments Raise {A} e.

Definition is_Ok {A} (r : result A) : bool :=
  match r with Ok _ => true | Raise _ => false end.

(** [class ObjectID(SuiString)]: the scalar wrapper of an identifier.  The
    constructor takes whatever value it is given. *)
Record ObjectID := mkObjectID { object_id : value }.

(** The concrete classes of the descriptor hierarchy and of the object
    hierarchy. *)
Inductive descriptor_class :=
| ObjectInfo_class
| SuiDataDescriptor_class
| SuiNftDescriptor_class
| SuiCoinDescriptor_class
| SuiNativeCoinDescriptor_class.

Inductive object_class :=
| ObjectRead_class
| SuiNftType_class
| SuiDataType_class
| SuiCoinType_class
| SuiGasType_class.

(** Instances of [ObjectInfo] and of its subclasses: the attributes set by
    [SuiRawDescriptor.__init__] and [ObjectInfo.__init__]. *)
Module ObjectInfo.
Record t := mk {
  class : descriptor_class;
  identifier : ObjectID;
  _type_raw : value;
  _version : value;
  _digest : value;
  _owner : value;
  _previous_transaction : value;
  _type_signature : value
}.
End ObjectInfo.

(** Instances of [ObjectRead] and of its subclasses.  An attribute that only
    a subclass sets is [None] on instances of the other classes.  There is
    no version and no digest attribute. *)
Module ObjectRead.
Record t := mk {
  class : object_class;
  identifier : ObjectID;
  _type_raw : value;
  _type_signature : value;
  _data_type : value;
  _has_public_transfer : value;
  _descriptor : value;
  _previous_transaction : value;
  _storage_rebate : value;
  (* SuiNftType *)
  _description : option value;
  _name : option value;
  _url : option value;
  (* SuiDataType *)
  _children : option value;
  _data : option value;
  _data_definition : option value;
  (* SuiGasType *)
  _balance : option value
}.
End ObjectRead.

(** What a reference can point to. *)
Inductive hobj :=
| HDict (d : gmap string value)
| HList (l : list value)
| HDescriptor (o : ObjectInfo.t)
| HObject (o : ObjectRead.t).

Abbreviation heap := (gmap loc hobj).

(** ** Computations over the store *)

Definition Py (A : Type) : Type := heap → result A * heap.

Global Instance Py_ret : MRet Py := λ A a h, (Ok a, h).

Global Instance Py_bind : MBind Py := λ A B f m h,
  match m h with
  | (Ok a, h') => f a h'
  | (Raise e, h') => (Raise e, h')
  end.

Definition raise {A} (e : exn) : Py A := λ h, (Raise e, h).

(** Reading the store without changing it. *)
Definition reading {A} (f : heap → result A) : Py A := λ h, (f h, h).

(** A new object gets a reference that is not in use. *)
Definition alloc (o : hobj) : Py value := λ h,
  let l := fresh (dom h) in (Ok (VRef l), <[l := o]> h).

(** ** Built-in operations the source uses *)

(** [obj[key]] for a string key: a dictionary raises [KeyError] when the key
    is absent; strings and lists want integer indices and the other values
    are not subscriptable, which is a [TypeError] in both cases. *)
Definition getitem (h : heap) (obj : value) (key : string) : result value :=
  match obj with
  | VRef l =>
      match h !! l with
      | Some (HDict d) =>
          match d !! key with
          | Some v => Ok v
          | None => Raise (KeyError key)
          end
      | _ => Raise TypeError
      end
  | _ => Raise TypeError
  end.

Definition subscript (obj : value) (key : string) : Py value :=
  reading (λ h, getitem h obj key).

(** [obj[key] = v] for a string key: only a dictionary accepts it. *)
Definition setitem (obj : value) (key : string) (v : value) : Py unit := λ h,
  match obj with
  | VRef l =>
      match h !! l with
      | Some (HDict d) => (Ok tt, <[l := HDict (<[key := v]> d)]> h)
      | _ => (Raise TypeError, h)
      end
  | _ => (Raise TypeError, h)
  end.

(** [l[i]] on a list of strings. *)
Definition index (l : list string) (i : nat) : Py string :=
  match l !! i with
  | Some x => mret x
  | None => raise IndexError
  end.

(** The first occurrence of [sep] in [s]: the text before it and the text
    after it. *)
Fixpoint str_partition (sep s : string) : option (string * string) :=
  if String.prefix sep s
  then Some ("", String.substring (String.length sep)
                                    (String.length s - String.length sep) s)
  else match s with
       | EmptyString => None
       | String c s' =>
           match str_partition sep s' with
           | Some (before, after) => Some (String c before, after)
           | None => None
           end
       end.

(** [s.split(sep, maxsplit)] with [maxsplit >= 0]: at most [maxsplit] cuts,
    leftmost first.  The source only passes the separator ["::"]; Python
    rejects an empty separator. *)
Fixpoint str_split_n (sep : string) (maxsplit : nat) (s : string) : list string :=
  match maxsplit with
  | O => [s]
  | S n =>
      match str_partition sep s with
      | Some (before, after) => before :: str_split_n sep n after
      | None => [s]
      end
  end.

(** [s.split(sep)] and [s.split(sep, maxsplit)].  Without a limit there are
    never more cuts than characters. *)
Definition str_split (sep : string) (maxsplit : option nat) (s : string) : list string :=
  match maxsplit with
  | Some n => str_split_n sep n s
  | None => str_split_n sep (String.length s) s
  end.

(** [v.split(sep, maxsplit)] on a value: only strings have the method. *)
Definition split_method (v : value) (sep : string) (maxsplit : option nat)
  : Py (list string) :=
  match v with
  | VStr s => mret (str_split sep maxsplit s)
  | _ => raise AttributeError
  end.

(** Python's slice bounds: a negative bound counts from the end, and both
    bounds are clipped to the string. *)
Definition slice_bound (len i : Z) : Z :=
  (if i <? 0 then Z.max 0 (i + len) else Z.min i len)%Z.

(** [s[start:stop]] *)
Definition str_slice (s : string) (start stop : Z) : string :=
  let len := Z.of_nat (String.length s) in
  let a := slice_bound len start in
  let b := slice_bound len stop in
  String.substring (Z.to_nat a) (Z.to_nat (b - a)%Z) s.

(** A name without colons, like a package address, a module or a struct
    name. *)
Fixpoint colon_free (s : string) : bool :=
  match s with
  | EmptyString => true
  | String c s' => negb (Ascii.eqb c ":") && colon_free s'
  end.

(** ** The descriptor classes *)

(** Modelled from the spec: the base classes [ClientObjectDescriptor] and
    [ClientType] come from the module [abstracts], which is not part of the
    sources at hand.  Their constructor receives the identifier and, as the
    spec has it, the instance "wraps the raw string and exposes it
    unchanged": the identifier is kept as the attribute [identifier]. *)
Definition Client__init__ (identifier : ObjectID) : ObjectID := identifier.

(** [ObjectInfo.__init__(self, indata)], run for an instance of class [cls]:
    [SuiRawDescriptor.__init__] keeps [indata] itself as [_type_raw], then
    the attributes are read from [indata] in the order of the source. *)
Definition ObjectInfo__init__ (cls : descriptor_class) (indata : value)
  : Py ObjectInfo.t :=
  oid ← subscript indata "objectId";
  let identifier := Client__init__ (mkObjectID oid) in
  let type_raw := indata in
  version ← subscript indata "version";
  digest ← subscript indata "digest";
  owner ← subscript indata "owner";
  address_owner ← subscript owner "AddressOwner";
  previous_transaction ← subscript indata "previousTransaction";
  type_signature ← subscript indata "type";
  mret {| ObjectInfo.class := cls;
          ObjectInfo.identifier := identifier;
          ObjectInfo._type_raw := type_raw;
          ObjectInfo._version := version;
          ObjectInfo._digest := digest;
          ObjectInfo._owner := address_owner;
          ObjectInfo._previous_transaction := previous_transaction;
          ObjectInfo._type_signature := type_signature |}.

(** Calling a descriptor class: the instance is built by [__init__] and the
    caller gets a reference to it.  None of the subclasses overrides
    [__init__]. *)
Definition new_descriptor (cls : descriptor_class) (indata : value) : Py value :=
  self ← ObjectInfo__init__ cls indata;
  alloc (HDescriptor self).

Definition ObjectInfo := new_descriptor ObjectInfo_class.
Definition SuiDataDescriptor := new_descriptor SuiDataDescriptor_class.
Definition SuiNftDescriptor := new_descriptor SuiNftDescriptor_class.
Definition SuiCoinDescriptor := new_descriptor SuiCoinDescriptor_class.
Definition SuiNativeCoinDescriptor := new_descriptor SuiNativeCoinDescriptor_class.

(** An attribute of a descriptor instance, [obj.<attr>]: a value that is not
    a descriptor has no such attribute. *)
Definition descriptor_attr {A} (f : ObjectInfo.t → A) (h : heap) (obj : value)
  : result A :=
  match obj with
  | VRef l =>
      match h !! l with
      | Some (HDescriptor o) => Ok (f o)
      | _ => Raise AttributeError
      end
  | _ => Raise AttributeError
  end.

(** The properties of [ObjectInfo]. *)
Definition ObjectInfo_version := descriptor_attr ObjectInfo._version.
Definition ObjectInfo_digest := descriptor_attr ObjectInfo._digest.
Definition ObjectInfo_owner := descriptor_attr ObjectInfo._owner.
Definition ObjectInfo_previous_transaction :=
  descriptor_attr ObjectInfo._previous_transaction.
Definition ObjectInfo_type_signature := descriptor_attr ObjectInfo._type_signature.
Definition ObjectInfo_identifier := descriptor_attr ObjectInfo.identifier.

(** ** The object classes *)

(** An attribute of an object instance. *)
Definition object_attr {A} (f : ObjectRead.t → A) (h : heap) (obj : value)
  : result A :=
  match obj with
  | VRef l =>
      match h !! l with
      | Some (HObject o) => Ok (f o)
      | _ => Raise AttributeError
      end
  | _ => Raise AttributeError
  end.

(** An attribute that only some subclasses set. *)
Definition object_attr_opt (f : ObjectRead.t → option value) (h : heap)
  (obj : value) : result value :=
  match object_attr f h obj with
  | Ok (Some v) => Ok v
  | Ok None => Raise AttributeError
  | Raise e => Raise e
  end.

(** [ObjectRead.__init__(self, indata, descriptor)], run for an instance of
    class [cls].  [SuiRawObject.__init__] keeps [indata] itself as
    [_type_raw]; the descriptor is kept as it is given. *)
Definition ObjectRead__init__ (cls : object_class) (indata descriptor : value)
  : Py ObjectRead.t :=
  fields ← subscript indata "fields";
  id ← subscript fields "id";
  id_id ← subscript id "id";
  let identifier := Client__init__ (mkObjectID id_id) in
  let type_raw := indata in
  type_signature ← subscript indata "type";
  data_type ← subscript indata "dataType";
  has_public_transfer ← subscript indata "has_public_transfer";
  previous_transaction ← subscript indata "previousTransaction";
  storage_rebate ← subscript indata "storageRebate";
  mret {| ObjectRead.class := cls;
          ObjectRead.identifier := identifier;
          ObjectRead._type_raw := type_raw;
          ObjectRead._type_signature := type_signature;
          ObjectRead._data_type := data_type;
          ObjectRead._has_public_transfer := has_public_transfer;
          ObjectRead._descriptor := descriptor;
          ObjectRead._previous_transaction := previous_transaction;
          ObjectRead._storage_rebate := storage_rebate;
          ObjectRead._description := None;
          ObjectRead._name := None;
          ObjectRead._url := None;
          ObjectRead._children := None;
          ObjectRead._data := None;
          ObjectRead._data_definition := None;
          ObjectRead._balance := None |}.

(** [SuiNftType.__init__] *)
Definition SuiNftType__init__ (cls : object_class) (indata descriptor : value)
  : Py ObjectRead.t :=
  self ← ObjectRead__init__ cls indata descriptor;
  fields ← subscript indata "fields";
  description ← subscript fields "description";
  fields ← subscript indata "fields";
  name ← subscript fields "name";
  fields ← subscript indata "fields";
  url ← subscript fields "url";
  mret {| ObjectRead.class := ObjectRead.class self;
          ObjectRead.identifier := ObjectRead.identifier self;
          ObjectRead._type_raw := ObjectRead._type_raw self;
          ObjectRead._type_signature := ObjectRead._type_signature self;
          ObjectRead._data_type := ObjectRead._data_type self;
          ObjectRead._has_public_transfer := ObjectRead._has_public_transfer self;
          ObjectRead._descriptor := ObjectRead._descriptor self;
          ObjectRead._previous_transaction := ObjectRead._previous_transaction self;
          ObjectRead._storage_rebate := ObjectRead._storage_rebate self;
          ObjectRead._description := Some description;
          ObjectRead._name := Some name;
          ObjectRead._url := Some url;
          ObjectRead._children := ObjectRead._children self;
          ObjectRead._data := ObjectRead._data self;
          ObjectRead._data_definition := ObjectRead._data_definition self;
          ObjectRead._balance := ObjectRead._balance self |}.

(** [SuiGasType.__init__] *)
Definition SuiGasType__init__ (cls : object_class) (indata descriptor : value)
  : Py ObjectRead.t :=
  self ← ObjectRead__init__ cls indata descriptor;
  fields ← subscript indata "fields";
  balance ← subscript fields "balance";
  mret {| ObjectRead.class := ObjectRead.class self;
          ObjectRead.identifier := ObjectRead.identifier self;
          ObjectRead._type_raw := ObjectRead._type_raw self;
          ObjectRead._type_signature := ObjectRead._type_signature self;
          ObjectRead._data_type := ObjectRead._data_type self;
          ObjectRead._has_public_transfer := ObjectRead._has_public_transfer self;
          ObjectRead._descriptor := ObjectRead._descriptor self;
          ObjectRead._previous_transaction := ObjectRead._previous_transaction self;
          ObjectRead._storage_rebate := ObjectRead._storage_rebate self;
          ObjectRead._description := ObjectRead._description self;
          ObjectRead._name := ObjectRead._name self;
          ObjectRead._url := ObjectRead._url self;
          ObjectRead._children := ObjectRead._children self;
          ObjectRead._data := ObjectRead._data self;
          ObjectRead._data_definition := ObjectRead._data_definition self;
          ObjectRead._balance := Some balance |}.

(** [for x in l: body(x)] *)
Fixpoint for_each {A} (l : list A) (body : A → Py unit) : Py unit :=
  match l with
  | [] => mret tt
  | x :: l' => _ ← body x; for_each l' body
  end.

(** [obj.items()]: the key/value pairs of a dictionary.  The order in which
    [map_to_list] lists them is not Python's insertion order; each key
    occurs once in both. *)
Definition items (obj : value) : Py (list (string * value)) :=
  reading (λ h,
    match obj with
    | VRef l =>
        match h !! l with
        | Some (HDict d) => Ok (map_to_list d)
        | _ => Raise AttributeError
        end
    | _ => Raise AttributeError
    end).

(** [dict(zip(keys, values))] for distinct keys. *)
Definition dict_zip (keys : list string) (values : list string)
  : gmap string value :=
  list_to_map (zip keys (VStr <$> values)).

(** [SuiDataType.__init__]: the child list and the field data are new
    objects of their own; the loop copies every field but ["id"]. *)
Definition SuiDataType__init__ (cls : object_class) (indata descriptor : value)
  : Py ObjectRead.t :=
  self ← ObjectRead__init__ cls indata descriptor;
  children ← alloc (HList []);
  data ← alloc (HDict ∅);
  split ← split_method (ObjectRead._type_signature self) "::" (Some 2);
  data_definition ←
    alloc (HDict (dict_zip ["package"; "module"; "structure"] split));
  fields ← subscript indata "fields";
  kvs ← items fields;
  _ ← for_each kvs (λ '(key, value),
        if negb (String.eqb key "id") then setitem data key value
        else mret tt);
  mret {| ObjectRead.class := ObjectRead.class self;
          ObjectRead.identifier := ObjectRead.identifier self;
          ObjectRead._type_raw := ObjectRead._type_raw self;
          ObjectRead._type_signature := ObjectRead._type_signature self;
          ObjectRead._data_type := ObjectRead._data_type self;
          ObjectRead._has_public_transfer := ObjectRead._has_public_transfer self;
          ObjectRead._descriptor := ObjectRead._descriptor self;
          ObjectRead._previous_transaction := ObjectRead._previous_transaction self;
          ObjectRead._storage_rebate := ObjectRead._storage_rebate self;
          ObjectRead._description := ObjectRead._description self;
          ObjectRead._name := ObjectRead._name self;
          ObjectRead._url := ObjectRead._url self;
          ObjectRead._children := Some children;
          ObjectRead._data := Some data;
          ObjectRead._data_definition := Some data_definition;
          ObjectRead._balance := ObjectRead._balance self |}.

(** Calling an object class. *)
Definition new_object
  (init : object_class → value → value → Py ObjectRead.t)
  (cls : object_class) (indata descriptor : value) : Py value :=
  self ← init cls indata descriptor;
  alloc (HObject self).

Definition ObjectRead := new_object ObjectRead__init__ ObjectRead_class.
Definition SuiNftType := new_object SuiNftType__init__ SuiNftType_class.
Definition SuiDataType := new_object SuiDataType__init__ SuiDataType_class.
Definition SuiCoinType := new_object ObjectRead__init__ SuiCoinType_class.
Definition SuiGasType := new_object SuiGasType__init__ SuiGasType_class.

(** The properties of [ObjectRead].  [version] and [digest] ask the
    descriptor, which the constructor's annotation says is an [ObjectInfo]:
    a value that is not an instance of a descriptor class has no [version]
    and no [digest] here. *)
Definition ObjectRead_descriptor := object_attr ObjectRead._descriptor.
Definition ObjectRead_identifier := object_attr ObjectRead.identifier.
Definition ObjectRead_type_signature := object_attr ObjectRead._type_signature.
Definition ObjectRead_data_type := object_attr ObjectRead._data_type.
Definition ObjectRead_has_public_transfer :=
  object_attr ObjectRead._has_public_transfer.
Definition ObjectRead_previous_transaction :=
  object_attr ObjectRead._previous_transaction.
Definition ObjectRead_storage_rebate := object_attr ObjectRead._storage_rebate.

Definition ObjectRead_version (h : heap) (self : value) : result value :=
  match object_attr ObjectRead._descriptor h self with
  | Ok descriptor => ObjectInfo_version h descriptor
  | Raise e => Raise e
  end.

Definition ObjectRead_digest (h : heap) (self : value) : result value :=
  match object_attr ObjectRead._descriptor h self with
  | Ok descriptor => ObjectInfo_digest h descriptor
  | Raise e => Raise e
  end.

(** The properties of [SuiNftType] and [SuiGasType]. *)
Definition SuiNftType_name := object_attr_opt ObjectRead._name.
Definition SuiNftType_description := object_attr_opt ObjectRead._description.
Definition SuiNftType_url := object_attr_opt ObjectRead._url.
Definition SuiGasType_balance := object_attr_opt ObjectRead._balance.

(** The properties of [SuiDataType]. *)
Definition SuiDataType_data_definition :=
  object_attr_opt ObjectRead._data_definition.
Definition SuiDataType_data := object_attr_opt ObjectRead._data.
Definition SuiDataType_children := object_attr_opt ObjectRead._children.

Definition data_definition_item (key : string) (h : heap) (self : value)
  : result value :=
  match SuiDataType_data_definition h self with
  | Ok dd => getitem h dd key
  | Raise e => Raise e
  end.

Definition SuiDataType_package := data_definition_item "package".
Definition SuiDataType_module := data_definition_item "module".
Definition SuiDataType_structure := data_definition_item "structure".

(** [lst.append(x)] *)
Definition append (lst x : value) : Py unit := λ h,
  match lst with
  | VRef l =>
      match h !! l with
      | Some (HList xs) => (Ok tt, <[l := HList (xs ++ [x])]> h)
      | _ => (Raise AttributeError, h)
      end
  | _ => (Raise AttributeError, h)
  end.

(** [SuiDataType.add_child] *)
Definition add_child (self child : value) : Py unit :=
  children ← reading (λ h, SuiDataType_children h self);
  append children child.

(** ** The classifiers *)

Definition from_object_descriptor (indata : value) : Py value :=
  type ← subscript indata "type";
  split ← split_method type "::" (Some 2);
  split_0 ← index split 0;
  if String.eqb split_0 "0x2" then
    split_1 ← index split 1;
    if String.eqb split_1 "coin" then
      split_2 ← index split 2;
      let split2 := str_split "::" None (str_slice split_2 5 (-1)) in
      split2_2 ← index split2 2;
      if String.eqb split2_2 "SUI" then SuiNativeCoinDescriptor indata
      else SuiCoinDescriptor indata
    else if String.eqb split_1 "devnet_nft" then
      split_2 ← index split 2;
      if String.eqb split_2 "DevNetNFT" then SuiNftDescriptor indata
      else ObjectInfo indata
    else ObjectInfo indata
  else
    if Nat.eqb (List.length split) 3 then SuiDataDescriptor indata
    else ObjectInfo indata.

Definition from_object_type (descriptor inblock : value) : Py value :=
  indata ← subscript inblock "data";
  previous_transaction ← subscript inblock "previousTransaction";
  _ ← setitem indata "previousTransaction" previous_transaction;
  storage_rebate ← subscript inblock "storageRebate";
  _ ← setitem indata "storageRebate" storage_rebate;
  type ← subscript indata "type";
  split ← split_method type "::" (Some 2);
  split_0 ← index split 0;
  if String.eqb split_0 "0x2" then
    split_1 ← index split 1;
    if String.eqb split_1 "coin" then
      split_2 ← index split 2;
      let split2 := str_split "::" None (str_slice split_2 5 (-1)) in
      split2_2 ← index split2 2;
      if String.eqb split2_2 "SUI" then SuiGasType indata descriptor
      else SuiCoinType indata descriptor
    else if String.eqb split_1 "devnet_nft" then
      split_2 ← index split 2;
      if String.eqb split_2 "DevNetNFT" then SuiNftType indata descriptor
      else ObjectRead indata descriptor
    else ObjectRead indata descriptor
  else
    if Nat.eqb (List.length split) 3 then SuiDataType indata descriptor
    else ObjectRead indata descriptor.

(** ** Sample inputs

    A descriptor record and a content block as the read API returns them,
    laid out in the store, for a given type signature. *)

Definition sample_owner : gmap string value :=
  {[ "AddressOwner" := VStr "0xf00d" ]}.

Definition sample_descriptor_record (sig : string) : gmap string value :=
  <[ "objectId" := VStr "0xabc" ]>
  (<[ "version" := VInt 7 ]>
  (<[ "digest" := VStr "dGVzdA==" ]>
  (<[ "owner" := VRef 2 ]>
  (<[ "previousTransaction" := VStr "cHJldg==" ]>
  {[ "type" := VStr sig ]})))).

Definition sample_id : gmap string value := {[ "id" := VStr "0xabc" ]}.

Definition sample_fields : gmap string value :=
  <[ "id" := VRef 6 ]>
  (<[ "balance" := VInt 100 ]>
  (<[ "name" := VStr "nft" ]>
  (<[ "description" := VStr "an nft" ]>
  {[ "url" := VStr "ipfs://x" ]}))).

Definition sample_data (sig : string) : gmap string value :=
  <[ "type" := VStr sig ]>
  (<[ "dataType" := VStr "moveObject" ]>
  (<[ "has_public_transfer" := VBool true ]>
  {[ "fields" := VRef 5 ]})).

Definition sample_block : gmap string value :=
  <[ "data" := VRef 4 ]>
  (<[ "previousTransaction" := VStr "dHgy" ]>
  {[ "storageRebate" := VInt 15 ]}).

(** References 1 and 2 hold the descriptor record, 3 to 6 the content
    block. *)
Definition sample_heap (sig : string) : heap :=
  <[ 1%positive := HDict (sample_descriptor_record sig) ]>
  (<[ 2%positive := HDict sample_owner ]>
  (<[ 3%positive := HDict sample_block ]>
  (<[ 4%positive := HDict (sample_data sig) ]>
  (<[ 5%positive := HDict sample_fields ]>
  {[ 6%positive := HDict sample_id ]})))).

Definition class_of (h : heap) (obj : value) : option (descriptor_class + object_class) :=
  match obj with
  | VRef l =>
      match h !! l with
      | Some (HDescriptor o) => Some (inl (ObjectInfo.class o))
      | Some (HObject o) => Some (inr (ObjectRead.class o))
      | _ => None
      end
  | _ => None
  end.

(** ** The classification the two classifiers share

    The specification describes one algorithm on the type signature and two
    families of variants.  [classify] follows its words (section 4.2): the
    system package ["0x2"] is looked at by module, every other signature
    with three components is structured data, and the rest is generic.  The
    classifiers of the source are compared with it below. *)

Inductive variant :=
| Generic
| StructuredData
| Nft
| Coin
| NativeCoin.

Definition classify (sig : string) : result variant :=
  match str_split "::" (Some 2) sig with
  | [] => Raise IndexError
  | pkg :: rest =>
      if String.eqb pkg "0x2" then
        match rest with
        | [] => Raise IndexError
        | module :: rest' =>
            if String.eqb module "coin" then
              match rest' with
              | [] => Raise IndexError
              | residual :: _ =>
                  match str_split "::" None (str_slice residual 5 (-1)) !! 2%nat with
                  | None => Raise IndexError
                  | Some inner =>
                      if String.eqb inner "SUI" then Ok NativeCoin else Ok Coin
                  end
              end
            else if String.eqb module "devnet_nft" then
              match rest' with
              | [] => Raise IndexError
              | residual :: _ =>
                  if String.eqb residual "DevNetNFT" then Ok Nft else Ok Generic
              end
            else Ok Generic
        end
      else if Nat.eqb (List.length (pkg :: rest)) 3 then Ok StructuredData
      else Ok Generic
  end.

Definition descriptor_variant (v : variant) : descriptor_class :=
  match v with
  | Generic => ObjectInfo_class
  | StructuredData => SuiDataDescriptor_class
  | Nft => SuiNftDescriptor_class
  | Coin => SuiCoinDescriptor_class
  | NativeCoin => SuiNativeCoinDescriptor_class
  end.

Definition object_variant (v : variant) : object_class :=
  match v with
  | Generic => ObjectRead_class
  | StructuredData => SuiDataType_class
  | Nft => SuiNftType_class
  | Coin => SuiCoinType_class
  | NativeCoin => SuiGasType_class
  end.

(** The constructor that runs for each object class. *)
Definition object_init (v : variant)
  : object_class → value → value → Py ObjectRead.t :=
  match v with
  | Generic | Coin => ObjectRead__init__
  | StructuredData => SuiDataType__init__
  | Nft => SuiNftType__init__
  | NativeCoin => SuiGasType__init__
  end.

(** The first five statements of [from_object_type]: the block's
    [previousTransaction] and [storageRebate] are written into the block's
    own [data] dictionary, which is what the object is then built from. *)
Definition merge_block (inblock : value) : Py value :=
  indata ← subscript inblock "data";
  previous_transaction ← subscript inblock "previousTransaction";
  _ ← setitem indata "previousTransaction" previous_transaction;
  storage_rebate ← subscript inblock "storageRebate";
  _ ← setitem indata "storageRebate" storage_rebate;
  mret indata.

(** ** Well-formed inputs (section 6 of the specification) *)

Definition has_key (h : heap) (obj : value) (key : string) : bool :=
  is_Ok (getitem h obj key).

(** The string stored under ["type"]. *)
Definition type_signature_of (h : heap) (obj : value) : option string :=
  match getitem h obj "type" with
  | Ok (VStr sig) => Some sig
  | _ => None
  end.

(** A descriptor record:
    [{objectId, version, digest, owner: {AddressOwner}, previousTransaction,
    type}]. *)
Definition descriptor_input (h : heap) (indata : value) : bool :=
  has_key h indata "objectId"
  && has_key h indata "version"
  && has_key h indata "digest"
  && match getitem h indata "owner" with
     | Ok owner => has_key h owner "AddressOwner"
     | Raise _ => false
     end
  && has_key h indata "previousTransaction"
  && has_key h indata "type".

(** The fields of the content that a variant reads besides the identifier. *)
Definition variant_fields (cls : object_class) : list string :=
  match cls with
  | SuiNftType_class => ["description"; "name"; "url"]
  | SuiGasType_class => ["balance"]
  | _ => []
  end.

(** The [data] part of a content block, for an object of class [cls]:
    [{type, dataType, has_public_transfer, fields: {id: {id}, ...}}]. *)
Definition data_input (cls : object_class) (h : heap) (indata : value) : bool :=
  has_key h indata "type"
  && has_key h indata "dataType"
  && has_key h indata "has_public_transfer"
  && match getitem h indata "fields" with
     | Ok fields =>
         match getitem h fields "id" with
         | Ok id => has_key h id "id"
         | Raise _ => false
         end
         && forallb (has_key h fields) (variant_fields cls)
     | Raise _ => false
     end.

(** A content block: [{previousTransaction, storageRebate, data}]. *)
Definition block_input (cls : object_class) (h : heap) (inblock : value) : bool :=
  has_key h inblock "previousTransaction"
  && has_key h inblock "storageRebate"
  && match getitem h inblock "data" with
     | Ok indata => data_input cls h indata
     | Raise _ => false
     end.

(** The type signature of a content block. *)
Definition block_signature (h : heap) (inblock : value) : option string :=
  match getitem h inblock "data" with
  | Ok indata => type_signature_of h indata
  | Raise _ => None
  end.

(** The class of the instance a call returned, if it returned one. *)
Definition returned_class (run : result value * heap)
  : option (descriptor_class + object_class) :=
  match run with
  | (Ok r, h') => class_of h' r
  | (Raise _, _) => None
  end.

(** The exception a call raised, if it raised one. *)
Definition raised (run : result value * heap) : option exn :=
  match run with
  | (Ok _, _) => None
  | (Raise e, _) => Some e
  end.

(** The signatures that the specification classifies by name (section 8),
    with the descriptor class and the object class it names for each: the
    two coins, the NFT, and the other signatures of package ["0x2"], which
    are those of another module and those of module ["devnet_nft"] for
    another struct.  (What is inside [Coin<...>] decides for the other
    signatures of module ["coin"], see [classify].) *)
Inductive known_signature : string → descriptor_class → object_class → Prop :=
| sig_native_coin :
    known_signature "0x2::coin::Coin<0x2::sui::SUI>"
      SuiNativeCoinDescriptor_class SuiGasType_class
| sig_generic_coin :
    known_signature "0x2::coin::Coin<0x2::other::TOKEN>"
      SuiCoinDescriptor_class SuiCoinType_class
| sig_nft :
    known_signature "0x2::devnet_nft::DevNetNFT"
      SuiNftDescriptor_class SuiNftType_class
| sig_other_module (sig module : string) (rest : list string) :
    str_split "::" (Some 2) sig = "0x2" :: module :: rest →
    module ≠ "coin" →
    module ≠ "devnet_nft" →
    known_signature sig ObjectInfo_class ObjectRead_class
| sig_other_struct (sig residual : string) :
    str_split "::" (Some 2) sig = ["0x2"; "devnet_nft"; residual] →
    residual ≠ "DevNetNFT" →
    known_signature sig ObjectInfo_class ObjectRead_class.

(** What [from_object_type] leaves in the [data] dictionary [d] of a block
    whose [previousTransaction] is [pt] and whose [storageRebate] is [sr]. *)
Definition merged (d : gmap string value) (pt sr : value) : gmap string value :=
  <["storageRebate" := sr]> (<["previousTransaction" := pt]> d).

(** The body of the copying loop of [SuiDataType.__init__], as a function on
    the field data. *)
Definition copy_field (data : gmap string value) (kv : string * value)
  : gmap string value :=
  if negb (String.eqb kv.1 "id") then <[kv.1 := kv.2]> data else data.

(** The attributes that [ObjectRead.__init__] gives an instance [o] of class
    [cls] built from [indata] and [descriptor] in the store [h]. *)
Definition object_base (h : heap) (indata descriptor : value) (cls : object_class)
  (o : ObjectRead.t) : Prop :=
  ObjectRead.class o = cls
  ∧ ObjectRead._type_raw o = indata
  ∧ ObjectRead._descriptor o = descriptor
  ∧ (∃ fields id,
        getitem h indata "fields" = Ok fields
        ∧ getitem h fields "id" = Ok id
        ∧ getitem h id "id" = Ok (object_id (ObjectRead.identifier o)))
  ∧ getitem h indata "type" = Ok (ObjectRead._type_signature o)
  ∧ getitem h indata "dataType" = Ok (ObjectRead._data_type o)
  ∧ getitem h indata "has_public_transfer"
    = Ok (ObjectRead._has_public_transfer o)
  ∧ getitem h indata "previousTransaction"
    = Ok (ObjectRead._previous_transaction o)
  ∧ getitem h indata "storageRebate" = Ok (ObjectRead._storage_rebate o).

(** The elements of a list object. *)
Definition list_items (h : heap) (lst : value) : result (list value) :=
  match lst with
  | VRef l =>
      match h !! l with
      | Some (HList xs) => Ok xs
      | _ => Raise TypeError
      end
  | _ => Raise TypeError
  end.

(** The entries of a dictionary object. *)
Definition dict_items (h : heap) (obj : value) : result (gmap string value) :=
  match obj with
  | VRef l =>
      match h !! l with
      | Some (HDict d) => Ok d
      | _ => Raise TypeError
      end
  | _ => Raise TypeError
  end.

(** [list(self.children)] and [dict(self.data)]: what the properties of a
    structured-data object show at a given moment. *)
Definition children_list (h : heap) (self : value) : result (list value) :=
  match SuiDataType_children h self with
  | Ok lst => list_items h lst
  | Raise e => Raise e
  end.

Definition data_dict (h : heap) (self : value) : result (gmap string value) :=
  match SuiDataType_data h self with
  | Ok d => dict_items h d
  | Raise e => Raise e
  end.

(** [for child in children: self.add_child(child)] *)
Definition add_children (self : value) (children : list value) : Py unit :=
  for_each children (add_child self).

(** The sample store once [from_object_type] has written the block's
    [previousTransaction] and [storageRebate] into the [data] dictionary. *)
Definition sample_content (sig : string) : heap :=
  <[ 4%positive := HDict (merged (sample_data sig) (VStr "dHgy") (VInt 15)) ]>
  (sample_heap sig).

(** ** JSON text

    [json.dumps] and [json.loads] belong to Python's library, not to this
    module.  What [json.dumps] prints depends on the tree of dictionaries,
    lists and scalars that its argument stands for in the store; the tree
    is computed here, the printer and the parser are parameters. *)

Local Set Warnings "-register-all".

Inductive jtree :=
| JNull
| JBool (b : bool)
| JInt (n : Z)
| JStr (s : string)
| JList (items : list jtree)
| JDict (entries : list (string * jtree)).

Fixpoint mapM_result {A B} (f : A → result B) (l : list A) : result (list B) :=
  match l with
  | [] => Ok []
  | x :: l' =>
      match f x with
      | Ok y =>
          match mapM_result f l' with
          | Ok ys => Ok (y :: ys)
          | Raise e => Raise e
          end
      | Raise e => Raise e
      end
  end.

(** The tree a value stands for.  An instance is not serializable
    ([TypeError]); a structure that contains itself, or is nested deeper
    than [depth], has no tree ([ValueError]).  Python prints the entries
    of a dictionary in the order they were inserted; the store keeps no
    such order, the entries come in the order of [map_to_list], and
    nothing below depends on it. *)
Fixpoint snapshot (depth : nat) (h : heap) (v : value) : result jtree :=
  match depth with
  | O => Raise ValueError
  | S n =>
      match v with
      | VNone => Ok JNull
      | VBool b => Ok (JBool b)
      | VInt i => Ok (JInt i)
      | VStr s => Ok (JStr s)
      | VRef l =>
          match h !! l with
          | Some (HDict d) =>
              match mapM_result
                      (λ kv : string * value,
                         match snapshot n h kv.2 with
                         | Ok t => Ok (kv.1, t)
                         | Raise e => Raise e
                         end)
                      (map_to_list d) with
              | Ok entries => Ok (JDict entries)
              | Raise e => Raise e
              end
          | Some (HList xs) =>
              match mapM_result (snapshot n h) xs with
              | Ok items => Ok (JList items)
              | Raise e => Raise e
              end
          | _ => Raise TypeError
          end
      end
  end.

(** ** A parsed document compared with a value of the store

    [json.loads] builds a new value; the specification compares it with
    the mapping that the instance kept.  Python's [==] on dictionaries
    wants the same keys with equal values, whatever their order, and on
    lists the same items in order. *)

(** The nesting of a document: 1 for a scalar. *)
Fixpoint height (t : jtree) : nat :=
  match t with
  | JList items => S (list_max (List.map height items))
  | JDict entries =>
      S (list_max (List.map (λ kv : string * jtree, height kv.2) entries))
  | _ => 1
  end.

(** No key occurs twice. *)
Fixpoint distinct (keys : list string) : bool :=
  match keys with
  | [] => true
  | key :: keys' => negb (existsb (String.eqb key) keys') && distinct keys'
  end.

Fixpoint forall2b {A B} (f : A → B → bool) (l : list A) (k : list B) : bool :=
  match l, k with
  | [], [] => true
  | a :: l', b :: k' => f a b && forall2b f l' k'
  | _, _ => false
  end.

(** [equal_to h t v]: the document [t] equals the value [v] of the store
    [h].  For a dictionary: the document has no key twice, each of its
    entries equals what the dictionary has under that key, and every key
    of the dictionary is in the document. *)
Fixpoint equal_to (h : heap) (t : jtree) (v : value) {struct t} : bool :=
  match t, v with
  | JNull, VNone => true
  | JBool b, VBool b' => Bool.eqb b b'
  | JInt n, VInt n' => Z.eqb n n'
  | JStr s, VStr s' => String.eqb s s'
  | JList items, VRef l =>
      match h !! l with
      | Some (HList xs) => forall2b (equal_to h) items xs
      | _ => false
      end
  | JDict entries, VRef l =>
      match h !! l with
      | Some (HDict d) =>
          distinct entries.*1
          && forallb (λ kv : string * jtree,
                        match d !! kv.1 with
                        | Some x => equal_to h kv.2 x
                        | None => false
                        end) entries
          && forallb (λ kx : string * value,
                        existsb (String.eqb kx.1) entries.*1)
                     (map_to_list d)
      | _ => false
      end
  | _, _ => false
  end.

(** The JSON library reads back what it prints: [json.loads] of the text of
    [json.dumps] is the document that was printed, for every document that
    is a value of some store. *)
Definition reads_back (dumps : jtree → string) (loads : string → option jtree)
  : Prop :=
  ∀ h v t, equal_to h t v = true → loads (dumps t) = Some t.

Section JsonLibrary.

(** The nesting [json.dumps] accepts, its compact printer and its printer
    with an indent. *)
Variable depth : nat.
Variable dumps : jtree → string.
Variable dumps_indent : Z → jtree → string.

Definition json_dumps (h : heap) (obj : value) : result string :=
  match snapshot depth h obj with
  | Ok t => Ok (dumps t)
  | Raise e => Raise e
  end.

Definition json_dumps_indent (indent : Z) (h : heap) (obj : value)
  : result string :=
  match snapshot depth h obj with
  | Ok t => Ok (dumps_indent indent t)
  | Raise e => Raise e
  end.

(** [SuiRawDescriptor.json] and [SuiRawDescriptor.json_pretty] *)
Definition SuiRawDescriptor_json (h : heap) (self : value) : result string :=
  match descriptor_attr ObjectInfo._type_raw h self with
  | Ok type_raw => json_dumps h type_raw
  | Raise e => Raise e
  end.

Definition SuiRawDescriptor_json_pretty (indent : Z) (h : heap) (self : value)
  : result string :=
  match descriptor_attr ObjectInfo._type_raw h self with
  | Ok type_raw => json_dumps_indent indent h type_raw
  | Raise e => Raise e
  end.

(** [SuiRawObject.json] and [SuiRawObject.json_pretty] *)
Definition SuiRawObject_json (h : heap) (self : value) : result string :=
  match object_attr ObjectRead._type_raw h self with
  | Ok type_raw => json_dumps h type_raw
  | Raise e => Raise e
  end.

Definition SuiRawObject_json_pretty (indent : Z) (h : heap) (self : value)
  : result string :=
  match object_attr ObjectRead._type_raw h self with
  | Ok type_raw => json_dumps_indent indent h type_raw
  | Raise e => Raise e
  end.

(** *** What can be done with a structured-data object

    The properties and methods that the module defines for [SuiDataType]
    and its base classes. *)
Inductive method :=
| m_json
| m_json_pretty (indent : Z)
| m_version
| m_digest
| m_data_type
| m_type_signature
| m_has_public_transfer
| m_previous_transaction
| m_storage_rebate
| m_descriptor
| m_data_definition
| m_package
| m_module
| m_structure
| m_data
| m_children
| m_add_child (child : value).

Definition result_map {A B} (f : A → B) (r : result A) : result B :=
  match r with
  | Ok a => Ok (f a)
  | Raise e => Raise e
  end.

Definition call (m : method) (self : value) : Py value :=
  match m with
  | m_json => reading (λ h, result_map VStr (SuiRawObject_json h self))
  | m_json_pretty indent =>
      reading (λ h, result_map VStr (SuiRawObject_json_pretty indent h self))
  | m_version => reading (λ h, ObjectRead_version h self)
  | m_digest => reading (λ h, ObjectRead_digest h self)
  | m_data_type => reading (λ h, ObjectRead_data_type h self)
  | m_type_signature => reading (λ h, ObjectRead_type_signature h self)
  | m_has_public_transfer =>
      reading (λ h, ObjectRead_has_public_transfer h self)
  | m_previous_transaction =>
      reading (λ h, ObjectRead_previous_transaction h self)
  | m_storage_rebate => reading (λ h, ObjectRead_storage_rebate h self)
  | m_descriptor => reading (λ h, ObjectRead_descriptor h self)
  | m_data_definition => reading (λ h, SuiDataType_data_definition h self)
  | m_package => reading (λ h, SuiDataType_package h self)
  | m_module => reading (λ h, SuiDataType_module h self)
  | m_structure => reading (λ h, SuiDataType_structure h self)
  | m_data => reading (λ h, SuiDataType_data h self)
  | m_children => reading (λ h, SuiDataType_children h self)
  | m_add_child child => _ ← add_child self child; mret VNone
  end.

(** A client that makes the calls one after the other and goes on after
    an exception: the store the calls leave. *)
Fixpoint run_calls (self : value) (ms : list method) (h : heap) : heap :=
  match ms with
  | [] => h
  | m :: ms' => run_calls self ms' (call m self h).2
  end.

End JsonLibrary.

(** The children that a sequence of calls hands to [add_child], in order. *)
Fixpoint appended (ms : list method) : list value :=
  match ms with
  | [] => []
  | m_add_child child :: ms' => child :: appended ms'
  | _ :: ms' => appended ms'
  end.

(** [self] is a structured-data object whose child list holds [xs]. *)
Definition data_object (h : heap) (self : value) (xs : list value) : Prop :=
  ∃ lself o lc,
    self = VRef lself
    ∧ h !! lself = Some (HObject o)
    ∧ ObjectRead._children o = Some (VRef lc)
    ∧ h !! lc = Some (HList xs).

(** ** A printer and a parser for JSON text

    Stand-ins for [json.dumps] and [json.loads], so that the statements
    about [json()] can be run on the samples.  The printer writes what
    [json.dumps] writes for trees whose strings are printable ASCII: items
    are separated by [", "] and a key from its value by [": "]. *)

Definition double_quote : ascii := "034".
Definition backslash : ascii := "092".

Definition escape_char (c : ascii) : string :=
  if Ascii.eqb c double_quote then String backslash (String double_quote "")
  else if Ascii.eqb c backslash then String backslash (String backslash "")
  else if Ascii.eqb c "010" then String backslash "n"
  else if Ascii.eqb c "013" then String backslash "r"
  else if Ascii.eqb c "009" then String backslash "t"
  else String c "".

Fixpoint escape (s : string) : string :=
  match s with
  | EmptyString => ""
  | String c s' => escape_char c ++ escape s'
  end.

Definition quote (s : string) : string :=
  String double_quote (escape s ++ String double_quote "").

Definition join (sep : string) (l : list string) : string :=
  match l with
  | [] => ""
  | x :: l' => fold_left (λ acc y, acc ++ sep ++ y) l' x
  end.

Fixpoint json_encode (t : jtree) : string :=
  match t with
  | JNull => "null"
  | JBool true => "true"
  | JBool false => "false"
  | JInt n => NilZero.string_of_int (Z.to_int n)
  | JStr s => quote s
  | JList items => "[" ++ join ", " (List.map json_encode items) ++ "]"
  | JDict entries =>
      "{" ++ join ", " (List.map (λ kv : string * jtree,
                                   quote kv.1 ++ ": " ++ json_encode kv.2)
                                entries) ++ "}"
  end.

Definition spaces (n : nat) : string := string_of_list_ascii (repeat " "%char n).

(** [json.dumps(obj, indent=indent)]: one item per line, each level moved
    [indent] columns to the right. *)
Fixpoint json_encode_at (indent level : nat) (t : jtree) : string :=
  let newline (k : nat) := String "010" (spaces (indent * k)) in
  match t with
  | JList [] => "[]"
  | JDict [] => "{}"
  | JList items =>
      "[" ++ newline (S level)
      ++ join ("," ++ newline (S level))
           (List.map (json_encode_at indent (S level)) items)
      ++ newline level ++ "]"
  | JDict entries =>
      "{" ++ newline (S level)
      ++ join ("," ++ newline (S level))
           (List.map (λ kv : string * jtree,
                        quote kv.1 ++ ": "
                        ++ json_encode_at indent (S level) kv.2)
                     entries)
      ++ newline level ++ "}"
  | _ => json_encode t
  end.

Definition json_encode_indent (indent : Z) (t : jtree) : string :=
  json_encode_at (Z.to_nat indent) 0 t.

Definition is_space (c : ascii) : bool :=
  Ascii.eqb c " " || Ascii.eqb c "010" || Ascii.eqb c "013" || Ascii.eqb c "009".

Fixpoint skip_space (s : string) : string :=
  match s with
  | String c s' => if is_space c then skip_space s' else s
  | EmptyString => s
  end.

(** The text of a string literal after its opening quote, and what follows
    the closing quote. *)
Fixpoint decode_string (s : string) : option (string * string) :=
  match s with
  | EmptyString => None
  | String c s' =>
      if Ascii.eqb c double_quote then Some ("", s')
      else if Ascii.eqb c backslash then
        match s' with
        | String e s'' =>
            let plain :=
              if Ascii.eqb e "n" then Some "010"%char
              else if Ascii.eqb e "r" then Some "013"%char
              else if Ascii.eqb e "t" then Some "009"%char
              else if Ascii.eqb e double_quote || Ascii.eqb e backslash
              then Some e
              else None in
            match plain, decode_string s'' with
            | Some c', Some (text, rest) => Some (String c' text, rest)
            | _, _ => None
            end
        | EmptyString => None
        end
      else
        match decode_string s' with
        | Some (text, rest) => Some (String c text, rest)
        | None => None
        end
  end.

Definition is_number_char (c : ascii) : bool :=
  Ascii.eqb c "-" || (Nat.leb 48 (nat_of_ascii c) && Nat.leb (nat_of_ascii c) 57).

Fixpoint span_number (s : string) : string * string :=
  match s with
  | String c s' =>
      if is_number_char c
      then let '(digits, rest) := span_number s' in (String c digits, rest)
      else ("", s)
  | EmptyString => ("", s)
  end.

(** The items of a list after the first, up to the closing bracket. *)
Fixpoint decode_items (decode : string → option (jtree * string)) (fuel : nat)
  (s : string) : option (list jtree * string) :=
  match fuel with
  | O => None
  | S k =>
      match decode s with
      | Some (t, rest) =>
          match skip_space rest with
          | String c rest' =>
              if Ascii.eqb c "]" then Some ([t], rest')
              else if Ascii.eqb c "," then
                match decode_items decode k rest' with
                | Some (ts, rest'') => Some (t :: ts, rest'')
                | None => None
                end
              else None
          | EmptyString => None
          end
      | None => None
      end
  end.

Fixpoint decode_entries (decode : string → option (jtree * string)) (fuel : nat)
  (s : string) : option (list (string * jtree) * string) :=
  match fuel with
  | O => None
  | S k =>
      match skip_space s with
      | String q s1 =>
          if Ascii.eqb q double_quote then
            match decode_string s1 with
            | Some (key, s2) =>
                match skip_space s2 with
                | String c s3 =>
                    if Ascii.eqb c ":" then
                      match decode s3 with
                      | Some (t, s4) =>
                          match skip_space s4 with
                          | String c' s5 =>
                              if Ascii.eqb c' "}" then Some ([(key, t)], s5)
                              else if Ascii.eqb c' "," then
                                match decode_entries decode k s5 with
                                | Some (kts, s6) => Some ((key, t) :: kts, s6)
                                | None => None
                                end
                              else None
                          | EmptyString => None
                          end
                      | None => None
                      end
                    else None
                | EmptyString => None
                end
            | None => None
            end
          else None
      | EmptyString => None
      end
  end.

Fixpoint decode_value (fuel : nat) (s : string) : option (jtree * string) :=
  match fuel with
  | O => None
  | S k =>
      let s := skip_space s in
      if String.prefix "null" s
      then Some (JNull, String.substring 4 (String.length s - 4) s)
      else if String.prefix "true" s
      then Some (JBool true, String.substring 4 (String.length s - 4) s)
      else if String.prefix "false" s
      then Some (JBool false, String.substring 5 (String.length s - 5) s)
      else
        match s with
        | EmptyString => None
        | String c s' =>
            if Ascii.eqb c double_quote then
              match decode_string s' with
              | Some (text, rest) => Some (JStr text, rest)
              | None => None
              end
            else if Ascii.eqb c "[" then
              match skip_space s' with
              | String c' rest =>
                  if Ascii.eqb c' "]" then Some (JList [], rest)
                  else
                    match decode_items (decode_value k) (String.length s') s' with
                    | Some (ts, rest) => Some (JList ts, rest)
                    | None => None
                    end
              | EmptyString => None
              end
            else if Ascii.eqb c "{" then
              match skip_space s' with
              | String c' rest =>
                  if Ascii.eqb c' "}" then Some (JDict [], rest)
                  else
                    match decode_entries (decode_value k) (String.length s') s' with
                    | Some (kts, rest) => Some (JDict kts, rest)
                    | None => None
                    end
              | EmptyString => None
              end
            else
              let '(digits, rest) := span_number s in
              match NilZero.int_of_string digits with
              | Some i => Some (JInt (Z.of_int i), rest)
              | None => None
              end
        end
  end.

(** The tree of a text that is one JSON value and nothing else. *)
Definition json_decode (s : string) : option jtree :=
  match decode_value (String.length s) s with
  | Some (t, rest) =>
      match skip_space rest with
      | EmptyString => Some t
      | _ => None
      end
  | None => None
  end.

(** What may follow a number in a text: not another digit or sign. *)
Definition number_free (rest : string) : bool :=
  match rest with
  | String c _ => negb (is_number_char c)
  | EmptyString => true
  end.

(** The text of one entry of a dictionary. *)
Definition encode_entry (kv : string * jtree) : string :=
  quote kv.1 ++ ": " ++ json_encode kv.2.

(** The descriptor that the sample record describes, and the sample store
    once [from_object_descriptor] has put it under reference 7. *)
Definition sample_descriptor (cls : descriptor_class) (sig : string)
  : ObjectInfo.t :=
  {| ObjectInfo.class := cls;
     ObjectInfo.identifier := mkObjectID (VStr "0xabc");
     ObjectInfo._type_raw := VRef 1;
     ObjectInfo._version := VInt 7;
     ObjectInfo._digest := VStr "dGVzdA==";
     ObjectInfo._owner := VStr "0xf00d";
     ObjectInfo._previous_transaction := VStr "cHJldg==";
     ObjectInfo._type_signature := VStr sig |}.

Definition sample_described (sig : string) : heap :=
  (from_object_descriptor (VRef 1) (sample_heap sig)).2.

(** The sample store with a content block whose identifier is not the
    descriptor's [objectId]. *)
Definition sample_mismatch (sig : string) : heap :=
  <[ 6%positive := HDict {[ "id" := VStr "0xdef" ]} ]> (sample_described sig).

(** The signatures on which classification stops with an exception: the
    package is ["0x2"] and the module is missing, or the module is ["coin"]
    or ["devnet_nft"] and the residual is missing, or the module is
    ["coin"] and the text inside [Coin<...>] has fewer than three
    components. *)
Definition malformed (sig : string) : bool :=
  match str_split "::" (Some 2) sig with
  | [] => true
  | pkg :: rest =>
      String.eqb pkg "0x2"
      && match rest with
         | [] => true
         | module :: [] =>
             String.eqb module "coin" || String.eqb module "devnet_nft"
         | module :: residual :: _ =>
             String.eqb module "coin"
             && Nat.ltb
                  (List.length (str_split "::" None (str_slice residual 5 (-1))))
                  3
         end
  end.

(** The sample store with a descriptor record that has no [objectId]. *)
Definition sample_without_objectId (sig : string) : heap :=
  <[ 1%positive := HDict (delete "objectId" (sample_descriptor_record sig)) ]>
  (sample_heap sig).

(** [d'] is [d] except, possibly, under the two keys that
    [from_object_type] writes. *)
Definition same_but_merged (d d' : gmap string value) : Prop :=
  ∀ key, key ≠ "previousTransaction" → key ≠ "storageRebate" →
         d' !! key = d !! key.

(** The sample records as documents. *)
Definition sample_descriptor_document (sig : string) : jtree :=
  JDict [("objectId", JStr "0xabc");
         ("version", JInt 7);
         ("digest", JStr "dGVzdA==");
         ("owner", JDict [("AddressOwner", JStr "0xf00d")]);
         ("previousTransaction", JStr "cHJldg==");
         ("type", JStr sig)].

Definition sample_object_document (sig : string) : jtree :=
  JDict [("type", JStr sig);
         ("dataType", JStr "moveObject");
         ("has_public_transfer", JBool true);
         ("fields", JDict [("id", JDict [("id", JStr "0xabc")]);
                           ("balance", JInt 100);
                           ("name", JStr "nft");
                           ("description", JStr "an nft");
                           ("url", JStr "ipfs://x")]);
         ("previousTransaction", JStr "dHgy");
         ("storageRebate", JInt 15)].

(** ** Content blocks that lack a field of their variant *)

(** The [fields] dictionary of a content block. *)
Definition block_fields (h : heap) (inblock : value) : result value :=
  match getitem h inblock "data" with
  | Ok indata => getitem h indata "fields"
  | Raise e => Raise e
  end.

(** The first of [keys], in the order the constructor reads them, that
    [fields] does not have. *)
Definition first_missing (h : heap) (fields : value) (keys : list string)
  : option string :=
  List.find (λ key, negb (has_key h fields key)) keys.

(** The sample store with the content of a native coin as section 8 of the
    specification gives it: [fields] holds [id] and [balance] and nothing
    else. *)
Definition sample_coin_heap (sig : string) : heap :=
  <[ 5%positive := HDict (<[ "id" := VRef 6 ]> {[ "balance" := VInt 100 ]}) ]>
  (sample_heap sig).

(** The sample store with a content block of the shape of section 6 and
    nothing more: [fields] holds the identifier only. *)
Definition sample_plain_heap (sig : string) : heap :=
  <[ 5%positive := HDict {[ "id" := VRef 6 ]} ]> (sample_heap sig).

(** The sample store with a content block whose [data] holds the type
    signature and nothing else. *)
Definition sample_bare_heap (sig : string) : heap :=
  <[ 4%positive := HDict {[ "type" := VStr sig ]} ]> (sample_heap sig).


(** * Properties *)

(** ** String operations on sample signatures *)

Example str_split_sui :
  str_split "::" (Some 2) "0x2::coin::Coin<0x2::sui::SUI>"
  = ["0x2"; "coin"; "Coin<0x2::sui::SUI>"].
Proof. reflexivity. Qed.

Example str_split_short : str_split "::" (Some 2) "abc" = ["abc"].
Proof. reflexivity. Qed.

Example str_split_empty : str_split "::" None "" = [""].
Proof. reflexivity. Qed.

Example str_split_colons : str_split "::" None "a:::b::" = ["a"; ":b"; ""].
Proof. reflexivity. Qed.

Example str_slice_coin :
  str_slice "Coin<0x2::sui::SUI>" 5 (-1)%Z = "0x2::sui::SUI".
Proof. reflexivity. Qed.

Example str_slice_short : str_slice "Coin" 5 (-1)%Z = "".
Proof. reflexivity. Qed.

(** A signature written [pkg::module::name] splits into its three
    parts. *)
Lemma substring_all (s : string) : String.substring 0 (String.length s) s = s.
Proof. induction s as [|c s IH]; simpl; [done|]. by rewrite IH. Qed.

Lemma str_partition_join (before after : string) :
  colon_free before = true →
  str_partition "::" (before ++ "::" ++ after) = Some (before, after).
Proof.
  induction before as [|c before IH]; intros Hfree.
  - change ("" ++ "::" ++ after) with (String ":" (String ":" after)).
    simpl. destruct after as [|a after]; simpl; [done|].
    by rewrite substring_all.
  - simpl in Hfree. apply andb_true_iff in Hfree as [Hc Hfree].
    apply negb_true_iff, Ascii.eqb_neq in Hc.
    change (str_partition "::" (String c (before ++ "::" ++ after))
            = Some (String c before, after)).
    cbn [str_partition String.prefix].
    destruct (ascii_dec ":" c) as [<-|_]; [done|].
    change (match str_partition "::" (before ++ "::" ++ after) with
            | Some (b, a) => Some (String c b, a)
            | None => None
            end = Some (String c before, after)).
    by rewrite IH.
Qed.

Lemma str_split_join (pkg module name : string) :
  colon_free pkg = true →
  colon_free module = true →
  str_split "::" (Some 2) (pkg ++ "::" ++ module ++ "::" ++ name)
  = [pkg; module; name].
Proof.
  intros Hpkg Hmodule. unfold str_split. cbn [str_split_n].
  rewrite str_partition_join by done.
  by rewrite str_partition_join by done.
Qed.

(** ** Running a computation *)

Lemma bind_run {A B} (m : Py A) (f : A → Py B) (h : heap) :
  (m ≫= f) h =
  match m h with
  | (Ok a, h') => f a h'
  | (Raise e, h') => (Raise e, h')
  end.
Proof. reflexivity. Qed.

Lemma subscript_run (obj : value) (key : string) (h : heap) :
  subscript obj key h = (getitem h obj key, h).
Proof. reflexivity. Qed.

Lemma index_run (l : list string) (i : nat) (h : heap) :
  index l i h =
  (match l !! i with Some x => Ok x | None => Raise IndexError end, h).
Proof. unfold index. by destruct (l !! i). Qed.

Ltac py_step :=
  rewrite ?bind_run, ?subscript_run, ?index_run; simpl.

(** ** Both classifiers follow [classify] *)

Lemma from_object_descriptor_classify (h : heap) (indata : value) (sig : string) :
  getitem h indata "type" = Ok (VStr sig) →
  from_object_descriptor indata h =
  match classify sig with
  | Ok v => new_descriptor (descriptor_variant v) indata h
  | Raise e => (Raise e, h)
  end.
Proof.
  intros Htype. unfold from_object_descriptor, classify.
  rewrite bind_run, subscript_run, Htype. unfold split_method.
  generalize (str_split "::" (Some 2) sig). intros split.
  rewrite bind_run. unfold mret at 1, Py_ret at 1.
  destruct split as [|pkg [|module [|residual rest]]]; py_step; try done;
    repeat (case_match; py_step; try done); by simplify_eq.
Qed.

Lemma from_object_type_classify (h h1 : heap) (descriptor inblock indata : value)
  (sig : string) :
  merge_block inblock h = (Ok indata, h1) →
  getitem h1 indata "type" = Ok (VStr sig) →
  from_object_type descriptor inblock h =
  match classify sig with
  | Ok v => new_object (object_init v) (object_variant v) indata descriptor h1
  | Raise e => (Raise e, h1)
  end.
Proof.
  unfold from_object_type, merge_block, classify. intros Hmerge Htype.
  rewrite !bind_run, !subscript_run in *.
  destruct (getitem h inblock "data") as [indata'|]; [|done].
  rewrite !bind_run, !subscript_run in *.
  destruct (getitem h inblock "previousTransaction") as [pt|]; [|done].
  rewrite !bind_run in *.
  destruct (setitem indata' "previousTransaction" pt h) as [[[]|] h'] eqn:Hset1;
    [|done].
  rewrite !bind_run, !subscript_run in *.
  destruct (getitem h' inblock "storageRebate") as [sr|]; [|done].
  rewrite !bind_run in *.
  destruct (setitem indata' "storageRebate" sr h') as [[[]|] h''] eqn:Hset2;
    [|done].
  injection Hmerge as -> ->.
  rewrite bind_run, subscript_run, Htype. unfold split_method.
  generalize (str_split "::" (Some 2) sig). intros split.
  rewrite bind_run. unfold mret at 1, Py_ret at 1.
  destruct split as [|pkg [|module [|residual rest]]]; py_step; try done;
    repeat (case_match; py_step; try done); by simplify_eq.
Qed.

(** ** Reading dictionaries *)

Lemma has_key_Ok (h : heap) (obj : value) (key : string) :
  has_key h obj key = true → ∃ v, getitem h obj key = Ok v.
Proof. unfold has_key. destruct (getitem h obj key); naive_solver. Qed.

Lemma getitem_Ok_inv (h : heap) (obj : value) (key : string) (v : value) :
  getitem h obj key = Ok v →
  ∃ l d, obj = VRef l ∧ h !! l = Some (HDict d) ∧ d !! key = Some v.
Proof.
  unfold getitem. intros H. repeat case_match; simplify_eq. eauto.
Qed.

Lemma getitem_dict (h : heap) (l : loc) (d : gmap string value) (key : string) :
  h !! l = Some (HDict d) →
  getitem h (VRef l) key =
  match d !! key with Some v => Ok v | None => Raise (KeyError key) end.
Proof. intros H. unfold getitem. by rewrite H. Qed.

(** A successful read is not disturbed by a new object. *)
Lemma getitem_alloc (h : heap) (l : loc) (o : hobj) (obj : value) (key : string)
  (v : value) :
  h !! l = None →
  getitem h obj key = Ok v →
  getitem (<[l := o]> h) obj key = Ok v.
Proof.
  intros Hl (l' & d & -> & Hd & Hk)%getitem_Ok_inv.
  rewrite (getitem_dict _ l' d), Hk; [done|].
  rewrite lookup_insert_ne; [done|]. intros ->. congruence.
Qed.

Lemma fresh_heap (h : heap) : h !! fresh (dom h) = None.
Proof. apply not_elem_of_dom, is_fresh. Qed.

(** ** The descriptor constructor *)

(** [ObjectInfo.__init__] only reads. *)
Lemma ObjectInfo__init___heap (cls : descriptor_class) (indata : value) (h : heap) :
  (ObjectInfo__init__ cls indata h).2 = h.
Proof.
  unfold ObjectInfo__init__.
  repeat (rewrite bind_run, subscript_run;
          match goal with |- context [getitem ?h ?o ?k] =>
            destruct (getitem h o k); [|done] end).
  done.
Qed.

(** On a descriptor record the constructor returns, and every attribute is
    the value stored under the corresponding key. *)
Lemma ObjectInfo__init___ok (cls : descriptor_class) (indata : value) (h : heap) :
  descriptor_input h indata = true →
  ∃ o owner,
    ObjectInfo__init__ cls indata h = (Ok o, h)
    ∧ ObjectInfo.class o = cls
    ∧ ObjectInfo._type_raw o = indata
    ∧ getitem h indata "objectId" = Ok (object_id (ObjectInfo.identifier o))
    ∧ getitem h indata "version" = Ok (ObjectInfo._version o)
    ∧ getitem h indata "digest" = Ok (ObjectInfo._digest o)
    ∧ getitem h indata "owner" = Ok owner
    ∧ getitem h owner "AddressOwner" = Ok (ObjectInfo._owner o)
    ∧ getitem h indata "previousTransaction"
      = Ok (ObjectInfo._previous_transaction o)
    ∧ getitem h indata "type" = Ok (ObjectInfo._type_signature o).
Proof.
  unfold descriptor_input. rewrite !andb_true_iff.
  intros [[[[[[oid Hoid]%has_key_Ok [ver Hver]%has_key_Ok]
    [dig Hdig]%has_key_Ok] Hown] [ptx Hptx]%has_key_Ok] [ty Hty]%has_key_Ok].
  destruct (getitem h indata "owner") as [owner|] eqn:Howner; [|done].
  apply has_key_Ok in Hown as [addr Haddr].
  eexists _, owner. unfold ObjectInfo__init__.
  rewrite bind_run, subscript_run, Hoid.
  rewrite bind_run, subscript_run, Hver.
  rewrite bind_run, subscript_run, Hdig.
  rewrite bind_run, subscript_run, Howner.
  rewrite bind_run, subscript_run, Haddr.
  rewrite bind_run, subscript_run, Hptx.
  rewrite bind_run, subscript_run, Hty.
  split; [reflexivity|]. simpl. by repeat split.
Qed.

Lemma new_descriptor_ok (cls : descriptor_class) (indata : value) (h : heap)
  (o : ObjectInfo.t) :
  ObjectInfo__init__ cls indata h = (Ok o, h) →
  new_descriptor cls indata h
  = (Ok (VRef (fresh (dom h))), <[fresh (dom h) := HDescriptor o]> h).
Proof. intros H. unfold new_descriptor. by rewrite bind_run, H. Qed.

(** A call of a descriptor class either raises, leaving the store as it
    was, or adds one descriptor to it. *)
Lemma new_descriptor_run (cls : descriptor_class) (indata : value) (h : heap) :
  (∃ e, new_descriptor cls indata h = (Raise e, h))
  ∨ (∃ o, ObjectInfo__init__ cls indata h = (Ok o, h)
        ∧ new_descriptor cls indata h
          = (Ok (VRef (fresh (dom h))), <[fresh (dom h) := HDescriptor o]> h)).
Proof.
  pose proof (ObjectInfo__init___heap cls indata h) as Hh.
  unfold new_descriptor. rewrite bind_run.
  destruct (ObjectInfo__init__ cls indata h) as [[o|e] h']; simpl in Hh; subst.
  - right. eauto.
  - left. eauto.
Qed.

Lemma returned_class_new_descriptor (cls : descriptor_class) (indata : value)
  (h : heap) :
  descriptor_input h indata = true →
  returned_class (new_descriptor cls indata h) = Some (inl cls).
Proof.
  intros (o & owner & Hinit & Hcls & _)%(ObjectInfo__init___ok cls).
  rewrite (new_descriptor_ok _ _ _ _ Hinit). simpl.
  by rewrite lookup_insert_eq, Hcls.
Qed.

(** ** Writing dictionaries *)

Lemma setitem_run (h : heap) (l : loc) (d : gmap string value) (key : string)
  (v : value) :
  h !! l = Some (HDict d) →
  setitem (VRef l) key v h = (Ok tt, <[l := HDict (<[key := v]> d)]> h).
Proof. intros H. unfold setitem. by rewrite H. Qed.

(** After [obj[key] = v] the dictionary [obj] has [v] under [key]; every
    other read gives what it gave before, through whatever reference. *)
Lemma getitem_setitem (h : heap) (l : loc) (d : gmap string value)
  (key : string) (v : value) (obj : value) (key' : string) :
  h !! l = Some (HDict d) →
  getitem (<[l := HDict (<[key := v]> d)]> h) obj key' =
  if decide (obj = VRef l ∧ key' = key) then Ok v else getitem h obj key'.
Proof.
  intros Hl.
  destruct obj as [| | | |l']; try by (rewrite decide_False by (by intros [? _])).
  destruct (decide (l' = l)) as [->|Hne].
  - rewrite (getitem_dict _ l (<[key := v]> d)) by apply lookup_insert_eq.
    rewrite (getitem_dict h l d) by done.
    destruct (decide (VRef l = VRef l ∧ key' = key)) as [[_ ->]|Hk].
    + by rewrite lookup_insert_eq.
    + rewrite lookup_insert_ne; [done|]. intros ->. by apply Hk.
  - rewrite decide_False by (intros [[= ->] _]; done).
    unfold getitem. by rewrite lookup_insert_ne.
Qed.

Lemma getitem_setitem_ne (h : heap) (l : loc) (d : gmap string value)
  (key : string) (v : value) (obj : value) (key' : string) :
  h !! l = Some (HDict d) →
  key' ≠ key →
  getitem (<[l := HDict (<[key := v]> d)]> h) obj key' = getitem h obj key'.
Proof.
  intros Hl Hne. rewrite (getitem_setitem h l d) by done.
  by rewrite decide_False by (by intros [_ ?]).
Qed.

(** ** The first statements of [from_object_type] *)

Lemma merge_block_ok (h : heap) (inblock : value) (l : loc)
  (d : gmap string value) (pt sr : value) :
  getitem h inblock "data" = Ok (VRef l) →
  h !! l = Some (HDict d) →
  getitem h inblock "previousTransaction" = Ok pt →
  getitem h inblock "storageRebate" = Ok sr →
  merge_block inblock h = (Ok (VRef l), <[l := HDict (merged d pt sr)]> h).
Proof.
  intros Hdata Hl Hpt Hsr. unfold merge_block.
  rewrite bind_run, subscript_run, Hdata.
  rewrite bind_run, subscript_run, Hpt.
  rewrite bind_run, (setitem_run h l d) by done.
  rewrite bind_run, subscript_run.
  rewrite (getitem_setitem_ne h l d) by done. rewrite Hsr.
  rewrite bind_run.
  rewrite (setitem_run _ l (<["previousTransaction" := pt]> d))
    by apply lookup_insert_eq.
  by rewrite insert_insert_eq.
Qed.

Lemma getitem_merged (h : heap) (l : loc) (d : gmap string value) (pt sr : value)
  (obj : value) (key : string) :
  h !! l = Some (HDict d) →
  getitem (<[l := HDict (merged d pt sr)]> h) obj key =
  if decide (obj = VRef l ∧ key = "storageRebate") then Ok sr
  else if decide (obj = VRef l ∧ key = "previousTransaction") then Ok pt
  else getitem h obj key.
Proof.
  intros Hl. unfold merged.
  rewrite <- (insert_insert_eq h l _ (HDict (<["previousTransaction" := pt]> d))).
  rewrite (getitem_setitem _ l (<["previousTransaction" := pt]> d))
    by apply lookup_insert_eq.
  destruct (decide (obj = VRef l ∧ key = "storageRebate")); [done|].
  by apply getitem_setitem.
Qed.

Lemma getitem_merged_ne (h : heap) (l : loc) (d : gmap string value)
  (pt sr : value) (obj : value) (key : string) :
  h !! l = Some (HDict d) →
  key ≠ "previousTransaction" →
  key ≠ "storageRebate" →
  getitem (<[l := HDict (merged d pt sr)]> h) obj key = getitem h obj key.
Proof.
  intros Hl H1 H2. rewrite (getitem_merged h l d) by done.
  by rewrite !decide_False by (by intros [_ ?]).
Qed.

(** ** The object constructors *)

Lemma data_input_inv (cls : object_class) (h : heap) (indata : value) :
  data_input cls h indata = true →
  ∃ ty dt hpt fields id idid,
    getitem h indata "type" = Ok ty
    ∧ getitem h indata "dataType" = Ok dt
    ∧ getitem h indata "has_public_transfer" = Ok hpt
    ∧ getitem h indata "fields" = Ok fields
    ∧ getitem h fields "id" = Ok id
    ∧ getitem h id "id" = Ok idid
    ∧ Forall (λ key, ∃ v, getitem h fields key = Ok v) (variant_fields cls).
Proof.
  unfold data_input. rewrite !andb_true_iff.
  intros [[[[ty Hty]%has_key_Ok [dt Hdt]%has_key_Ok] [hpt Hhpt]%has_key_Ok] H].
  destruct (getitem h indata "fields") as [fields|] eqn:Hfields; [|done].
  apply andb_true_iff in H as [Hid Hall].
  destruct (getitem h fields "id") as [id|] eqn:Hid'; [|done].
  apply has_key_Ok in Hid as [idid Hidid].
  exists ty, dt, hpt, fields, id, idid. repeat split; try done.
  apply Forall_forall. intros key Hin.
  rewrite forallb_forall in Hall. apply has_key_Ok, Hall.
  by apply list_elem_of_In.
Qed.

Lemma ObjectRead__init___ok (cls cls' : object_class) (indata descriptor : value)
  (h : heap) :
  data_input cls' h indata = true →
  has_key h indata "previousTransaction" = true →
  has_key h indata "storageRebate" = true →
  ∃ o, ObjectRead__init__ cls indata descriptor h = (Ok o, h)
       ∧ object_base h indata descriptor cls o
       ∧ ObjectRead._description o = None
       ∧ ObjectRead._name o = None
       ∧ ObjectRead._url o = None
       ∧ ObjectRead._children o = None
       ∧ ObjectRead._data o = None
       ∧ ObjectRead._data_definition o = None
       ∧ ObjectRead._balance o = None.
Proof.
  intros (ty & dt & hpt & fields & id & idid & Hty & Hdt & Hhpt & Hf & Hid
            & Hidid & _)%data_input_inv [pt Hpt]%has_key_Ok [sr Hsr]%has_key_Ok.
  eexists. unfold ObjectRead__init__.
  rewrite bind_run, subscript_run, Hf.
  rewrite bind_run, subscript_run, Hid.
  rewrite bind_run, subscript_run, Hidid.
  rewrite bind_run, subscript_run, Hty.
  rewrite bind_run, subscript_run, Hdt.
  rewrite bind_run, subscript_run, Hhpt.
  rewrite bind_run, subscript_run, Hpt.
  rewrite bind_run, subscript_run, Hsr.
  split; [reflexivity|]. unfold object_base. simpl.
  repeat split; try done. by exists fields, id.
Qed.

(** [ObjectRead.__init__] only reads. *)
Lemma ObjectRead__init___heap (cls : object_class) (indata descriptor : value)
  (h : heap) :
  (ObjectRead__init__ cls indata descriptor h).2 = h.
Proof.
  unfold ObjectRead__init__.
  repeat (rewrite bind_run, subscript_run;
          match goal with |- context [getitem ?h ?o ?k] =>
            destruct (getitem h o k); [|done] end).
  done.
Qed.

(** Whatever the descriptor, the constructor does the same: the descriptor
    is stored and never looked at. *)
Lemma ObjectRead__init___descriptor (cls : object_class)
  (indata descriptor descriptor' : value) (h : heap) :
  match ObjectRead__init__ cls indata descriptor h,
        ObjectRead__init__ cls indata descriptor' h with
  | (Ok o, _), (Ok o', _) =>
      ObjectRead.identifier o = ObjectRead.identifier o'
      ∧ ObjectRead._descriptor o = descriptor
      ∧ ObjectRead._descriptor o' = descriptor'
  | (Raise e, _), (Raise e', _) => e = e'
  | _, _ => False
  end.
Proof.
  unfold ObjectRead__init__.
  repeat (rewrite !bind_run, !subscript_run;
          match goal with |- context [getitem ?h ?o ?k] =>
            destruct (getitem h o k); [|done] end).
  done.
Qed.

Lemma lookup_alloc (h : heap) (o x : hobj) (l : loc) :
  h !! l = Some x → <[fresh (dom h) := o]> h !! l = Some x.
Proof.
  intros H. rewrite lookup_insert_ne; [done|].
  intros <-. by rewrite fresh_heap in H.
Qed.

Lemma getitem_fresh (h : heap) (o : hobj) (obj : value) (key : string) (v : value) :
  getitem h obj key = Ok v →
  getitem (<[fresh (dom h) := o]> h) obj key = Ok v.
Proof. apply getitem_alloc, fresh_heap. Qed.

(** *** The copying loop of [SuiDataType.__init__] *)

Lemma for_each_copy (kvs : list (string * value)) (l : loc)
  (acc : gmap string value) (h : heap) :
  h !! l = Some (HDict acc) →
  for_each kvs (λ '(key, value),
      if negb (String.eqb key "id") then setitem (VRef l) key value
      else mret tt) h
  = (Ok tt, <[l := HDict (foldl copy_field acc kvs)]> h).
Proof.
  revert acc h. induction kvs as [|[key v] kvs IH]; intros acc h Hl; simpl.
  - by rewrite insert_id.
  - rewrite bind_run. unfold copy_field at 2. simpl.
    destruct (String.eqb key "id"); simpl.
    + by apply IH.
    + rewrite Hl.
      rewrite (IH (<[key := v]> acc)) by apply lookup_insert_eq.
      by rewrite insert_insert_eq.
Qed.

Lemma foldl_copy_field_lookup (kvs : list (string * value))
  (acc : gmap string value) (key : string) :
  NoDup kvs.*1 →
  foldl copy_field acc kvs !! key =
  if decide (key = "id") then acc !! key
  else match (list_to_map kvs : gmap string value) !! key with
       | Some v => Some v
       | None => acc !! key
       end.
Proof.
  revert acc. induction kvs as [|[k v] kvs IH]; intros acc Hnd; simpl.
  - by destruct (decide (key = "id")).
  - apply NoDup_cons in Hnd as [Hk Hnd]. rewrite IH by done.
    unfold copy_field. simpl.
    destruct (decide (key = "id")) as [->|Hkey].
    + destruct (String.eqb_spec k "id") as [->|Hne]; simpl; [done|].
      by rewrite lookup_insert_ne.
    + destruct (decide (k = key)) as [->|Hne].
      * rewrite lookup_insert_eq.
        rewrite (not_elem_of_list_to_map_1 kvs key) by done.
        destruct (String.eqb_spec key "id"); [done|]. simpl.
        by rewrite lookup_insert_eq.
      * rewrite (lookup_insert_ne (list_to_map kvs)) by done.
        destruct (String.eqb k "id"); simpl; [done|].
        by rewrite lookup_insert_ne.
Qed.

(** The loop leaves every field but ["id"]. *)
Lemma foldl_copy_field (fields : gmap string value) :
  foldl copy_field ∅ (map_to_list fields) = delete "id" fields.
Proof.
  apply map_eq. intros key.
  rewrite foldl_copy_field_lookup by apply NoDup_fst_map_to_list.
  rewrite list_to_map_to_list, lookup_empty.
  destruct (decide (key = "id")) as [->|Hne].
  - by rewrite lookup_delete_eq.
  - rewrite lookup_delete_ne by done. by destruct (fields !! key).
Qed.

(** *** [SuiDataType.__init__] *)

Lemma SuiDataType__init___ok (cls cls' : object_class) (indata descriptor : value)
  (h : heap) (sig : string) :
  data_input cls' h indata = true →
  has_key h indata "previousTransaction" = true →
  has_key h indata "storageRebate" = true →
  getitem h indata "type" = Ok (VStr sig) →
  ∃ o h' lf F lc ld ldd,
    SuiDataType__init__ cls indata descriptor h = (Ok o, h')
    ∧ object_base h indata descriptor cls o
    ∧ h ⊆ h'
    ∧ getitem h indata "fields" = Ok (VRef lf)
    ∧ h !! lf = Some (HDict F)
    ∧ ObjectRead._children o = Some (VRef lc)
    ∧ h' !! lc = Some (HList [])
    ∧ ObjectRead._data o = Some (VRef ld)
    ∧ h' !! ld = Some (HDict (delete "id" F))
    ∧ ObjectRead._data_definition o = Some (VRef ldd)
    ∧ h' !! ldd = Some (HDict (dict_zip ["package"; "module"; "structure"]
                                  (str_split "::" (Some 2) sig)))
    ∧ h !! lc = None ∧ h !! ld = None ∧ h !! ldd = None.
Proof.
  intros Hin Hpt Hsr Hty.
  destruct (ObjectRead__init___ok cls cls' indata descriptor h Hin Hpt Hsr)
    as (o & Hinit & Hbase & Hrest).
  apply data_input_inv in Hin
    as (_ & _ & _ & fields & id & _ & _ & _ & _ & Hf & Hid & _).
  apply getitem_Ok_inv in Hid as (lf & F & -> & HF & _).
  set (lc := fresh (dom h)). set (h1 := <[lc := HList []]> h).
  set (ld := fresh (dom h1)). set (h2 := <[ld := HDict ∅]> h1).
  set (ldd := fresh (dom h2)).
  set (dd := dict_zip ["package"; "module"; "structure"]
               (str_split "::" (Some 2) sig)).
  set (h3 := <[ldd := HDict dd]> h2).
  assert (Hlc : h !! lc = None) by apply fresh_heap.
  assert (Hld1 : h1 !! ld = None) by apply fresh_heap.
  assert (Hldd2 : h2 !! ldd = None) by apply fresh_heap.
  assert (Hld : h !! ld = None ∧ ld ≠ lc).
  { unfold h1 in Hld1. apply lookup_insert_None in Hld1 as [? ?]. by split. }
  assert (Hldd : h !! ldd = None ∧ ldd ≠ lc ∧ ldd ≠ ld).
  { unfold h2, h1 in Hldd2. rewrite !lookup_insert_None in Hldd2.
    destruct Hldd2 as [[? ?] ?]. by repeat split. }
  destruct Hld as [Hld Hldlc]. destruct Hldd as (Hldd & Hlddlc & Hlddld).
  assert (Hsub : h ⊆ h3).
  { unfold h3, h2, h1. etrans; [|apply insert_subseteq; done].
    etrans; [|apply insert_subseteq; done]. by apply insert_subseteq. }
  assert (Hty' : ObjectRead._type_signature o = VStr sig).
  { destruct Hbase as (_ & _ & _ & _ & Hty' & _). congruence. }
  eexists _, (<[ld := HDict (delete "id" F)]> h3), lf, F, lc, ld, ldd.
  split.
  { unfold SuiDataType__init__. rewrite bind_run, Hinit.
    rewrite bind_run. unfold alloc at 1. fold lc h1.
    rewrite bind_run. unfold alloc at 1. fold ld h2.
    rewrite bind_run, Hty'. unfold split_method, mret at 1, Py_ret at 1.
    rewrite bind_run. unfold alloc at 1. fold ldd dd h3.
    assert (Hf3 : getitem h3 indata "fields" = Ok (VRef lf))
      by (by do 3 apply getitem_fresh).
    rewrite bind_run, subscript_run, Hf3, bind_run.
    unfold items, reading.
    rewrite (lookup_weaken h h3 lf (HDict F)) by done.
    rewrite bind_run.
    rewrite (for_each_copy _ ld ∅).
    2:{ unfold h3. rewrite lookup_insert_ne by done. apply lookup_insert_eq. }
    rewrite foldl_copy_field. reflexivity. }
  clear Hrest. split_and!; try done.
  - destruct Hbase as (? & ? & ? & ? & ? & ? & ? & ? & ?).
    unfold object_base. simpl. by split_and!.
  - apply map_subseteq_spec. intros l x Hl.
    rewrite lookup_insert_ne by (intros <-; congruence).
    by apply (lookup_weaken h h3).
  - rewrite lookup_insert_ne by done. unfold h3, h2.
    rewrite !lookup_insert_ne by done. apply lookup_insert_eq.
  - apply lookup_insert_eq.
  - rewrite lookup_insert_ne by done. apply lookup_insert_eq.
Qed.

(** *** [SuiNftType.__init__] and [SuiGasType.__init__] *)

Lemma SuiNftType__init___ok (cls : object_class) (indata descriptor : value)
  (h : heap) :
  data_input SuiNftType_class h indata = true →
  has_key h indata "previousTransaction" = true →
  has_key h indata "storageRebate" = true →
  ∃ o fields description name url,
    SuiNftType__init__ cls indata descriptor h = (Ok o, h)
    ∧ object_base h indata descriptor cls o
    ∧ getitem h indata "fields" = Ok fields
    ∧ getitem h fields "description" = Ok description
    ∧ getitem h fields "name" = Ok name
    ∧ getitem h fields "url" = Ok url
    ∧ ObjectRead._description o = Some description
    ∧ ObjectRead._name o = Some name
    ∧ ObjectRead._url o = Some url.
Proof.
  intros Hin Hpt Hsr.
  destruct (ObjectRead__init___ok cls _ indata descriptor h Hin Hpt Hsr)
    as (o & Hinit & Hbase & _).
  apply data_input_inv in Hin
    as (_ & _ & _ & fields & _ & _ & _ & _ & _ & Hf & _ & _ & Hall).
  simpl in Hall. rewrite !Forall_cons in Hall.
  destruct Hall as ([description Hd] & [name Hn] & [url Hu] & _).
  eexists _, fields, description, name, url.
  unfold SuiNftType__init__. rewrite bind_run, Hinit.
  rewrite bind_run, subscript_run, Hf, bind_run, subscript_run, Hd.
  rewrite bind_run, subscript_run, Hf, bind_run, subscript_run, Hn.
  rewrite bind_run, subscript_run, Hf, bind_run, subscript_run, Hu.
  split; [reflexivity|]. simpl. split_and!; try done;
    destruct Hbase as (? & ? & ? & ? & ? & ? & ? & ? & ?);
    unfold object_base; simpl; by split_and!.
Qed.

Lemma SuiGasType__init___ok (cls : object_class) (indata descriptor : value)
  (h : heap) :
  data_input SuiGasType_class h indata = true →
  has_key h indata "previousTransaction" = true →
  has_key h indata "storageRebate" = true →
  ∃ o fields balance,
    SuiGasType__init__ cls indata descriptor h = (Ok o, h)
    ∧ object_base h indata descriptor cls o
    ∧ getitem h indata "fields" = Ok fields
    ∧ getitem h fields "balance" = Ok balance
    ∧ ObjectRead._balance o = Some balance.
Proof.
  intros Hin Hpt Hsr.
  destruct (ObjectRead__init___ok cls _ indata descriptor h Hin Hpt Hsr)
    as (o & Hinit & Hbase & _).
  apply data_input_inv in Hin
    as (_ & _ & _ & fields & _ & _ & _ & _ & _ & Hf & _ & _ & Hall).
  simpl in Hall. rewrite !Forall_cons in Hall.
  destruct Hall as ([balance Hb] & _).
  eexists _, fields, balance.
  unfold SuiGasType__init__. rewrite bind_run, Hinit.
  rewrite bind_run, subscript_run, Hf, bind_run, subscript_run, Hb.
  split; [reflexivity|]. simpl. split_and!; try done;
    destruct Hbase as (? & ? & ? & ? & ? & ? & ? & ? & ?);
    unfold object_base; simpl; by split_and!.
Qed.

(** *** Every object class *)

(** On well-formed content the constructor of each variant returns an
    instance with the attributes of [ObjectRead.__init__], and whatever was
    in the store is still there. *)
Lemma object_init_ok (v : variant) (cls : object_class)
  (indata descriptor : value) (h : heap) (sig : string) :
  data_input (object_variant v) h indata = true →
  has_key h indata "previousTransaction" = true →
  has_key h indata "storageRebate" = true →
  getitem h indata "type" = Ok (VStr sig) →
  ∃ o h',
    object_init v cls indata descriptor h = (Ok o, h')
    ∧ object_base h indata descriptor cls o
    ∧ h ⊆ h'.
Proof.
  intros Hin Hpt Hsr Hty. destruct v; simpl in *.
  - destruct (ObjectRead__init___ok cls _ indata descriptor h Hin Hpt Hsr)
      as (o & ? & ? & _). by exists o, h.
  - destruct (SuiDataType__init___ok cls _ indata descriptor h sig Hin Hpt Hsr Hty)
      as (o & h' & ? & ? & ? & ? & ? & ? & ? & ? & _). by exists o, h'.
  - destruct (SuiNftType__init___ok cls indata descriptor h Hin Hpt Hsr)
      as (o & ? & ? & ? & ? & ? & ? & _). by exists o, h.
  - destruct (ObjectRead__init___ok cls _ indata descriptor h Hin Hpt Hsr)
      as (o & ? & ? & _). by exists o, h.
  - destruct (SuiGasType__init___ok cls indata descriptor h Hin Hpt Hsr)
      as (o & ? & ? & ? & ? & ? & _). by exists o, h.
Qed.

Lemma new_object_ok (init : object_class → value → value → Py ObjectRead.t)
  (cls : object_class) (indata descriptor : value) (h h' : heap)
  (o : ObjectRead.t) :
  init cls indata descriptor h = (Ok o, h') →
  new_object init cls indata descriptor h
  = (Ok (VRef (fresh (dom h'))), <[fresh (dom h') := HObject o]> h').
Proof. intros H. unfold new_object. by rewrite bind_run, H. Qed.

(** ** Content blocks *)

Lemma data_input_merged (cls : object_class) (h : heap) (l : loc)
  (d : gmap string value) (pt sr : value) (indata : value) :
  h !! l = Some (HDict d) →
  data_input cls (<[l := HDict (merged d pt sr)]> h) indata
  = data_input cls h indata.
Proof.
  intros Hl. unfold data_input, has_key.
  rewrite !(getitem_merged_ne h l d) by done.
  destruct (getitem h indata "fields") as [fields|]; [|done].
  rewrite !(getitem_merged_ne h l d) by done.
  destruct (getitem h fields "id") as [id|];
    destruct cls; simpl; by rewrite ?(getitem_merged_ne h l d) by done.
Qed.

(** On a content block the first statements of [from_object_type] succeed:
    they return the block's own [data] dictionary, now holding the block's
    [previousTransaction] and [storageRebate] as well. *)
Lemma block_input_merge (cls : object_class) (h : heap) (inblock : value) :
  block_input cls h inblock = true →
  ∃ l d pt sr,
    getitem h inblock "data" = Ok (VRef l)
    ∧ h !! l = Some (HDict d)
    ∧ getitem h inblock "previousTransaction" = Ok pt
    ∧ getitem h inblock "storageRebate" = Ok sr
    ∧ merge_block inblock h = (Ok (VRef l), <[l := HDict (merged d pt sr)]> h)
    ∧ data_input cls (<[l := HDict (merged d pt sr)]> h) (VRef l) = true
    ∧ getitem (<[l := HDict (merged d pt sr)]> h) (VRef l) "previousTransaction"
      = Ok pt
    ∧ getitem (<[l := HDict (merged d pt sr)]> h) (VRef l) "storageRebate"
      = Ok sr.
Proof.
  unfold block_input. rewrite !andb_true_iff.
  intros [[[pt Hpt]%has_key_Ok [sr Hsr]%has_key_Ok] Hdata].
  destruct (getitem h inblock "data") as [indata|] eqn:Hd; [|done].
  pose proof Hdata as Hdata'.
  apply data_input_inv in Hdata'
    as (ty & _ & _ & _ & _ & _ & Hty & _).
  apply getitem_Ok_inv in Hty as (l & d & -> & Hl & _).
  exists l, d, pt, sr. split_and!; try done.
  - by apply merge_block_ok.
  - by rewrite data_input_merged.
  - rewrite (getitem_merged h l d) by done.
    rewrite decide_False by (by intros [_ ?]). by rewrite decide_True.
  - rewrite (getitem_merged h l d) by done. by rewrite decide_True.
Qed.

(** The classifier on a content block whose signature [classify] accepts:
    it returns a new instance of the variant's class, built from the
    block's [data] dictionary and holding the descriptor it was given. *)
Lemma from_object_type_ok (v : variant) (descriptor inblock : value) (h : heap)
  (sig : string) :
  block_input (object_variant v) h inblock = true →
  block_signature h inblock = Some sig →
  classify sig = Ok v →
  ∃ l d pt sr o h',
    getitem h inblock "data" = Ok (VRef l)
    ∧ h !! l = Some (HDict d)
    ∧ getitem h inblock "previousTransaction" = Ok pt
    ∧ getitem h inblock "storageRebate" = Ok sr
    ∧ object_init v (object_variant v) (VRef l) descriptor
        (<[l := HDict (merged d pt sr)]> h) = (Ok o, h')
    ∧ object_base (<[l := HDict (merged d pt sr)]> h) (VRef l) descriptor
        (object_variant v) o
    ∧ <[l := HDict (merged d pt sr)]> h ⊆ h'
    ∧ from_object_type descriptor inblock h
      = (Ok (VRef (fresh (dom h'))), <[fresh (dom h') := HObject o]> h').
Proof.
  intros (l & d & pt & sr & Hdata & Hl & Hpt & Hsr & Hmerge & Hin & Hpt' & Hsr')
    %block_input_merge Hsig Hcls.
  unfold block_signature, type_signature_of in Hsig. rewrite Hdata in Hsig.
  destruct (getitem h (VRef l) "type") as [[| | |sig'|]|] eqn:Hty; simplify_eq.
  assert (Hty' : getitem (<[l := HDict (merged d pt sr)]> h) (VRef l) "type"
                 = Ok (VStr sig))
    by (by rewrite (getitem_merged_ne h l d)).
  destruct (object_init_ok v (object_variant v) (VRef l) descriptor _ sig Hin)
    as (o & h' & Hinit & Hbase & Hsub); try done.
  { unfold has_key. by rewrite Hpt'. }
  { unfold has_key. by rewrite Hsr'. }
  exists l, d, pt, sr, o, h'. split_and!; try done.
  rewrite (from_object_type_classify _ _ _ _ _ sig Hmerge Hty'), Hcls.
  by apply new_object_ok.
Qed.

Lemma from_object_descriptor_ok (v : variant) (indata : value) (h : heap)
  (sig : string) :
  descriptor_input h indata = true →
  type_signature_of h indata = Some sig →
  classify sig = Ok v →
  ∃ o,
    ObjectInfo__init__ (descriptor_variant v) indata h = (Ok o, h)
    ∧ from_object_descriptor indata h
      = (Ok (VRef (fresh (dom h))), <[fresh (dom h) := HDescriptor o]> h).
Proof.
  intros Hin Hsig Hcls. unfold type_signature_of in Hsig.
  destruct (getitem h indata "type") as [[| | |sig'|]|] eqn:Hty; simplify_eq.
  destruct (ObjectInfo__init___ok (descriptor_variant v) indata h Hin)
    as (o & _ & Hinit & _).
  exists o. split; [done|].
  rewrite (from_object_descriptor_classify h indata sig Hty), Hcls.
  by apply new_descriptor_ok.
Qed.

(** ** The class of what the classifiers return *)

Lemma returned_class_descriptor (v : variant) (indata : value) (h : heap)
  (sig : string) :
  descriptor_input h indata = true →
  type_signature_of h indata = Some sig →
  classify sig = Ok v →
  returned_class (from_object_descriptor indata h)
  = Some (inl (descriptor_variant v)).
Proof.
  intros Hin Hsig Hcls. unfold type_signature_of in Hsig.
  destruct (getitem h indata "type") as [[| | |sig'|]|] eqn:Hty; simplify_eq.
  rewrite (from_object_descriptor_classify h indata sig Hty), Hcls.
  by apply returned_class_new_descriptor.
Qed.

Lemma returned_class_object (v : variant) (descriptor inblock : value) (h : heap)
  (sig : string) :
  block_input (object_variant v) h inblock = true →
  block_signature h inblock = Some sig →
  classify sig = Ok v →
  returned_class (from_object_type descriptor inblock h)
  = Some (inr (object_variant v)).
Proof.
  intros Hin Hsig Hcls.
  destruct (from_object_type_ok v descriptor inblock h sig Hin Hsig Hcls)
    as (l & d & pt & sr & o & h' & _ & _ & _ & _ & _ & Hbase & _ & ->).
  simpl. rewrite lookup_insert_eq. by destruct Hbase as [-> _].
Qed.

Lemma known_signature_classify (sig : string) (dcls : descriptor_class)
  (ocls : object_class) :
  known_signature sig dcls ocls →
  ∃ v, classify sig = Ok v
       ∧ dcls = descriptor_variant v
       ∧ ocls = object_variant v.
Proof.
  intros [| | |sig' module rest Hsplit Hcoin Hnft|sig' residual Hsplit Hres].
  - by exists NativeCoin.
  - by exists Coin.
  - by exists Nft.
  - exists Generic. split; [|done]. unfold classify. rewrite Hsplit. simpl.
    destruct (String.eqb_spec module "coin"); [done|].
    by destruct (String.eqb_spec module "devnet_nft").
  - exists Generic. split; [|done]. unfold classify. rewrite Hsplit. simpl.
    by destruct (String.eqb_spec residual "DevNetNFT").
Qed.

(** Every signature written ["0x2::" ++ module ++ "::" ++ rest] with another
    module than the two special ones is among the known signatures. *)
Lemma known_signature_other_module (module rest : string) :
  colon_free module = true →
  module ≠ "coin" →
  module ≠ "devnet_nft" →
  known_signature ("0x2" ++ "::" ++ module ++ "::" ++ rest)
    ObjectInfo_class ObjectRead_class.
Proof.
  intros Hfree Hcoin Hnft.
  apply (sig_other_module _ module [rest]); [|done..].
  by apply str_split_join.
Qed.

(** C1.  On a descriptor record and on a content block whose type signature
    is ["0x2::coin::Coin<0x2::sui::SUI>"], the classifiers return an
    instance of [SuiNativeCoinDescriptor] and of [SuiGasType]; for
    ["0x2::coin::Coin<0x2::other::TOKEN>"], of [SuiCoinDescriptor] and of
    [SuiCoinType]; for ["0x2::devnet_nft::DevNetNFT"], of [SuiNftDescriptor]
    and of [SuiNftType]; and for every signature of package ["0x2"] whose
    module is neither ["coin"] nor ["devnet_nft"], as for every other struct
    of module ["devnet_nft"], of [ObjectInfo] and of [ObjectRead]. *)
Theorem known_signatures_classified (h : heap) (indata descriptor inblock : value)
  (sig : string) (dcls : descriptor_class) (ocls : object_class) :
  known_signature sig dcls ocls →
  (descriptor_input h indata = true →
   type_signature_of h indata = Some sig →
   returned_class (from_object_descriptor indata h) = Some (inl dcls))
  ∧ (block_input ocls h inblock = true →
     block_signature h inblock = Some sig →
     returned_class (from_object_type descriptor inblock h) = Some (inr ocls)).
Proof.
  intros (v & Hcls & -> & ->)%known_signature_classify. split.
  - intros. by apply (returned_class_descriptor v _ _ sig).
  - intros. by apply (returned_class_object v _ _ _ sig).
Qed.

Lemma known_signatures_classified_witness :
  let sig := "0x2::coin::Coin<0x2::sui::SUI>" in
  let h := sample_heap sig in
  known_signature sig SuiNativeCoinDescriptor_class SuiGasType_class
  ∧ descriptor_input h (VRef 1) = true
  ∧ type_signature_of h (VRef 1) = Some sig
  ∧ block_input SuiGasType_class h (VRef 3) = true
  ∧ block_signature h (VRef 3) = Some sig
  ∧ returned_class (from_object_descriptor (VRef 1) h)
    = Some (inl SuiNativeCoinDescriptor_class)
  ∧ returned_class (from_object_type VNone (VRef 3) h)
    = Some (inr SuiGasType_class).
Proof.
  intros sig h.
  assert (Hd : descriptor_input h (VRef 1) = true) by (vm_compute; reflexivity).
  assert (Hs : type_signature_of h (VRef 1) = Some sig)
    by (vm_compute; reflexivity).
  assert (Hb : block_input SuiGasType_class h (VRef 3) = true)
    by (vm_compute; reflexivity).
  assert (Hbs : block_signature h (VRef 3) = Some sig)
    by (vm_compute; reflexivity).
  destruct (known_signatures_classified h (VRef 1) VNone (VRef 3) sig _ _
              sig_native_coin) as [H1 H2].
  split; [exact sig_native_coin|].
  split; [exact Hd|]. split; [exact Hs|]. split; [exact Hb|].
  split; [exact Hbs|]. split; [exact (H1 Hd Hs) | exact (H2 Hb Hbs)].
Defined.

(** The four signatures of the specification on the sample records, and
    the balance of the native coin (the example of section 8). *)
Example sample_generic_coin :
  let h := sample_heap "0x2::coin::Coin<0x2::other::TOKEN>" in
  returned_class (from_object_descriptor (VRef 1) h)
  = Some (inl SuiCoinDescriptor_class)
  ∧ returned_class (from_object_type VNone (VRef 3) h)
    = Some (inr SuiCoinType_class).
Proof. split; vm_compute; reflexivity. Qed.

Example sample_nft :
  let h := sample_heap "0x2::devnet_nft::DevNetNFT" in
  let run := from_object_type VNone (VRef 3) h in
  returned_class (from_object_descriptor (VRef 1) h)
  = Some (inl SuiNftDescriptor_class)
  ∧ returned_class run = Some (inr SuiNftType_class)
  ∧ SuiNftType_name run.2 (VRef 7) = Ok (VStr "nft")
  ∧ SuiNftType_description run.2 (VRef 7) = Ok (VStr "an nft")
  ∧ SuiNftType_url run.2 (VRef 7) = Ok (VStr "ipfs://x").
Proof. split_and!; vm_compute; reflexivity. Qed.

Example sample_other_module :
  let h := sample_heap "0x2::devnet_nft::Other" in
  returned_class (from_object_descriptor (VRef 1) h)
  = Some (inl ObjectInfo_class)
  ∧ returned_class (from_object_type VNone (VRef 3) h)
    = Some (inr ObjectRead_class).
Proof. split; vm_compute; reflexivity. Qed.

Example sample_native_coin_balance :
  let h := sample_described "0x2::coin::Coin<0x2::sui::SUI>" in
  let run := from_object_type (VRef 7) (VRef 3) h in
  returned_class run = Some (inr SuiGasType_class)
  ∧ SuiGasType_balance run.2 (VRef 8) = Ok (VInt 100)
  ∧ ObjectRead_storage_rebate run.2 (VRef 8) = Ok (VInt 15)
  ∧ ObjectRead_previous_transaction run.2 (VRef 8) = Ok (VStr "dHgy").
Proof. split_and!; vm_compute; reflexivity. Qed.

(** ** Structured data *)

Lemma classify_structured (sig pkg module name : string) :
  str_split "::" (Some 2) sig = [pkg; module; name] →
  pkg ≠ "0x2" →
  classify sig = Ok StructuredData.
Proof.
  intros Hsplit Hpkg. unfold classify. rewrite Hsplit.
  by destruct (String.eqb_spec pkg "0x2").
Qed.

(** The classifier on a content block of structured data, with the objects
    that [SuiDataType.__init__] creates. *)
Lemma from_object_type_structured (descriptor inblock : value) (h : heap)
  (sig : string) :
  block_input SuiDataType_class h inblock = true →
  block_signature h inblock = Some sig →
  classify sig = Ok StructuredData →
  ∃ l d pt sr o h' lf F lc ld ldd,
    getitem h inblock "data" = Ok (VRef l)
    ∧ h !! l = Some (HDict d)
    ∧ getitem h (VRef l) "fields" = Ok (VRef lf)
    ∧ <[l := HDict (merged d pt sr)]> h !! lf = Some (HDict F)
    ∧ object_base (<[l := HDict (merged d pt sr)]> h) (VRef l) descriptor
        SuiDataType_class o
    ∧ <[l := HDict (merged d pt sr)]> h ⊆ h'
    ∧ ObjectRead._children o = Some (VRef lc)
    ∧ h' !! lc = Some (HList [])
    ∧ ObjectRead._data o = Some (VRef ld)
    ∧ h' !! ld = Some (HDict (delete "id" F))
    ∧ ObjectRead._data_definition o = Some (VRef ldd)
    ∧ h' !! ldd = Some (HDict (dict_zip ["package"; "module"; "structure"]
                                  (str_split "::" (Some 2) sig)))
    ∧ from_object_type descriptor inblock h
      = (Ok (VRef (fresh (dom h'))), <[fresh (dom h') := HObject o]> h').
Proof.
  intros (l & d & pt & sr & Hdata & Hl & Hpt & Hsr & Hmerge & Hin & Hpt' & Hsr')
    %block_input_merge Hsig Hcls.
  unfold block_signature, type_signature_of in Hsig. rewrite Hdata in Hsig.
  destruct (getitem h (VRef l) "type") as [[| | |sig'|]|] eqn:Hty; simplify_eq.
  assert (Hty' : getitem (<[l := HDict (merged d pt sr)]> h) (VRef l) "type"
                 = Ok (VStr sig))
    by (by rewrite (getitem_merged_ne h l d)).
  destruct (SuiDataType__init___ok SuiDataType_class _ (VRef l) descriptor _
              sig Hin) as (o & h' & lf & F & lc & ld & ldd & Hinit & Hbase
                             & Hsub & Hf & HF & Hc & Hlc & Hd & Hld & Hdd & Hldd & _);
    try done.
  { unfold has_key. by rewrite Hpt'. }
  { unfold has_key. by rewrite Hsr'. }
  exists l, d, pt, sr, o, h', lf, F, lc, ld, ldd. split_and!; try done.
  - by rewrite (getitem_merged_ne h l d) in Hf.
  - rewrite (from_object_type_classify _ _ _ _ _ sig Hmerge Hty'), Hcls.
    by apply new_object_ok.
Qed.

Lemma dict_zip_lookup (pkg module name : string) :
  let dd := dict_zip ["package"; "module"; "structure"] [pkg; module; name] in
  dd !! "package" = Some (VStr pkg)
  ∧ dd !! "module" = Some (VStr module)
  ∧ dd !! "structure" = Some (VStr name).
Proof.
  unfold dict_zip. simpl. split_and!.
  - by rewrite lookup_insert_eq.
  - rewrite lookup_insert_ne by done. by rewrite lookup_insert_eq.
  - rewrite !lookup_insert_ne by done. by rewrite lookup_insert_eq.
Qed.

(** C2, as the code has it.  A signature with three components whose
    package is not ["0x2"] is structured data for both classifiers, and the
    [package], [module] and [structure] of the object are the three
    components. *)
Theorem structured_data_classified (h : heap) (indata descriptor inblock : value)
  (sig pkg module name : string) :
  str_split "::" (Some 2) sig = [pkg; module; name] →
  pkg ≠ "0x2" →
  (descriptor_input h indata = true →
   type_signature_of h indata = Some sig →
   returned_class (from_object_descriptor indata h)
   = Some (inl SuiDataDescriptor_class))
  ∧ (block_input SuiDataType_class h inblock = true →
     block_signature h inblock = Some sig →
     ∃ self h',
       from_object_type descriptor inblock h = (Ok self, h')
       ∧ class_of h' self = Some (inr SuiDataType_class)
       ∧ SuiDataType_package h' self = Ok (VStr pkg)
       ∧ SuiDataType_module h' self = Ok (VStr module)
       ∧ SuiDataType_structure h' self = Ok (VStr name)).
Proof.
  intros Hsplit Hpkg.
  pose proof (classify_structured sig pkg module name Hsplit Hpkg) as Hcls.
  split.
  - intros. by apply (returned_class_descriptor StructuredData _ _ sig).
  - intros Hin Hsig.
    destruct (from_object_type_structured descriptor inblock h sig Hin Hsig Hcls)
      as (l & d & pt & sr & o & h' & lf & F & lc & ld & ldd & _ & _ & _ & _
            & Hbase & _ & _ & _ & _ & _ & Hdd & Hldd & ->).
    eexists _, _. split; [reflexivity|].
    rewrite Hsplit in Hldd.
    destruct (dict_zip_lookup pkg module name) as (Hp & Hm & Hn).
    unfold SuiDataType_package, SuiDataType_module, SuiDataType_structure,
      data_definition_item, SuiDataType_data_definition, object_attr_opt,
      object_attr, class_of.
    rewrite lookup_insert_eq, Hdd.
    rewrite !(getitem_dict _ ldd _ _ (lookup_alloc _ _ _ _ Hldd)).
    rewrite Hp, Hm, Hn. destruct Hbase as [-> _]. by split_and!.
Qed.

Lemma structured_data_classified_witness :
  let sig := "0xabc::market::Listing" in
  let h := sample_heap sig in
  str_split "::" (Some 2) sig = ["0xabc"; "market"; "Listing"]
  ∧ descriptor_input h (VRef 1) = true
  ∧ block_input SuiDataType_class h (VRef 3) = true
  ∧ returned_class (from_object_descriptor (VRef 1) h)
    = Some (inl SuiDataDescriptor_class)
  ∧ ∃ self h',
      from_object_type VNone (VRef 3) h = (Ok self, h')
      ∧ class_of h' self = Some (inr SuiDataType_class)
      ∧ SuiDataType_package h' self = Ok (VStr "0xabc")
      ∧ SuiDataType_module h' self = Ok (VStr "market")
      ∧ SuiDataType_structure h' self = Ok (VStr "Listing").
Proof.
  intros sig h.
  assert (Hsplit : str_split "::" (Some 2) sig = ["0xabc"; "market"; "Listing"])
    by reflexivity.
  assert (Hpkg : "0xabc" ≠ "0x2") by discriminate.
  assert (Hd : descriptor_input h (VRef 1) = true) by (vm_compute; reflexivity).
  assert (Hs : type_signature_of h (VRef 1) = Some sig)
    by (vm_compute; reflexivity).
  assert (Hb : block_input SuiDataType_class h (VRef 3) = true)
    by (vm_compute; reflexivity).
  assert (Hbs : block_signature h (VRef 3) = Some sig)
    by (vm_compute; reflexivity).
  destruct (structured_data_classified h (VRef 1) VNone (VRef 3) sig
              "0xabc" "market" "Listing" Hsplit Hpkg) as [H1 H2].
  split; [exact Hsplit|]. split; [exact Hd|]. split; [exact Hb|].
  split; [exact (H1 Hd Hs) | exact (H2 Hb Hbs)].
Defined.

(** The claim as the specification words it fails on package ["0x2"]: a
    signature with three components whose module is neither ["coin"] nor
    ["devnet_nft"] is classified generic, not structured data. *)
Lemma structured_data_counterexample :
  let sig := "0x2::other::Thing" in
  let h := sample_heap sig in
  str_split "::" (Some 2) sig = ["0x2"; "other"; "Thing"]
  ∧ "other" ≠ "coin" ∧ "other" ≠ "devnet_nft"
  ∧ descriptor_input h (VRef 1) = true
  ∧ type_signature_of h (VRef 1) = Some sig
  ∧ block_input SuiDataType_class h (VRef 3) = true
  ∧ block_signature h (VRef 3) = Some sig
  ∧ returned_class (from_object_descriptor (VRef 1) h)
    = Some (inl ObjectInfo_class)
  ∧ returned_class (from_object_descriptor (VRef 1) h)
    ≠ Some (inl SuiDataDescriptor_class)
  ∧ returned_class (from_object_type VNone (VRef 3) h)
    = Some (inr ObjectRead_class)
  ∧ returned_class (from_object_type VNone (VRef 3) h)
    ≠ Some (inr SuiDataType_class).
Proof.
  intros sig h. split_and!; try discriminate; try (vm_compute; reflexivity);
    vm_compute; discriminate.
Qed.

(** ** What a successful construction tells about the input *)

Lemma ObjectRead__init___inv (cls : object_class) (indata descriptor : value)
  (h h' : heap) (o : ObjectRead.t) :
  ObjectRead__init__ cls indata descriptor h = (Ok o, h') →
  h' = h
  ∧ data_input ObjectRead_class h indata = true
  ∧ has_key h indata "previousTransaction" = true
  ∧ has_key h indata "storageRebate" = true
  ∧ getitem h indata "type" = Ok (ObjectRead._type_signature o).
Proof.
  unfold ObjectRead__init__. intros H.
  repeat (rewrite bind_run, subscript_run in H;
          match type of H with context [getitem ?h ?o ?k] =>
            let E := fresh "E" in destruct (getitem h o k) eqn:E; [|done] end).
  injection H as <- <-. unfold data_input, has_key. simpl.
  repeat match goal with E : getitem _ _ _ = Ok _ |- _ => rewrite E; clear E end.
  done.
Qed.

Lemma SuiDataType_inv (indata descriptor self : value) (h h' : heap) :
  SuiDataType indata descriptor h = (Ok self, h') →
  data_input SuiDataType_class h indata = true
  ∧ has_key h indata "previousTransaction" = true
  ∧ has_key h indata "storageRebate" = true
  ∧ ∃ sig, getitem h indata "type" = Ok (VStr sig).
Proof.
  unfold SuiDataType, new_object, SuiDataType__init__. rewrite !bind_run.
  destruct (ObjectRead__init__ SuiDataType_class indata descriptor h)
    as [[o|e] h1] eqn:Hinit; [|done].
  apply ObjectRead__init___inv in Hinit as (-> & Hin & Hpt & Hsr & Hty).
  unfold alloc at 1. rewrite bind_run. unfold alloc at 1. rewrite bind_run.
  destruct (ObjectRead._type_signature o) as [| | |sig|]; try done.
  intros _. split_and!; try done. by exists sig.
Qed.

(** A structured-data object as [SuiDataType(indata, descriptor)] leaves
    it. *)
Lemma SuiDataType_constructed (indata descriptor self : value) (h h' : heap) :
  SuiDataType indata descriptor h = (Ok self, h') →
  ∃ o h1 lf F lc ld ldd lself,
    self = VRef lself
    ∧ h' = <[lself := HObject o]> h1
    ∧ h1 !! lself = None
    ∧ h ⊆ h1
    ∧ object_base h indata descriptor SuiDataType_class o
    ∧ getitem h indata "fields" = Ok (VRef lf)
    ∧ h !! lf = Some (HDict F)
    ∧ ObjectRead._children o = Some (VRef lc)
    ∧ h1 !! lc = Some (HList [])
    ∧ ObjectRead._data o = Some (VRef ld)
    ∧ h1 !! ld = Some (HDict (delete "id" F))
    ∧ ObjectRead._data_definition o = Some (VRef ldd)
    ∧ h !! lc = None ∧ h !! ld = None ∧ h !! ldd = None.
Proof.
  intros Hrun.
  destruct (SuiDataType_inv _ _ _ _ _ Hrun) as (Hin & Hpt & Hsr & sig & Hty).
  destruct (SuiDataType__init___ok SuiDataType_class _ indata descriptor h sig
              Hin Hpt Hsr Hty)
    as (o & h1 & lf & F & lc & ld & ldd & Hinit & Hbase & Hsub & Hf & HF
          & Hc & Hlc & Hd & Hld & Hdd & Hldd & Hn1 & Hn2 & Hn3).
  unfold SuiDataType in Hrun. rewrite (new_object_ok _ _ _ _ _ _ _ Hinit) in Hrun.
  injection Hrun as <- <-.
  exists o, h1, lf, F, lc, ld, ldd, (fresh (dom h1)).
  split_and!; try done. apply fresh_heap.
Qed.

(** C8.  The field data of a structured-data object holds every key/value
    pair of the [fields] dictionary it was built from, except the one under
    ["id"], and nothing else. *)
Theorem data_copies_fields (indata descriptor self : value) (h h' : heap) :
  SuiDataType indata descriptor h = (Ok self, h') →
  ∃ fields F D,
    getitem h indata "fields" = Ok fields
    ∧ dict_items h fields = Ok F
    ∧ data_dict h' self = Ok D
    ∧ D = delete "id" F
    ∧ ∀ key v, D !! key = Some v ↔ key ≠ "id" ∧ F !! key = Some v.
Proof.
  intros (o & h1 & lf & F & lc & ld & ldd & lself & -> & -> & Hself & Hsub
            & Hbase & Hf & HF & Hc & Hlc & Hd & Hld & _)%SuiDataType_constructed.
  exists (VRef lf), F, (delete "id" F). split_and!; try done.
  - unfold dict_items. by rewrite HF.
  - unfold data_dict, SuiDataType_data, object_attr_opt, object_attr, dict_items.
    rewrite lookup_insert_eq, Hd.
    rewrite lookup_insert_ne by (intros <-; congruence). by rewrite Hld.
  - intros key v. rewrite lookup_delete_Some. split.
    + intros [? ?]. by split.
    + intros [? ?]. by split.
Qed.

Lemma data_copies_fields_witness :
  let h := sample_content "0xabc::market::Listing" in
  let run := SuiDataType (VRef 4) VNone h in
  run.1 = Ok (VRef 10)
  ∧ data_dict run.2 (VRef 10) = Ok (delete "id" sample_fields).
Proof.
  intros h run.
  assert (Hrun : SuiDataType (VRef 4) VNone h = (Ok (VRef 10), run.2))
    by (vm_compute; reflexivity).
  destruct (data_copies_fields (VRef 4) VNone (VRef 10) h run.2 Hrun)
    as (fields & F & D & Hf & HF & HD & -> & _).
  split; [vm_compute; reflexivity|].
  assert (Hf' : getitem h (VRef 4) "fields" = Ok (VRef 5))
    by (vm_compute; reflexivity).
  rewrite Hf' in Hf. injection Hf as <-.
  assert (HF' : dict_items h (VRef 5) = Ok sample_fields)
    by (vm_compute; reflexivity).
  rewrite HF' in HF. injection HF as <-. exact HD.
Defined.

(** ** The child list *)

Lemma data_object_children (h : heap) (self : value) (xs : list value) :
  data_object h self xs → children_list h self = Ok xs.
Proof.
  intros (lself & o & lc & -> & Hself & Hc & Hlc).
  unfold children_list, SuiDataType_children, object_attr_opt, object_attr.
  rewrite Hself, Hc. unfold list_items. by rewrite Hlc.
Qed.

Lemma SuiDataType_data_object (indata descriptor self : value) (h h' : heap) :
  SuiDataType indata descriptor h = (Ok self, h') →
  data_object h' self [].
Proof.
  intros (o & h1 & lf & F & lc & ld & ldd & lself & -> & -> & Hself & _ & _
            & _ & _ & Hc & Hlc & _)%SuiDataType_constructed.
  exists lself, o, lc. split_and!; try done.
  - apply lookup_insert_eq.
  - rewrite lookup_insert_ne by (intros <-; congruence). done.
Qed.

Lemma add_child_ok (h : heap) (self child : value) (xs : list value) :
  data_object h self xs →
  ∃ h', add_child self child h = (Ok tt, h')
        ∧ data_object h' self (xs ++ [child]).
Proof.
  intros (lself & o & lc & -> & Hself & Hc & Hlc).
  exists (<[lc := HList (xs ++ [child])]> h). split.
  - unfold add_child. rewrite bind_run. unfold reading, SuiDataType_children,
      object_attr_opt, object_attr. rewrite Hself, Hc.
    unfold append. by rewrite Hlc.
  - exists lself, o, lc. split_and!; try done.
    + rewrite lookup_insert_ne by (intros <-; congruence). done.
    + apply lookup_insert_eq.
Qed.

Lemma add_children_ok (h : heap) (self : value) (children xs : list value) :
  data_object h self xs →
  ∃ h', add_children self children h = (Ok tt, h')
        ∧ data_object h' self (xs ++ children).
Proof.
  revert h xs. induction children as [|child children IH]; intros h xs Hobj.
  - exists h. by rewrite app_nil_r.
  - destruct (add_child_ok h self child xs Hobj) as (h1 & Hadd & Hobj1).
    destruct (IH h1 _ Hobj1) as (h2 & Hrest & Hobj2).
    exists h2. unfold add_children in *. simpl. rewrite bind_run, Hadd.
    split; [done|]. by rewrite <- app_assoc in Hobj2.
Qed.

(** No call takes a child away: a call of [add_child] adds its argument at
    the end, every other call leaves the store as it is. *)
Lemma call_data_object (depth : nat) (dumps : jtree → string)
  (dumps_indent : Z → jtree → string) (m : method) (h : heap) (self : value)
  (xs : list value) :
  data_object h self xs →
  data_object (call depth dumps dumps_indent m self h).2 self
    (xs ++ appended [m]).
Proof.
  intros Hobj. destruct m; simpl; rewrite ?app_nil_r; try done.
  destruct (add_child_ok h self child xs Hobj) as (h1 & Hadd & Hobj1).
  by rewrite bind_run, Hadd.
Qed.

Lemma appended_cons (m : method) (ms : list method) :
  appended (m :: ms) = (appended [m] ++ appended ms)%list.
Proof. by destruct m. Qed.

Lemma run_calls_data_object (depth : nat) (dumps : jtree → string)
  (dumps_indent : Z → jtree → string) (ms : list method) (h : heap)
  (self : value) (xs : list value) :
  data_object h self xs →
  data_object (run_calls depth dumps dumps_indent self ms h) self
    (xs ++ appended ms).
Proof.
  revert h xs. induction ms as [|m ms IH]; intros h xs Hobj.
  - simpl. by rewrite app_nil_r.
  - rewrite appended_cons, app_assoc. simpl run_calls. apply IH.
    by apply call_data_object.
Qed.

(** C9.  A new structured-data object has no children; [N] calls of
    [add_child] leave exactly the [N] children, in the order of the calls;
    and whatever is called on the object, the child list is the list of the
    children that were handed to [add_child], so nothing is ever removed. *)
Theorem children_append_only (depth : nat) (dumps : jtree → string)
  (dumps_indent : Z → jtree → string) (indata descriptor self : value)
  (h h' : heap) :
  SuiDataType indata descriptor h = (Ok self, h') →
  children_list h' self = Ok []
  ∧ (∀ children : list value,
       ∃ h'' xs,
         add_children self children h' = (Ok tt, h'')
         ∧ children_list h'' self = Ok xs
         ∧ xs = children
         ∧ List.length xs = List.length children)
  ∧ (∀ ms : list method,
       children_list (run_calls depth dumps dumps_indent self ms h') self
       = Ok (appended ms)).
Proof.
  intros Hobj%SuiDataType_data_object. split_and!.
  - by apply data_object_children.
  - intros children.
    destruct (add_children_ok h' self children [] Hobj) as (h'' & Hrun & Hobj').
    exists h'', children. split_and!; try done.
    by apply data_object_children.
  - intros ms. apply data_object_children.
    by apply (run_calls_data_object _ _ _ ms h' self []).
Qed.

Lemma children_append_only_witness :
  let h := sample_content "0xabc::market::Listing" in
  let run := SuiDataType (VRef 4) VNone h in
  let calls := [m_add_child (VInt 1); m_children; m_json; m_add_child (VInt 2)] in
  run.1 = Ok (VRef 10)
  ∧ children_list run.2 (VRef 10) = Ok []
  ∧ (∃ h'', add_children (VRef 10) [VInt 1; VInt 2; VInt 3] run.2 = (Ok tt, h'')
            ∧ children_list h'' (VRef 10) = Ok [VInt 1; VInt 2; VInt 3])
  ∧ children_list
      (run_calls 16 json_encode json_encode_indent (VRef 10) calls run.2)
      (VRef 10)
    = Ok [VInt 1; VInt 2].
Proof.
  intros h run calls.
  assert (Hrun : SuiDataType (VRef 4) VNone h = (Ok (VRef 10), run.2))
    by (vm_compute; reflexivity).
  destruct (children_append_only 16 json_encode json_encode_indent
              (VRef 4) VNone (VRef 10) h run.2 Hrun) as (Hnew & Hadd & Hcalls).
  split; [vm_compute; reflexivity|]. split; [exact Hnew|]. split.
  - destruct (Hadd [VInt 1; VInt 2; VInt 3]) as (h'' & xs & Ha & Hc & -> & _).
    exists h''. split; [exact Ha | exact Hc].
  - exact (Hcalls calls).
Defined.

(** ** Version and digest *)

(** The accessors of an object ask whatever descriptor the object holds, in
    the store as it is when they are called. *)
Lemma ObjectRead_version_descriptor (h : heap) (self descriptor : value) :
  ObjectRead_descriptor h self = Ok descriptor →
  ObjectRead_version h self = ObjectInfo_version h descriptor
  ∧ ObjectRead_digest h self = ObjectInfo_digest h descriptor.
Proof.
  unfold ObjectRead_descriptor, ObjectRead_version, ObjectRead_digest.
  by intros ->.
Qed.

(** C3.  Whatever the variant, the object that [from_object_type] builds
    holds the descriptor it was given, and its [version] and [digest] are
    the descriptor's; nothing is asked of the content block about them, and
    the object has no attribute of its own for them, so the equality holds
    in every later store in which the object holds that descriptor. *)
Theorem version_digest_of_descriptor (v : variant) (inblock : value) (h : heap)
  (sig : string) (ld : loc) (dsc : ObjectInfo.t) :
  block_input (object_variant v) h inblock = true →
  block_signature h inblock = Some sig →
  classify sig = Ok v →
  h !! ld = Some (HDescriptor dsc) →
  ∃ self h',
    from_object_type (VRef ld) inblock h = (Ok self, h')
    ∧ class_of h' self = Some (inr (object_variant v))
    ∧ ObjectRead_descriptor h' self = Ok (VRef ld)
    ∧ ObjectInfo_version h' (VRef ld) = Ok (ObjectInfo._version dsc)
    ∧ ObjectInfo_digest h' (VRef ld) = Ok (ObjectInfo._digest dsc)
    ∧ ObjectRead_version h' self = Ok (ObjectInfo._version dsc)
    ∧ ObjectRead_digest h' self = Ok (ObjectInfo._digest dsc)
    ∧ ∀ h2 : heap,
        ObjectRead_descriptor h2 self = Ok (VRef ld) →
        ObjectRead_version h2 self = ObjectInfo_version h2 (VRef ld)
        ∧ ObjectRead_digest h2 self = ObjectInfo_digest h2 (VRef ld).
Proof.
  intros Hin Hsig Hcls Hld.
  destruct (from_object_type_ok v (VRef ld) inblock h sig Hin Hsig Hcls)
    as (l & d & pt & sr & o & h' & _ & Hl & _ & _ & _ & Hbase & Hsub & ->).
  destruct Hbase as (Hclass & _ & Hdesc & _).
  assert (Hld' : <[fresh (dom h') := HObject o]> h' !! ld = Some (HDescriptor dsc)).
  { apply lookup_alloc.
    apply (lookup_weaken (<[l := HDict (merged d pt sr)]> h)); [|done].
    rewrite lookup_insert_ne by (intros <-; congruence). done. }
  assert (Hd : ObjectRead_descriptor (<[fresh (dom h') := HObject o]> h')
                 (VRef (fresh (dom h'))) = Ok (VRef ld)).
  { unfold ObjectRead_descriptor, object_attr.
    by rewrite lookup_insert_eq, Hdesc. }
  assert (Hv : ObjectInfo_version (<[fresh (dom h') := HObject o]> h') (VRef ld)
               = Ok (ObjectInfo._version dsc)).
  { unfold ObjectInfo_version, descriptor_attr. by rewrite Hld'. }
  assert (Hg : ObjectInfo_digest (<[fresh (dom h') := HObject o]> h') (VRef ld)
               = Ok (ObjectInfo._digest dsc)).
  { unfold ObjectInfo_digest, descriptor_attr. by rewrite Hld'. }
  destruct (ObjectRead_version_descriptor _ _ _ Hd) as [Hv' Hg'].
  eexists _, _. split; [reflexivity|]. split_and!; try done.
  - unfold class_of. by rewrite lookup_insert_eq, Hclass.
  - by rewrite Hv'.
  - by rewrite Hg'.
  - intros h2. apply ObjectRead_version_descriptor.
Qed.

Lemma version_digest_of_descriptor_witness :
  let sig := "0x2::coin::Coin<0x2::sui::SUI>" in
  let h := sample_described sig in
  let run := from_object_type (VRef 7) (VRef 3) h in
  has_key h (VRef 4) "version" = false
  ∧ has_key h (VRef 4) "digest" = false
  ∧ run.1 = Ok (VRef 8)
  ∧ ObjectRead_version run.2 (VRef 8) = Ok (VInt 7)
  ∧ ObjectRead_digest run.2 (VRef 8) = Ok (VStr "dGVzdA==").
Proof.
  intros sig h run.
  assert (Hb : block_input (object_variant NativeCoin) h (VRef 3) = true)
    by (vm_compute; reflexivity).
  assert (Hs : block_signature h (VRef 3) = Some sig)
    by (vm_compute; reflexivity).
  assert (Hc : classify sig = Ok NativeCoin) by (vm_compute; reflexivity).
  assert (Hd : h !! 7%positive
               = Some (HDescriptor
                         (sample_descriptor SuiNativeCoinDescriptor_class sig)))
    by (vm_compute; reflexivity).
  destruct (version_digest_of_descriptor NativeCoin (VRef 3) h sig 7%positive _
              Hb Hs Hc Hd)
    as (self & h' & Hrun & _ & _ & _ & _ & Hv & Hg & _).
  assert (Hrun' : from_object_type (VRef 7) (VRef 3) h = (Ok (VRef 8), run.2))
    by (vm_compute; reflexivity).
  rewrite Hrun' in Hrun. injection Hrun as <- <-.
  split; [vm_compute; reflexivity|]. split; [vm_compute; reflexivity|].
  split; [vm_compute; reflexivity|]. split; [exact Hv | exact Hg].
Defined.

(** ** Identifiers *)

(** C10.  The identifier of the object that [from_object_type] builds is
    the value under [data.fields.id.id] of the content block.  The
    descriptor is any value at all: it is stored as it is, its [objectId]
    is never looked at, and the call succeeds whether or not the two
    identifiers agree. *)
Theorem identifier_of_content (v : variant) (descriptor inblock : value)
  (h : heap) (sig : string) :
  block_input (object_variant v) h inblock = true →
  block_signature h inblock = Some sig →
  classify sig = Ok v →
  ∃ data fields id x self h',
    getitem h inblock "data" = Ok data
    ∧ getitem h data "fields" = Ok fields
    ∧ getitem h fields "id" = Ok id
    ∧ getitem h id "id" = Ok x
    ∧ from_object_type descriptor inblock h = (Ok self, h')
    ∧ ObjectRead_identifier h' self = Ok (mkObjectID x)
    ∧ ObjectRead_descriptor h' self = Ok descriptor
    ∧ ∀ ld dsc,
        descriptor = VRef ld →
        h !! ld = Some (HDescriptor dsc) →
        ObjectInfo_identifier h' descriptor = Ok (ObjectInfo.identifier dsc).
Proof.
  intros Hin Hsig Hcls.
  destruct (from_object_type_ok v descriptor inblock h sig Hin Hsig Hcls)
    as (l & d & pt & sr & o & h' & Hdata & Hl & _ & _ & _ & Hbase & Hsub & ->).
  destruct Hbase as (_ & _ & Hdesc & (fields & id & Hf & Hid & Hidid) & _).
  rewrite (getitem_merged_ne h l d) in Hf, Hid, Hidid by done.
  exists (VRef l), fields, id, (object_id (ObjectRead.identifier o)).
  eexists _, _. split_and!; try done.
  - unfold ObjectRead_identifier, object_attr. rewrite lookup_insert_eq.
    by destruct (ObjectRead.identifier o).
  - unfold ObjectRead_descriptor, object_attr.
    by rewrite lookup_insert_eq, Hdesc.
  - intros ld dsc -> Hld. unfold ObjectInfo_identifier, descriptor_attr.
    rewrite lookup_alloc with (x := HDescriptor dsc); [done|].
    apply (lookup_weaken (<[l := HDict (merged d pt sr)]> h)); [|done].
    rewrite lookup_insert_ne by (intros <-; congruence). done.
Qed.

Lemma identifier_of_content_witness :
  let sig := "0x2::coin::Coin<0x2::sui::SUI>" in
  let h := sample_mismatch sig in
  let run := from_object_type (VRef 7) (VRef 3) h in
  run.1 = Ok (VRef 8)
  ∧ ObjectRead_identifier run.2 (VRef 8) = Ok (mkObjectID (VStr "0xdef"))
  ∧ ObjectRead_descriptor run.2 (VRef 8) = Ok (VRef 7)
  ∧ ObjectInfo_identifier run.2 (VRef 7) = Ok (mkObjectID (VStr "0xabc")).
Proof.
  intros sig h run.
  assert (Hb : block_input (object_variant NativeCoin) h (VRef 3) = true)
    by (vm_compute; reflexivity).
  assert (Hs : block_signature h (VRef 3) = Some sig)
    by (vm_compute; reflexivity).
  assert (Hc : classify sig = Ok NativeCoin) by (vm_compute; reflexivity).
  destruct (identifier_of_content NativeCoin (VRef 7) (VRef 3) h sig Hb Hs Hc)
    as (data & fields & id & x & self & h' & Hdata & Hf & Hid & Hx & Hrun
          & Hident & Hdesc & Hother).
  assert (Hrun' : from_object_type (VRef 7) (VRef 3) h = (Ok (VRef 8), run.2))
    by (vm_compute; reflexivity).
  rewrite Hrun' in Hrun. injection Hrun as <- <-.
  assert (Hdata' : getitem h (VRef 3) "data" = Ok (VRef 4))
    by (vm_compute; reflexivity).
  rewrite Hdata' in Hdata. injection Hdata as <-.
  assert (Hf' : getitem h (VRef 4) "fields" = Ok (VRef 5))
    by (vm_compute; reflexivity).
  rewrite Hf' in Hf. injection Hf as <-.
  assert (Hid' : getitem h (VRef 5) "id" = Ok (VRef 6))
    by (vm_compute; reflexivity).
  rewrite Hid' in Hid. injection Hid as <-.
  assert (Hx' : getitem h (VRef 6) "id" = Ok (VStr "0xdef"))
    by (vm_compute; reflexivity).
  rewrite Hx' in Hx. injection Hx as <-.
  split; [vm_compute; reflexivity|]. split; [exact Hident|].
  split; [exact Hdesc|].
  apply (Hother 7%positive
           (sample_descriptor SuiNativeCoinDescriptor_class sig) eq_refl).
  vm_compute; reflexivity.
Defined.

(** ** Exceptions *)

(** The descriptor classifier, outcome by outcome. *)
Lemma from_object_descriptor_run (h : heap) (indata : value) :
  from_object_descriptor indata h =
  match getitem h indata "type" with
  | Raise e => (Raise e, h)
  | Ok (VStr sig) =>
      match classify sig with
      | Ok v => new_descriptor (descriptor_variant v) indata h
      | Raise e => (Raise e, h)
      end
  | Ok _ => (Raise AttributeError, h)
  end.
Proof.
  destruct (getitem h indata "type") as [[| | |sig|]|] eqn:Hty;
    try (unfold from_object_descriptor; by rewrite bind_run, subscript_run, Hty).
  by apply from_object_descriptor_classify.
Qed.

Lemma new_descriptor_missing (cls : descriptor_class) (h : heap) (indata : value)
  (e : exn) :
  getitem h indata "objectId" = Raise e →
  new_descriptor cls indata h = (Raise e, h).
Proof.
  intros H. unfold new_descriptor, ObjectInfo__init__.
  by rewrite !bind_run, subscript_run, H.
Qed.

(** C4, as the code has it.  A descriptor record without [objectId] never
    yields a descriptor: the classifier raises and the store is as before.
    The signature under ["type"] is read and classified first, so the
    exception is the missing-key error for [objectId] exactly when that
    goes through; the fields [version], [digest], [owner] and
    [previousTransaction] play no part. *)
Theorem missing_objectId (h : heap) (indata : value) :
  getitem h indata "objectId" = Raise (KeyError "objectId") →
  from_object_descriptor indata h =
  (Raise match getitem h indata "type" with
         | Raise e => e
         | Ok (VStr sig) =>
             match classify sig with
             | Ok _ => KeyError "objectId"
             | Raise e => e
             end
         | Ok _ => AttributeError
         end, h).
Proof.
  intros Hoid. rewrite from_object_descriptor_run.
  destruct (getitem h indata "type") as [[| | |sig|]|]; try done.
  destruct (classify sig); [|done].
  by apply new_descriptor_missing.
Qed.

Lemma missing_objectId_witness :
  let h := sample_without_objectId "0x2::devnet_nft::DevNetNFT" in
  getitem h (VRef 1) "objectId" = Raise (KeyError "objectId")
  ∧ from_object_descriptor (VRef 1) h = (Raise (KeyError "objectId"), h).
Proof.
  intros h.
  assert (Hoid : getitem h (VRef 1) "objectId" = Raise (KeyError "objectId"))
    by (vm_compute; reflexivity).
  split; [exact Hoid|].
  rewrite (missing_objectId h (VRef 1) Hoid).
  vm_compute; reflexivity.
Defined.

(** The claim as the specification words it fails: with no [objectId] and
    the signature ["0x2"], the exception is [IndexError], raised while the
    signature is taken apart, before [objectId] is asked for. *)
Lemma missing_objectId_counterexample :
  let h := sample_without_objectId "0x2" in
  getitem h (VRef 1) "objectId" = Raise (KeyError "objectId")
  ∧ raised (from_object_descriptor (VRef 1) h) = Some IndexError
  ∧ raised (from_object_descriptor (VRef 1) h) ≠ Some (KeyError "objectId").
Proof.
  intros h. split_and!; try (vm_compute; reflexivity). vm_compute. discriminate.
Qed.

(** The object classifier, outcome by outcome. *)
Lemma from_object_type_run (h : heap) (descriptor inblock : value) :
  from_object_type descriptor inblock h =
  match merge_block inblock h with
  | (Raise e, h1) => (Raise e, h1)
  | (Ok indata, h1) =>
      match getitem h1 indata "type" with
      | Raise e => (Raise e, h1)
      | Ok (VStr sig) =>
          match classify sig with
          | Ok v =>
              new_object (object_init v) (object_variant v) indata descriptor h1
          | Raise e => (Raise e, h1)
          end
      | Ok _ => (Raise AttributeError, h1)
      end
  end.
Proof.
  destruct (merge_block inblock h) as [[indata|e] h1] eqn:Hmerge.
  - destruct (getitem h1 indata "type") as [[| | |sig|]|] eqn:Hty;
      try by apply (from_object_type_classify h h1).
    all: revert Hmerge; unfold from_object_type, merge_block;
      rewrite !bind_run, !subscript_run;
      destruct (getitem h inblock "data") as [indata'|]; [|done];
      rewrite !bind_run, !subscript_run;
      destruct (getitem h inblock "previousTransaction") as [pt|]; [|done];
      rewrite !bind_run;
      destruct (setitem indata' "previousTransaction" pt h) as [[[]|] h'];
      [|done];
      rewrite !bind_run, !subscript_run;
      destruct (getitem h' inblock "storageRebate") as [sr|]; [|done];
      rewrite !bind_run;
      destruct (setitem indata' "storageRebate" sr h') as [[[]|] h''];
      [|done];
      intros [= -> ->]; by rewrite bind_run, subscript_run, Hty.
  - revert Hmerge. unfold from_object_type, merge_block.
    rewrite !bind_run, !subscript_run.
    destruct (getitem h inblock "data") as [indata'|]; [|done].
    rewrite !bind_run, !subscript_run.
    destruct (getitem h inblock "previousTransaction") as [pt|]; [|done].
    rewrite !bind_run.
    destruct (setitem indata' "previousTransaction" pt h) as [[[]|] h'];
      [|done].
    rewrite !bind_run, !subscript_run.
    destruct (getitem h' inblock "storageRebate") as [sr|]; [|done].
    rewrite !bind_run.
    by destruct (setitem indata' "storageRebate" sr h') as [[[]|] h''].
Qed.

Lemma classify_malformed (sig : string) :
  match classify sig with
  | Ok _ => malformed sig = false
  | Raise e => e = IndexError ∧ malformed sig = true
  end.
Proof.
  unfold classify, malformed.
  destruct (str_split "::" (Some 2) sig) as [|pkg [|module [|residual rest]]];
    [done|..]; try generalize (str_split "::" None (str_slice residual 5 (-1)));
    try intros inner_split;
    destruct (String.eqb pkg "0x2"); simpl; try done.
  - by destruct (String.eqb module "coin"), (String.eqb module "devnet_nft").
  - destruct (String.eqb module "coin"); simpl.
    + destruct (inner_split !! 2%nat) as [inner|] eqn:Hl.
      * apply lookup_lt_Some in Hl.
        destruct (String.eqb inner "SUI"); apply Nat.ltb_ge; lia.
      * apply lookup_ge_None in Hl. split; [done|]. apply Nat.ltb_lt. lia.
    + by destruct (String.eqb module "devnet_nft"), (String.eqb residual "DevNetNFT").
  - by destruct (Nat.eqb (List.length rest) 0).
Qed.

Lemma classify_short (sig : string) (v : variant) :
  classify sig = Ok v →
  List.length (str_split "::" (Some 2) sig) < 3 →
  v = Generic.
Proof.
  unfold classify.
  destruct (str_split "::" (Some 2) sig) as [|pkg [|module [|residual rest]]];
    simpl; [done|..].
  - destruct (String.eqb pkg "0x2"); [done|]. by intros [= <-].
  - destruct (String.eqb pkg "0x2").
    + destruct (String.eqb module "coin"); [done|].
      destruct (String.eqb module "devnet_nft"); [done|]. by intros [= <-].
    + by intros [= <-].
  - intros _ ?. lia.
Qed.

Lemma has_key_missing (h : heap) (fields x : value) (key : string) :
  getitem h fields "id" = Ok x →
  has_key h fields key = false →
  getitem h fields key = Raise (KeyError key).
Proof.
  intros (l & d & -> & Hl & _)%getitem_Ok_inv. unfold has_key, getitem.
  rewrite Hl. by destruct (d !! key).
Qed.

Lemma first_missing_None (h : heap) (fields : value) (keys : list string) :
  first_missing h fields keys = None ↔ forallb (has_key h fields) keys = true.
Proof.
  unfold first_missing. induction keys as [|key keys IH]; simpl; [done|].
  destruct (has_key h fields key); simpl; [done|]. by split.
Qed.

(** A content block of the base shape is a content block for a variant
    when its [fields] have what the variant reads. *)
Lemma block_input_variant (cls : object_class) (h : heap) (inblock : value) :
  block_input ObjectRead_class h inblock = true →
  ∃ indata fields x,
    getitem h inblock "data" = Ok indata
    ∧ getitem h indata "fields" = Ok fields
    ∧ getitem h fields "id" = Ok x
    ∧ block_input cls h inblock
      = forallb (has_key h fields) (variant_fields cls).
Proof.
  unfold block_input, data_input. rewrite !andb_true_iff.
  intros [[-> ->] Hdata].
  destruct (getitem h inblock "data") as [indata|]; [|done].
  rewrite !andb_true_iff in Hdata. destruct Hdata as [[[-> ->] ->] Hf].
  destruct (getitem h indata "fields") as [fields|] eqn:Hfields; [|done].
  destruct (getitem h fields "id") as [x|] eqn:Hid; [|done].
  apply andb_true_iff in Hf as [-> _].
  by exists indata, fields, x.
Qed.

(** The object classifier on a block whose [fields] lack something the
    variant of its signature reads. *)
Lemma from_object_type_missing (v : variant) (descriptor inblock fields : value)
  (h : heap) (sig key : string) :
  block_input ObjectRead_class h inblock = true →
  block_signature h inblock = Some sig →
  classify sig = Ok v →
  block_fields h inblock = Ok fields →
  first_missing h fields (variant_fields (object_variant v)) = Some key →
  raised (from_object_type descriptor inblock h) = Some (KeyError key).
Proof.
  intros Hbase Hsig Hcls Hfields Hkey.
  destruct (block_input_variant ObjectRead_class _ _ Hbase)
    as (indata & fields' & x & Hdata0 & Hf0 & Hid & _).
  destruct (block_input_merge _ _ _ Hbase)
    as (l & d & pt & sr & Hdata & Hl & Hpt & Hsr & Hmerge & Hin & Hpt' & Hsr').
  unfold block_fields in Hfields. rewrite Hdata in Hdata0, Hfields.
  injection Hdata0 as <-. rewrite Hf0 in Hfields. injection Hfields as ->.
  unfold block_signature, type_signature_of in Hsig. rewrite Hdata in Hsig.
  destruct (getitem h (VRef l) "type") as [[| | |sig'|]|] eqn:Hty; simplify_eq.
  set (h1 := <[l := HDict (merged d pt sr)]> h) in *.
  assert (Hty' : getitem h1 (VRef l) "type" = Ok (VStr sig))
    by (unfold h1; by rewrite (getitem_merged_ne h l d)).
  assert (Hf1 : getitem h1 (VRef l) "fields" = Ok fields)
    by (unfold h1; by rewrite (getitem_merged_ne h l d)).
  assert (Hget : ∀ k, k ≠ "previousTransaction" → k ≠ "storageRebate" →
                      getitem h1 fields k = getitem h fields k)
    by (intros k ??; unfold h1; by rewrite (getitem_merged_ne h l d)).
  assert (Hmiss : ∀ k, has_key h fields k = false →
                       getitem h fields k = Raise (KeyError k))
    by (intros k; by apply (has_key_missing h fields x)).
  rewrite (from_object_type_classify _ _ _ _ _ sig Hmerge Hty'), Hcls.
  destruct (ObjectRead__init___ok (object_variant v) _ (VRef l) descriptor _ Hin)
    as (o & Hinit & _).
  { unfold has_key. by rewrite Hpt'. }
  { unfold has_key. by rewrite Hsr'. }
  unfold new_object. rewrite bind_run.
  unfold first_missing in Hkey.
  destruct v; try discriminate Hkey; cbn [object_init object_variant] in *;
    cbn [variant_fields List.find] in Hkey.
  - unfold SuiNftType__init__.
    rewrite bind_run, Hinit, bind_run, subscript_run, Hf1.
    rewrite bind_run, subscript_run, Hget by done.
    destruct (has_key h fields "description") eqn:H1; simpl in Hkey;
      [|injection Hkey as <-; by rewrite (Hmiss _ H1)].
    apply has_key_Ok in H1 as [v1 ->].
    rewrite bind_run, subscript_run, Hf1.
    rewrite bind_run, subscript_run, Hget by done.
    destruct (has_key h fields "name") eqn:H2; simpl in Hkey;
      [|injection Hkey as <-; by rewrite (Hmiss _ H2)].
    apply has_key_Ok in H2 as [v2 ->].
    rewrite bind_run, subscript_run, Hf1.
    rewrite bind_run, subscript_run, Hget by done.
    destruct (has_key h fields "url") eqn:H3; simpl in Hkey; [done|].
    injection Hkey as <-. by rewrite (Hmiss _ H3).
  - unfold SuiGasType__init__.
    rewrite bind_run, Hinit, bind_run, subscript_run, Hf1.
    rewrite bind_run, subscript_run, Hget by done.
    destruct (has_key h fields "balance") eqn:H1; simpl in Hkey; [done|].
    injection Hkey as <-. by rewrite (Hmiss _ H1).
Qed.

(** C5, as the code has it.  Classification is the part of a classifier
    that takes the signature apart; it fails on the signatures of
    [malformed] and on no others, and the exception is [IndexError].

    - A signature of [malformed] stops both classifiers with [IndexError]:
      the descriptor classifier whatever else the record holds, and with
      the store as it was; the object classifier on every block that has
      [previousTransaction] and [storageRebate], whatever else it holds.
    - Every other signature is classified, and one with fewer than three
      components is generic.  On a descriptor record the descriptor
      classifier then returns a descriptor of that variant.  On a content
      block of the base shape the object classifier returns an object of
      that variant when the block has the fields the variant reads; when
      it lacks one, the constructor raises [KeyError] for the first it
      misses (an NFT whose [fields] hold the identifier only:
      [description]). *)
Theorem classification_errors (h : heap) (indata descriptor inblock : value)
  (sig : string) :
  (malformed sig = true → classify sig = Raise IndexError)
  ∧ (malformed sig = false →
     ∃ v, classify sig = Ok v
          ∧ (List.length (str_split "::" (Some 2) sig) < 3 → v = Generic))
  ∧ (type_signature_of h indata = Some sig →
     (malformed sig = true →
      from_object_descriptor indata h = (Raise IndexError, h))
     ∧ (∀ v, classify sig = Ok v →
             descriptor_input h indata = true →
             raised (from_object_descriptor indata h) = None
             ∧ returned_class (from_object_descriptor indata h)
               = Some (inl (descriptor_variant v))))
  ∧ (block_signature h inblock = Some sig →
     (malformed sig = true →
      has_key h inblock "previousTransaction" = true →
      has_key h inblock "storageRebate" = true →
      raised (from_object_type descriptor inblock h) = Some IndexError)
     ∧ (∀ v, classify sig = Ok v →
             block_input ObjectRead_class h inblock = true →
             if block_input (object_variant v) h inblock
             then raised (from_object_type descriptor inblock h) = None
                  ∧ returned_class (from_object_type descriptor inblock h)
                    = Some (inr (object_variant v))
             else ∃ fields key,
                    block_fields h inblock = Ok fields
                    ∧ first_missing h fields (variant_fields (object_variant v))
                      = Some key
                    ∧ raised (from_object_type descriptor inblock h)
                      = Some (KeyError key))).
Proof.
  pose proof (classify_malformed sig) as Hm.
  assert (Hbad : malformed sig = true → classify sig = Raise IndexError).
  { intros Hmal. destruct (classify sig) as [v|e]; [congruence|].
    by destruct Hm as [-> _]. }
  split_and!.
  - exact Hbad.
  - intros Hmal. destruct (classify sig) as [v|e] eqn:Hcls.
    + exists v. split; [done|]. by apply classify_short.
    + destruct Hm as [_ Hm]. congruence.
  - intros Hsig. split.
    + intros Hcls%Hbad. unfold type_signature_of in Hsig.
      rewrite from_object_descriptor_run.
      destruct (getitem h indata "type") as [[| | |sig'|]|]; simplify_eq.
      by rewrite Hcls.
    + intros v Hcls Hin.
      pose proof (returned_class_descriptor v indata h sig Hin Hsig Hcls) as Hret.
      split; [|done].
      by destruct (from_object_descriptor indata h) as [[r|e] h'].
  - intros Hsig. split.
    + intros Hcls%Hbad [pt Hpt]%has_key_Ok [sr Hsr]%has_key_Ok.
      unfold block_signature, type_signature_of in Hsig.
      destruct (getitem h inblock "data") as [indata'|] eqn:Hdata; [|done].
      destruct (getitem h indata' "type") as [[| | |sig'|]|] eqn:Hty;
        simplify_eq.
      pose proof Hty as (l & d & -> & Hl & _)%getitem_Ok_inv.
      rewrite from_object_type_run.
      rewrite (merge_block_ok h inblock l d pt sr) by done.
      rewrite (getitem_merged_ne h l d) by done.
      by rewrite Hty, Hcls.
    + intros v Hcls Hbase.
      destruct (block_input (object_variant v) h inblock) eqn:Hin.
      * pose proof (returned_class_object v descriptor inblock h sig Hin Hsig Hcls)
          as Hret.
        split; [|done].
        by destruct (from_object_type descriptor inblock h) as [[r|e] h'].
      * destruct (block_input_variant (object_variant v) _ _ Hbase)
          as (indata' & fields & x & Hdata & Hf & _ & Heq).
        rewrite Hin in Heq.
        destruct (first_missing h fields (variant_fields (object_variant v)))
          as [key|] eqn:Hkey.
        -- exists fields, key.
           assert (Hbf : block_fields h inblock = Ok fields)
             by (unfold block_fields; by rewrite Hdata).
           split_and!; try done.
           by apply (from_object_type_missing v _ _ fields _ sig).
        -- apply first_missing_None in Hkey. congruence.
Qed.

Lemma classification_errors_witness :
  let bad := "0x2::coin::Coin<0x2::sui>" in
  let sui := "0x2::coin::Coin<0x2::sui::SUI>" in
  let nft := "0x2::devnet_nft::DevNetNFT" in
  let short := "0x2::other" in
  (malformed bad = true
   ∧ from_object_descriptor (VRef 1) (sample_heap bad)
     = (Raise IndexError, sample_heap bad)
   ∧ block_input ObjectRead_class (sample_bare_heap bad) (VRef 3) = false
   ∧ raised (from_object_type VNone (VRef 3) (sample_bare_heap bad))
     = Some IndexError)
  ∧ (malformed sui = false
     ∧ returned_class (from_object_descriptor (VRef 1) (sample_heap sui))
       = Some (inl SuiNativeCoinDescriptor_class)
     ∧ block_input SuiNftType_class (sample_coin_heap sui) (VRef 3) = false
     ∧ returned_class (from_object_type VNone (VRef 3) (sample_coin_heap sui))
       = Some (inr SuiGasType_class))
  ∧ (malformed nft = false
     ∧ raised (from_object_type VNone (VRef 3) (sample_plain_heap nft))
       = Some (KeyError "description"))
  ∧ (malformed short = false
     ∧ classify short = Ok Generic
     ∧ returned_class (from_object_type VNone (VRef 3) (sample_plain_heap short))
       = Some (inr ObjectRead_class)).
Proof.
  intros bad sui nft short.
  assert (Hbad : malformed bad = true) by (vm_compute; reflexivity).
  assert (Hbad_d : from_object_descriptor (VRef 1) (sample_heap bad)
                   = (Raise IndexError, sample_heap bad)).
  { destruct (classification_errors (sample_heap bad) (VRef 1) VNone (VRef 3) bad)
      as (_ & _ & Hd & _).
    assert (Hsig : type_signature_of (sample_heap bad) (VRef 1) = Some bad)
      by (vm_compute; reflexivity).
    exact (proj1 (Hd Hsig) Hbad). }
  assert (Hbad_o : raised (from_object_type VNone (VRef 3) (sample_bare_heap bad))
                   = Some IndexError).
  { destruct (classification_errors (sample_bare_heap bad) (VRef 1) VNone
                (VRef 3) bad) as (_ & _ & _ & Ho).
    assert (Hsig : block_signature (sample_bare_heap bad) (VRef 3) = Some bad)
      by (vm_compute; reflexivity).
    assert (Hpt : has_key (sample_bare_heap bad) (VRef 3) "previousTransaction"
                  = true) by (vm_compute; reflexivity).
    assert (Hsr : has_key (sample_bare_heap bad) (VRef 3) "storageRebate"
                  = true) by (vm_compute; reflexivity).
    exact (proj1 (Ho Hsig) Hbad Hpt Hsr). }
  assert (Hsui_d : returned_class (from_object_descriptor (VRef 1) (sample_heap sui))
                   = Some (inl SuiNativeCoinDescriptor_class)).
  { destruct (classification_errors (sample_heap sui) (VRef 1) VNone (VRef 3) sui)
      as (_ & _ & Hd & _).
    assert (Hsig : type_signature_of (sample_heap sui) (VRef 1) = Some sui)
      by (vm_compute; reflexivity).
    assert (Hcls : classify sui = Ok NativeCoin) by (vm_compute; reflexivity).
    assert (Hin : descriptor_input (sample_heap sui) (VRef 1) = true)
      by (vm_compute; reflexivity).
    exact (proj2 (proj2 (Hd Hsig) NativeCoin Hcls Hin)). }
  assert (Hsui_o : returned_class
                     (from_object_type VNone (VRef 3) (sample_coin_heap sui))
                   = Some (inr SuiGasType_class)).
  { destruct (classification_errors (sample_coin_heap sui) (VRef 1) VNone
                (VRef 3) sui) as (_ & _ & _ & Ho).
    assert (Hsig : block_signature (sample_coin_heap sui) (VRef 3) = Some sui)
      by (vm_compute; reflexivity).
    assert (Hin : block_input ObjectRead_class (sample_coin_heap sui) (VRef 3)
                  = true) by (vm_compute; reflexivity).
    assert (Hcls : classify sui = Ok NativeCoin) by (vm_compute; reflexivity).
    pose proof (proj2 (Ho Hsig) NativeCoin Hcls Hin) as H.
    assert (Hv : block_input (object_variant NativeCoin) (sample_coin_heap sui)
                   (VRef 3) = true) by (vm_compute; reflexivity).
    rewrite Hv in H. exact (proj2 H). }
  assert (Hnft_o : raised (from_object_type VNone (VRef 3) (sample_plain_heap nft))
                   = Some (KeyError "description")).
  { destruct (classification_errors (sample_plain_heap nft) (VRef 1) VNone
                (VRef 3) nft) as (_ & _ & _ & Ho).
    assert (Hsig : block_signature (sample_plain_heap nft) (VRef 3) = Some nft)
      by (vm_compute; reflexivity).
    assert (Hin : block_input ObjectRead_class (sample_plain_heap nft) (VRef 3)
                  = true) by (vm_compute; reflexivity).
    assert (Hcls : classify nft = Ok Nft) by (vm_compute; reflexivity).
    pose proof (proj2 (Ho Hsig) Nft Hcls Hin) as H.
    assert (Hv : block_input (object_variant Nft) (sample_plain_heap nft)
                   (VRef 3) = false) by (vm_compute; reflexivity).
    rewrite Hv in H. destruct H as (fields & key & Hf & Hkey & Hrun).
    assert (Hf' : block_fields (sample_plain_heap nft) (VRef 3) = Ok (VRef 5))
      by (vm_compute; reflexivity).
    rewrite Hf' in Hf. injection Hf as <-.
    assert (Hkey' : first_missing (sample_plain_heap nft) (VRef 5)
                      (variant_fields (object_variant Nft))
                    = Some "description") by (vm_compute; reflexivity).
    rewrite Hkey' in Hkey. injection Hkey as <-. exact Hrun. }
  assert (Hshort : malformed short = false) by (vm_compute; reflexivity).
  assert (Hshort_c : classify short = Ok Generic).
  { destruct (classification_errors (sample_plain_heap short) (VRef 1) VNone
                (VRef 3) short) as (_ & Hc & _).
    destruct (Hc Hshort) as (v & Hcls & Hgen).
    assert (Hlen : List.length (str_split "::" (Some 2) short) < 3)
      by (vm_compute; lia).
    rewrite <- (Hgen Hlen). exact Hcls. }
  assert (Hshort_o : returned_class
                       (from_object_type VNone (VRef 3) (sample_plain_heap short))
                     = Some (inr ObjectRead_class)).
  { destruct (classification_errors (sample_plain_heap short) (VRef 1) VNone
                (VRef 3) short) as (_ & _ & _ & Ho).
    assert (Hsig : block_signature (sample_plain_heap short) (VRef 3)
                   = Some short) by (vm_compute; reflexivity).
    assert (Hin : block_input ObjectRead_class (sample_plain_heap short) (VRef 3)
                  = true) by (vm_compute; reflexivity).
    pose proof (proj2 (Ho Hsig) Generic Hshort_c Hin) as H.
    assert (Hv : block_input (object_variant Generic) (sample_plain_heap short)
                   (VRef 3) = true) by (vm_compute; reflexivity).
    rewrite Hv in H. exact (proj2 H). }
  split_and!; try assumption; vm_compute; reflexivity.
Defined.

(** The claim as the specification words it fails: ["abc"] has no package,
    module and residual, and both classifiers accept it and return the
    generic variant. *)
Lemma classification_errors_counterexample :
  let sig := "abc" in
  let h := sample_heap sig in
  str_split "::" (Some 2) sig = ["abc"]
  ∧ type_signature_of h (VRef 1) = Some sig
  ∧ block_signature h (VRef 3) = Some sig
  ∧ raised (from_object_descriptor (VRef 1) h) = None
  ∧ returned_class (from_object_descriptor (VRef 1) h)
    = Some (inl ObjectInfo_class)
  ∧ raised (from_object_type VNone (VRef 3) h) = None
  ∧ returned_class (from_object_type VNone (VRef 3) h)
    = Some (inr ObjectRead_class).
Proof. intros sig h. split_and!; vm_compute; reflexivity. Qed.

(** ** What the classifiers do to the store *)

Lemma ObjectInfo__init___type_raw (cls : descriptor_class) (indata : value)
  (h h' : heap) (o : ObjectInfo.t) :
  ObjectInfo__init__ cls indata h = (Ok o, h') →
  ObjectInfo._type_raw o = indata.
Proof.
  unfold ObjectInfo__init__. intros H.
  repeat (rewrite bind_run, subscript_run in H;
          match type of H with context [getitem ?h ?o ?k] =>
            destruct (getitem h o k); [|done] end).
  by injection H as <- <-.
Qed.

Lemma getitem_heap (obj : value) (key : string) (tail : value → Py ObjectRead.t)
  (h : heap) :
  (∀ v, (tail v h).2 = h) →
  ((subscript obj key ≫= tail) h).2 = h.
Proof.
  intros H. rewrite bind_run, subscript_run.
  by destruct (getitem h obj key).
Qed.

Lemma SuiNftType__init___heap (cls : object_class) (indata descriptor : value)
  (h : heap) :
  (SuiNftType__init__ cls indata descriptor h).2 = h.
Proof.
  unfold SuiNftType__init__. rewrite bind_run.
  pose proof (ObjectRead__init___heap cls indata descriptor h) as Hh.
  destruct (ObjectRead__init__ cls indata descriptor h) as [[o|e] h1];
    simpl in Hh; subst; [|done].
  by repeat (apply getitem_heap; intros ?).
Qed.

Lemma SuiGasType__init___heap (cls : object_class) (indata descriptor : value)
  (h : heap) :
  (SuiGasType__init__ cls indata descriptor h).2 = h.
Proof.
  unfold SuiGasType__init__. rewrite bind_run.
  pose proof (ObjectRead__init___heap cls indata descriptor h) as Hh.
  destruct (ObjectRead__init__ cls indata descriptor h) as [[o|e] h1];
    simpl in Hh; subst; [|done].
  by repeat (apply getitem_heap; intros ?).
Qed.

Lemma alloc_subseteq (h : heap) (o : hobj) : h ⊆ <[fresh (dom h) := o]> h.
Proof. apply insert_subseteq, fresh_heap. Qed.

(** [SuiDataType.__init__] only adds objects, however it ends. *)
Lemma SuiDataType__init___frame (cls : object_class) (indata descriptor : value)
  (h : heap) :
  h ⊆ (SuiDataType__init__ cls indata descriptor h).2.
Proof.
  unfold SuiDataType__init__. rewrite bind_run.
  pose proof (ObjectRead__init___heap cls indata descriptor h) as Hh.
  destruct (ObjectRead__init__ cls indata descriptor h) as [[o|e] h0];
    simpl in Hh; subst; [|done].
  rewrite bind_run. unfold alloc at 1.
  set (lc := fresh (dom h)). set (h1 := <[lc := HList []]> h).
  rewrite bind_run. unfold alloc at 1.
  set (ld := fresh (dom h1)). set (h2 := <[ld := HDict ∅]> h1).
  assert (Hsub2 : h ⊆ h2).
  { etrans; [apply alloc_subseteq|]. apply alloc_subseteq. }
  rewrite bind_run.
  destruct (ObjectRead._type_signature o) as [| | |sig|]; try done.
  unfold split_method, mret at 1, Py_ret at 1.
  rewrite bind_run. unfold alloc at 1.
  set (ldd := fresh (dom h2)).
  set (h3 := <[ldd := HDict (dict_zip ["package"; "module"; "structure"]
                               (str_split "::" (Some 2) sig))]> h2).
  assert (Hsub3 : h ⊆ h3) by (etrans; [done|]; apply alloc_subseteq).
  rewrite bind_run, subscript_run.
  destruct (getitem h3 indata "fields") as [fields|]; [|done].
  rewrite bind_run. unfold items, reading.
  destruct fields as [| | | |lf]; try done.
  destruct (h3 !! lf) as [[F| | |]|]; try done.
  rewrite bind_run, (for_each_copy _ ld ∅).
  2:{ unfold h3. rewrite lookup_insert_ne.
      - apply lookup_insert_eq.
      - intros Heq. pose proof (fresh_heap h2) as Hf. fold ldd in Hf.
        rewrite Heq in Hf. unfold h2 in Hf. by rewrite lookup_insert_eq in Hf. }
  simpl. apply map_subseteq_spec. intros l x Hl.
  rewrite lookup_insert_ne.
  - by apply (lookup_weaken h h3).
  - intros <-. pose proof (fresh_heap h1) as Hf. fold ld in Hf.
    unfold h1 in Hf. apply lookup_insert_None in Hf as [Hf _]. congruence.
Qed.

Lemma object_init_frame (v : variant) (cls : object_class)
  (indata descriptor : value) (h : heap) :
  h ⊆ (object_init v cls indata descriptor h).2.
Proof.
  destruct v; simpl.
  - by rewrite ObjectRead__init___heap.
  - apply SuiDataType__init___frame.
  - by rewrite SuiNftType__init___heap.
  - by rewrite ObjectRead__init___heap.
  - by rewrite SuiGasType__init___heap.
Qed.

Lemma new_object_frame (v : variant) (cls : object_class)
  (indata descriptor : value) (h : heap) :
  h ⊆ (new_object (object_init v) cls indata descriptor h).2.
Proof.
  unfold new_object. rewrite bind_run.
  pose proof (object_init_frame v cls indata descriptor h) as Hsub.
  destruct (object_init v cls indata descriptor h) as [[o|e] h']; [|done].
  simpl in *. etrans; [done|]. apply alloc_subseteq.
Qed.

Lemma ObjectRead__init___attrs (cls : object_class) (indata descriptor : value)
  (h h' : heap) (o : ObjectRead.t) :
  ObjectRead__init__ cls indata descriptor h = (Ok o, h') →
  ObjectRead.class o = cls
  ∧ ObjectRead._type_raw o = indata
  ∧ ObjectRead._descriptor o = descriptor.
Proof.
  unfold ObjectRead__init__. intros H.
  repeat (rewrite bind_run, subscript_run in H;
          match type of H with context [getitem ?h ?o ?k] =>
            destruct (getitem h o k); [|done] end).
  by injection H as <- <-.
Qed.

Lemma object_init_attrs (v : variant) (cls : object_class)
  (indata descriptor : value) (h h' : heap) (o : ObjectRead.t) :
  object_init v cls indata descriptor h = (Ok o, h') →
  ObjectRead.class o = cls
  ∧ ObjectRead._type_raw o = indata
  ∧ ObjectRead._descriptor o = descriptor.
Proof.
  destruct v; simpl; try apply ObjectRead__init___attrs.
  - unfold SuiDataType__init__. rewrite bind_run.
    destruct (ObjectRead__init__ cls indata descriptor h) as [[o0|e] h0] eqn:H0;
      [|done].
    apply ObjectRead__init___attrs in H0 as (<- & <- & <-).
    rewrite bind_run. unfold alloc at 1. rewrite bind_run. unfold alloc at 1.
    rewrite bind_run.
    destruct (ObjectRead._type_signature o0) as [| | |sig|]; try done.
    unfold split_method, mret at 1, Py_ret at 1.
    rewrite bind_run. unfold alloc at 1. rewrite bind_run, subscript_run.
    match goal with |- context [getitem ?h ?o ?k] =>
      destruct (getitem h o k); [|done] end.
    rewrite bind_run.
    match goal with |- context [items ?f ?h] =>
      destruct (items f h) as [[kvs|] hx]; [|done] end.
    rewrite bind_run.
    match goal with |- context [for_each ?l ?b ?h] =>
      destruct (for_each l b h) as [[[]|] hy]; [|done] end.
    by intros [= <- <-].
  - unfold SuiNftType__init__. rewrite bind_run.
    destruct (ObjectRead__init__ cls indata descriptor h) as [[o0|e] h0] eqn:H0;
      [|done].
    apply ObjectRead__init___attrs in H0 as (<- & <- & <-). intros H.
    repeat (rewrite bind_run, subscript_run in H;
            match type of H with context [getitem ?h ?o ?k] =>
              destruct (getitem h o k); [|done] end).
    by injection H as <- <-.
  - unfold SuiGasType__init__. rewrite bind_run.
    destruct (ObjectRead__init__ cls indata descriptor h) as [[o0|e] h0] eqn:H0;
      [|done].
    apply ObjectRead__init___attrs in H0 as (<- & <- & <-). intros H.
    repeat (rewrite bind_run, subscript_run in H;
            match type of H with context [getitem ?h ?o ?k] =>
              destruct (getitem h o k); [|done] end).
    by injection H as <- <-.
Qed.

Lemma setitem_inv (obj : value) (key : string) (v : value) (h h' : heap)
  (r : result unit) :
  setitem obj key v h = (r, h') →
  (h' = h ∧ ∃ e, r = Raise e)
  ∨ (∃ l d, obj = VRef l ∧ h !! l = Some (HDict d) ∧ r = Ok tt
            ∧ h' = <[l := HDict (<[key := v]> d)]> h).
Proof.
  unfold setitem. intros H.
  destruct obj as [| | | |l]; try by (left; injection H as <- <-; eauto).
  destruct (h !! l) as [[d| | |]|] eqn:Hl;
    try by (left; injection H as <- <-; eauto).
  right. injection H as <- <-. by exists l, d.
Qed.

(** The first statements of [from_object_type], however they end: the
    store is as before, or the block's [data] dictionary has changed under
    the two keys and nowhere else. *)
Lemma merge_block_frame (inblock : value) (h : heap) :
  (merge_block inblock h).2 = h
  ∨ ∃ l d d',
      getitem h inblock "data" = Ok (VRef l)
      ∧ h !! l = Some (HDict d)
      ∧ (merge_block inblock h).2 = <[l := HDict d']> h
      ∧ same_but_merged d d'.
Proof.
  unfold merge_block. rewrite bind_run, subscript_run.
  destruct (getitem h inblock "data") as [indata|] eqn:Hdata; [|by left].
  rewrite bind_run, subscript_run.
  destruct (getitem h inblock "previousTransaction") as [pt|]; [|by left].
  rewrite bind_run.
  destruct (setitem indata "previousTransaction" pt h) as [r1 h1] eqn:Hset1.
  apply setitem_inv in Hset1
    as [[-> [e ->]]|(l & d & -> & Hl & -> & ->)]; [by left|].
  right. exists l, d.
  rewrite bind_run, subscript_run.
  destruct (getitem _ inblock "storageRebate") as [sr|].
  - exists (merged d pt sr). split_and!; try done.
    + rewrite bind_run.
      rewrite (setitem_run _ l (<["previousTransaction" := pt]> d))
        by apply lookup_insert_eq.
      by rewrite insert_insert_eq.
    + intros key H1 H2. unfold merged. by rewrite !lookup_insert_ne.
  - exists (<["previousTransaction" := pt]> d). split_and!; try done.
    intros key H1 H2. by rewrite lookup_insert_ne.
Qed.

Lemma merge_block_inv (inblock indata : value) (h h1 : heap) :
  merge_block inblock h = (Ok indata, h1) →
  ∃ l d pt sr,
    indata = VRef l
    ∧ getitem h inblock "data" = Ok (VRef l)
    ∧ h !! l = Some (HDict d)
    ∧ getitem h inblock "previousTransaction" = Ok pt
    ∧ getitem h inblock "storageRebate" = Ok sr
    ∧ h1 = <[l := HDict (merged d pt sr)]> h.
Proof.
  unfold merge_block. rewrite bind_run, subscript_run.
  destruct (getitem h inblock "data") as [indata'|] eqn:Hdata; [|done].
  rewrite bind_run, subscript_run.
  destruct (getitem h inblock "previousTransaction") as [pt|] eqn:Hpt; [|done].
  rewrite bind_run.
  destruct (setitem indata' "previousTransaction" pt h) as [r1 h'] eqn:Hset1.
  apply setitem_inv in Hset1
    as [[-> [e ->]]|(l & d & -> & Hl & -> & ->)]; [done|].
  rewrite bind_run, subscript_run.
  rewrite (getitem_setitem_ne h l d) by done.
  destruct (getitem h inblock "storageRebate") as [sr|] eqn:Hsr; [|done].
  rewrite bind_run.
  rewrite (setitem_run _ l (<["previousTransaction" := pt]> d))
    by apply lookup_insert_eq.
  rewrite insert_insert_eq. intros [= <- <-].
  by exists l, d, pt, sr.
Qed.

Lemma from_object_descriptor_effect (h : heap) (indata : value) :
  (∃ e, from_object_descriptor indata h = (Raise e, h))
  ∨ (∃ o, ObjectInfo._type_raw o = indata
        ∧ from_object_descriptor indata h
          = (Ok (VRef (fresh (dom h))), <[fresh (dom h) := HDescriptor o]> h)).
Proof.
  rewrite from_object_descriptor_run.
  destruct (getitem h indata "type") as [[| | |sig|]|]; try (left; by eexists).
  destruct (classify sig) as [v|e]; [|left; by eexists].
  destruct (new_descriptor_run (descriptor_variant v) indata h)
    as [[e He]|(o & Hinit & Hnew)].
  - left. by exists e.
  - right. exists o. split; [|done]. by apply ObjectInfo__init___type_raw in Hinit.
Qed.

(** The store after [from_object_type] holds whatever the store after its
    first statements held. *)
Lemma from_object_type_frame (h : heap) (descriptor inblock : value) :
  (merge_block inblock h).2 ⊆ (from_object_type descriptor inblock h).2.
Proof.
  rewrite from_object_type_run.
  destruct (merge_block inblock h) as [[indata|e] h1]; [|done]. simpl.
  destruct (getitem h1 indata "type") as [[| | |sig|]|]; try done.
  destruct (classify sig) as [v|e]; [|done].
  apply new_object_frame.
Qed.

Lemma from_object_type_inv (h h' : heap) (descriptor inblock self : value) :
  from_object_type descriptor inblock h = (Ok self, h') →
  ∃ l d pt sr lself o,
    getitem h inblock "data" = Ok (VRef l)
    ∧ h !! l = Some (HDict d)
    ∧ getitem h inblock "previousTransaction" = Ok pt
    ∧ getitem h inblock "storageRebate" = Ok sr
    ∧ self = VRef lself
    ∧ h' !! lself = Some (HObject o)
    ∧ h !! lself = None
    ∧ h' !! l = Some (HDict (merged d pt sr))
    ∧ ObjectRead._type_raw o = VRef l
    ∧ ObjectRead._descriptor o = descriptor.
Proof.
  rewrite from_object_type_run.
  destruct (merge_block inblock h) as [[indata|e] h1] eqn:Hmerge; [|done].
  apply merge_block_inv in Hmerge
    as (l & d & pt & sr & -> & Hdata & Hl & Hpt & Hsr & ->).
  destruct (getitem _ (VRef l) "type") as [[| | |sig|]|]; try done.
  destruct (classify sig) as [v|e]; [|done].
  unfold new_object. rewrite bind_run.
  pose proof (object_init_frame v (object_variant v) (VRef l) descriptor
                (<[l := HDict (merged d pt sr)]> h)) as Hsub.
  destruct (object_init v (object_variant v) (VRef l) descriptor _)
    as [[o|e] h2] eqn:Hinit; [|done].
  apply object_init_attrs in Hinit as (_ & Hraw & Hdesc).
  simpl in Hsub. unfold alloc. intros [= <- <-].
  exists l, d, pt, sr, (fresh (dom h2)), o. split_and!; try done.
  - apply lookup_insert_eq.
  - destruct (h !! fresh (dom h2)) as [x|] eqn:Hx; [|done].
    assert (Hx' : <[l := HDict (merged d pt sr)]> h !! fresh (dom h2)
                  = Some (if decide (l = fresh (dom h2))
                          then HDict (merged d pt sr) else x)).
    { rewrite lookup_insert. by destruct (decide (l = fresh (dom h2))). }
    apply (lookup_weaken _ h2) in Hx'; [|done].
    by rewrite fresh_heap in Hx'.
  - apply lookup_alloc, (lookup_weaken (<[l := HDict (merged d pt sr)]> h));
      [|done]. apply lookup_insert_eq.
Qed.

(** C7, as the code has it.  [from_object_descriptor] changes nothing that
    is in the store: it adds at most the descriptor, which keeps a
    reference to the caller's record.  [from_object_type] changes one
    object of the caller: the block's [data] dictionary, under the keys
    ["previousTransaction"] and ["storageRebate"]; everything else in the
    store is as before, and the object it returns keeps a reference to that
    dictionary and to the descriptor. *)
Theorem classifier_effects (h : heap) (indata descriptor inblock : value) :
  let run_d := from_object_descriptor indata h in
  let run_o := from_object_type descriptor inblock h in
  (∀ l x, h !! l = Some x → run_d.2 !! l = Some x)
  ∧ (∀ self, run_d.1 = Ok self →
       descriptor_attr ObjectInfo._type_raw run_d.2 self = Ok indata)
  ∧ (∀ l x, h !! l = Some x →
       getitem h inblock "data" ≠ Ok (VRef l) →
       run_o.2 !! l = Some x)
  ∧ (∀ l d, getitem h inblock "data" = Ok (VRef l) →
       h !! l = Some (HDict d) →
       ∃ d', run_o.2 !! l = Some (HDict d') ∧ same_but_merged d d')
  ∧ (∀ self, run_o.1 = Ok self →
       ∃ l d pt sr,
         getitem h inblock "data" = Ok (VRef l)
         ∧ h !! l = Some (HDict d)
         ∧ getitem h inblock "previousTransaction" = Ok pt
         ∧ getitem h inblock "storageRebate" = Ok sr
         ∧ run_o.2 !! l = Some (HDict (merged d pt sr))
         ∧ object_attr ObjectRead._type_raw run_o.2 self = Ok (VRef l)
         ∧ ObjectRead_descriptor run_o.2 self = Ok descriptor).
Proof.
  intros run_d run_o. split_and!.
  - intros l x Hl. unfold run_d.
    destruct (from_object_descriptor_effect h indata) as [[e ->]|(o & _ & ->)];
      [done|]. by apply lookup_alloc.
  - intros self. unfold run_d.
    destruct (from_object_descriptor_effect h indata) as [[e ->]|(o & Hraw & ->)];
      [done|]. simpl. intros [= <-]. unfold descriptor_attr.
    by rewrite lookup_insert_eq, Hraw.
  - intros l x Hl Hne. unfold run_o.
    apply (lookup_weaken (merge_block inblock h).2);
      [|apply from_object_type_frame].
    destruct (merge_block_frame inblock h)
      as [->|(l' & d & d' & Hdata & _ & -> & _)]; [done|].
    rewrite lookup_insert_ne; [done|]. intros ->. by apply Hne.
  - intros l d Hdata Hl. unfold run_o.
    destruct (merge_block_frame inblock h)
      as [Heq|(l' & d0 & d' & Hdata' & Hl' & Heq & Hsame)].
    + exists d. split; [|by intros ? ? ?].
      apply (lookup_weaken (merge_block inblock h).2);
        [|apply from_object_type_frame]. by rewrite Heq.
    + rewrite Hdata in Hdata'. injection Hdata' as <-.
      rewrite Hl in Hl'. injection Hl' as <-.
      exists d'. split; [|done].
      apply (lookup_weaken (merge_block inblock h).2);
        [|apply from_object_type_frame]. rewrite Heq. apply lookup_insert_eq.
  - intros self Hself. unfold run_o in *.
    destruct (from_object_type descriptor inblock h) as [r h'] eqn:Hrun.
    simpl in Hself. subst r.
    apply from_object_type_inv in Hrun
      as (l & d & pt & sr & lself & o & Hdata & Hl & Hpt & Hsr & -> & Hlself
            & _ & Hl' & Hraw & Hdesc).
    exists l, d, pt, sr. simpl. split_and!; try done.
    + unfold object_attr. by rewrite Hlself, Hraw.
    + unfold ObjectRead_descriptor, object_attr. by rewrite Hlself, Hdesc.
Qed.

Lemma classifier_effects_witness :
  let sig := "0x2::coin::Coin<0x2::sui::SUI>" in
  let h := sample_described sig in
  let run_d := from_object_descriptor (VRef 1) h in
  let run_o := from_object_type (VRef 7) (VRef 3) h in
  run_d.2 !! 1%positive = Some (HDict (sample_descriptor_record sig))
  ∧ run_o.2 !! 3%positive = Some (HDict sample_block)
  ∧ run_o.2 !! 5%positive = Some (HDict sample_fields)
  ∧ run_o.2 !! 4%positive
    = Some (HDict (merged (sample_data sig) (VStr "dHgy") (VInt 15)))
  ∧ object_attr ObjectRead._type_raw run_o.2 (VRef 8) = Ok (VRef 4).
Proof.
  intros sig h run_d run_o.
  destruct (classifier_effects h (VRef 1) (VRef 7) (VRef 3))
    as (Hd & _ & Ho & _ & Hself).
  assert (H1 : h !! 1%positive = Some (HDict (sample_descriptor_record sig)))
    by (vm_compute; reflexivity).
  assert (H3 : h !! 3%positive = Some (HDict sample_block))
    by (vm_compute; reflexivity).
  assert (H5 : h !! 5%positive = Some (HDict sample_fields))
    by (vm_compute; reflexivity).
  assert (Hdata : getitem h (VRef 3) "data" = Ok (VRef 4))
    by (vm_compute; reflexivity).
  assert (Hrun : (from_object_type (VRef 7) (VRef 3) h).1 = Ok (VRef 8))
    by (vm_compute; reflexivity).
  destruct (Hself (VRef 8) Hrun)
    as (l & d & pt & sr & Hdata' & Hl & Hpt & Hsr & Hl' & Hraw & _).
  rewrite Hdata in Hdata'. injection Hdata' as <-.
  assert (H4 : Some (HDict d) = Some (HDict (sample_data sig)))
    by (rewrite <- Hl; vm_compute; reflexivity).
  injection H4 as ->.
  assert (Hpt' : getitem h (VRef 3) "previousTransaction" = Ok (VStr "dHgy"))
    by (vm_compute; reflexivity).
  rewrite Hpt' in Hpt. injection Hpt as <-.
  assert (Hsr' : getitem h (VRef 3) "storageRebate" = Ok (VInt 15))
    by (vm_compute; reflexivity).
  rewrite Hsr' in Hsr. injection Hsr as <-.
  split; [exact (Hd _ _ H1)|].
  split; [apply (Ho _ _ H3); rewrite Hdata; discriminate|].
  split; [apply (Ho _ _ H5); rewrite Hdata; discriminate|].
  split; [exact Hl' | exact Hraw].
Defined.

(** The claim as the specification words it fails: [from_object_type]
    writes into the [data] dictionary of the block it is given, and the
    object it returns is built on that very dictionary (as the descriptor is
    on the record given to [from_object_descriptor]), not on a copy. *)
Lemma classifier_effects_counterexample :
  let sig := "0x2::coin::Coin<0x2::sui::SUI>" in
  let h := sample_described sig in
  let run_o := from_object_type (VRef 7) (VRef 3) h in
  getitem h (VRef 3) "data" = Ok (VRef 4)
  ∧ getitem h (VRef 4) "storageRebate" = Raise (KeyError "storageRebate")
  ∧ getitem h (VRef 4) "previousTransaction"
    = Raise (KeyError "previousTransaction")
  ∧ run_o.1 = Ok (VRef 8)
  ∧ getitem run_o.2 (VRef 4) "storageRebate" = Ok (VInt 15)
  ∧ getitem run_o.2 (VRef 4) "previousTransaction" = Ok (VStr "dHgy")
  ∧ dict_items run_o.2 (VRef 4) ≠ dict_items h (VRef 4)
  ∧ object_attr ObjectRead._type_raw run_o.2 (VRef 8) = Ok (VRef 4)
  ∧ descriptor_attr ObjectInfo._type_raw h (VRef 7) = Ok (VRef 1).
Proof.
  intros sig h run_o. split_and!; try (vm_compute; reflexivity).
  intros Heq.
  apply (f_equal (λ r, match r with
                       | Ok d => d !! "storageRebate"
                       | Raise _ => None
                       end)) in Heq.
  vm_compute in Heq. discriminate Heq.
Qed.

(** ** JSON text *)

Lemma mapM_result_mono {A B} (f g : A → result B) (l : list A) (ys : list B) :
  (∀ x y, f x = Ok y → g x = Ok y) →
  mapM_result f l = Ok ys →
  mapM_result g l = Ok ys.
Proof.
  intros Hfg. revert ys. induction l as [|x l IH]; intros ys; simpl; [done|].
  destruct (f x) as [y|] eqn:Hx; [|done]. rewrite (Hfg _ _ Hx).
  destruct (mapM_result f l) as [ys'|]; [|done].
  by rewrite (IH ys' eq_refl).
Qed.

(** The tree of a value does not change when objects are added to the
    store. *)
Lemma snapshot_weaken (depth : nat) (h h' : heap) (v : value) (t : jtree) :
  h ⊆ h' →
  snapshot depth h v = Ok t →
  snapshot depth h' v = Ok t.
Proof.
  intros Hsub. revert v t. induction depth as [|n IH]; intros v t; [done|].
  simpl. destruct v as [| | | |l]; try done.
  destruct (h !! l) as [x|] eqn:Hl; [|done].
  rewrite (lookup_weaken h h' l x Hl Hsub).
  destruct x as [d|xs| |]; try done.
  - destruct (mapM_result _ (map_to_list d)) as [entries|] eqn:Hm; [|done].
    intros [= <-].
    erewrite mapM_result_mono; [done| |exact Hm].
    intros [k x] y. simpl.
    destruct (snapshot n h x) as [tx|] eqn:Hx; [|done].
    by rewrite (IH _ _ Hx).
  - destruct (mapM_result _ xs) as [items|] eqn:Hm; [|done].
    intros [= <-].
    erewrite mapM_result_mono; [done| |exact Hm]. apply IH.
Qed.

(** ** Documents and values *)

Lemma snapshot_unfold (n : nat) (h : heap) (v : value) :
  snapshot (S n) h v =
  match v with
  | VNone => Ok JNull
  | VBool b => Ok (JBool b)
  | VInt i => Ok (JInt i)
  | VStr s => Ok (JStr s)
  | VRef l =>
      match h !! l with
      | Some (HDict d) =>
          match mapM_result
                  (λ kv : string * value,
                     match snapshot n h kv.2 with
                     | Ok t => Ok (kv.1, t)
                     | Raise e => Raise e
                     end)
                  (map_to_list d) with
          | Ok entries => Ok (JDict entries)
          | Raise e => Raise e
          end
      | Some (HList xs) =>
          match mapM_result (snapshot n h) xs with
          | Ok items => Ok (JList items)
          | Raise e => Raise e
          end
      | _ => Raise TypeError
      end
  end.
Proof. reflexivity. Qed.

Lemma equal_to_list (h : heap) (items : list jtree) (l : loc) :
  equal_to h (JList items) (VRef l) =
  match h !! l with
  | Some (HList xs) => forall2b (equal_to h) items xs
  | _ => false
  end.
Proof. reflexivity. Qed.

Lemma equal_to_dict (h : heap) (entries : list (string * jtree)) (l : loc) :
  equal_to h (JDict entries) (VRef l) =
  match h !! l with
  | Some (HDict d) =>
      distinct entries.*1
      && forallb (λ kv : string * jtree,
                    match d !! kv.1 with
                    | Some x => equal_to h kv.2 x
                    | None => false
                    end) entries
      && forallb (λ kx : string * value, existsb (String.eqb kx.1) entries.*1)
                 (map_to_list d)
  | _ => false
  end.
Proof. reflexivity. Qed.

Lemma existsb_eqb (key : string) (keys : list string) :
  existsb (String.eqb key) keys = true ↔ key ∈ keys.
Proof.
  rewrite existsb_exists. split.
  - intros (x & Hin & ->%String.eqb_eq). by apply list_elem_of_In.
  - intros Hin. exists key. split; [by apply list_elem_of_In|].
    apply String.eqb_refl.
Qed.

Lemma distinct_NoDup (keys : list string) :
  distinct keys = true ↔ NoDup keys.
Proof.
  induction keys as [|key keys IH]; simpl.
  - split; [constructor|done].
  - rewrite andb_true_iff, negb_true_iff, NoDup_cons, IH.
    rewrite <- existsb_eqb. by destruct (existsb (String.eqb key) keys); intuition.
Qed.

Lemma mapM_result_Forall2 {A B} (f : A → result B) (l : list A) (ys : list B) :
  mapM_result f l = Ok ys ↔ Forall2 (λ x y, f x = Ok y) l ys.
Proof.
  revert ys. induction l as [|x l IH]; intros ys; simpl.
  - split; [intros [= <-]; constructor | by intros ->%Forall2_nil_inv_l].
  - destruct (f x) as [y|e] eqn:Hx.
    + destruct (mapM_result f l) as [ys'|e] eqn:Hl.
      * split.
        -- intros [= <-]. constructor; [done|]. by apply IH.
        -- intros (y' & ys'' & Hy & Hys & ->)%Forall2_cons_inv_l.
           apply IH in Hys. congruence.
      * split; [done|].
        intros (y' & ys'' & Hy & Hys & ->)%Forall2_cons_inv_l.
        apply IH in Hys. congruence.
    + split; [done|].
      intros (y' & ys'' & Hy & Hys & ->)%Forall2_cons_inv_l. congruence.
Qed.

Lemma mapM_result_total {A B} (f : A → result B) (l : list A) :
  Forall (λ x, ∃ y, f x = Ok y) l → ∃ ys, mapM_result f l = Ok ys.
Proof.
  induction 1 as [|x l [y Hx] _ [ys IH]]; simpl; [by exists []|].
  rewrite Hx, IH. by eexists.
Qed.

Lemma forall2b_Forall2 {A B} (f : A → B → bool) (l : list A) (k : list B) :
  forall2b f l k = true ↔ Forall2 (λ a b, f a b = true) l k.
Proof.
  revert k. induction l as [|a l IH]; intros [|b k]; simpl.
  - split; [constructor|done].
  - split; [done|inversion 1].
  - split; [done|inversion 1].
  - rewrite andb_true_iff, IH. split.
    + intros [??]. by constructor.
    + by inversion 1.
Qed.

(** What [json.dumps] prints is a document equal to the value it was
    given. *)
Lemma snapshot_sound (depth : nat) (h : heap) (v : value) (t : jtree) :
  snapshot depth h v = Ok t → equal_to h t v = true.
Proof.
  revert v t. induction depth as [|n IH]; intros v t; [done|].
  rewrite snapshot_unfold. destruct v as [| b | i | s | l].
  - by intros [= <-].
  - intros [= <-]. simpl. by destruct b.
  - intros [= <-]. simpl. apply Z.eqb_refl.
  - intros [= <-]. simpl. apply String.eqb_refl.
  - destruct (h !! l) as [[d|xs| |]|] eqn:Hl; try done.
    + destruct (mapM_result _ (map_to_list d)) as [entries|] eqn:Hm; [|done].
      intros [= <-]. rewrite equal_to_dict, Hl.
      apply mapM_result_Forall2 in Hm.
      assert (Hkeys : entries.*1 = (map_to_list d).*1).
      { clear -Hm. induction Hm as [|[k x] [k' t] kxs kts Hx _ IHm]; [done|].
        rewrite !fmap_cons, IHm. cbn [fst snd] in *.
        destruct (snapshot n h x); by simplify_eq. }
      rewrite !andb_true_iff. split_and!.
      * apply distinct_NoDup. rewrite Hkeys. apply NoDup_fst_map_to_list.
      * apply forallb_forall. intros [k t] Hin%list_elem_of_In.
        cbn [fst snd].
        apply list_elem_of_lookup in Hin as [i Hi].
        destruct (Forall2_lookup_r _ _ _ i (k, t) Hm Hi) as ([k' x] & Hkx & Hx).
        simpl in Hx. destruct (snapshot n h x) as [t'|] eqn:Ht; simplify_eq.
        apply list_elem_of_lookup_2, elem_of_map_to_list in Hkx.
        rewrite Hkx. by apply IH.
      * apply forallb_forall. intros [k x] Hin%list_elem_of_In.
        apply existsb_eqb. rewrite Hkeys. simpl.
        apply list_elem_of_fmap. by exists (k, x).
    + destruct (mapM_result _ xs) as [items|] eqn:Hm; [|done].
      intros [= <-]. rewrite equal_to_list, Hl.
      apply forall2b_Forall2. apply mapM_result_Forall2 in Hm.
      apply Forall2_flip. eapply Forall2_impl; [exact Hm|]. apply IH.
Qed.

Lemma height_pos (t : jtree) : (1 ≤ height t)%nat.
Proof. destruct t; simpl; lia. Qed.

Lemma height_item (items : list jtree) (t : jtree) (n : nat) :
  (height (JList items) ≤ S n)%nat → t ∈ items → (height t ≤ n)%nat.
Proof.
  simpl. intros Hh Hin. apply le_S_n, list_max_le in Hh.
  rewrite List.Forall_forall in Hh. apply Hh, in_map.
  by apply list_elem_of_In.
Qed.

Lemma height_entry (entries : list (string * jtree)) (key : string) (t : jtree)
  (n : nat) :
  (height (JDict entries) ≤ S n)%nat → (key, t) ∈ entries → (height t ≤ n)%nat.
Proof.
  simpl. intros Hh Hin. apply le_S_n, list_max_le in Hh.
  rewrite List.Forall_forall in Hh.
  apply (Hh (height t)), (in_map (λ kv : string * jtree, height kv.2) _ (key, t)).
  by apply list_elem_of_In.
Qed.

(** A value that equals a document nested no deeper than [depth] is
    printed. *)
Lemma snapshot_complete (depth : nat) (h : heap) (v : value) (t0 : jtree) :
  equal_to h t0 v = true → (height t0 ≤ depth)%nat →
  ∃ t, snapshot depth h v = Ok t.
Proof.
  revert v t0. induction depth as [|n IH]; intros v t0 Heq Hh.
  { pose proof (height_pos t0). lia. }
  rewrite snapshot_unfold. destruct v as [| b | i | s | l]; try by eexists.
  destruct t0 as [| | | | items | entries]; try done.
  - rewrite equal_to_list in Heq.
    destruct (h !! l) as [[d|xs| |]|]; try done.
    apply forall2b_Forall2 in Heq.
    destruct (mapM_result_total (snapshot n h) xs) as [ys ->]; [|by eexists].
    apply Forall_forall. intros x Hx.
    apply list_elem_of_lookup in Hx as [i Hi].
    destruct (Forall2_lookup_r _ _ _ i x Heq Hi) as (t & Ht & Htx).
    apply (IH x t Htx), (height_item items); [done|].
    by apply list_elem_of_lookup_2 in Ht.
  - rewrite equal_to_dict in Heq.
    destruct (h !! l) as [[d|xs| |]|]; try done.
    rewrite !andb_true_iff in Heq. destruct Heq as [[_ Hentries] Hcover].
    rewrite forallb_forall in Hentries. rewrite forallb_forall in Hcover.
    destruct (mapM_result_total
                (λ kv : string * value,
                   match snapshot n h kv.2 with
                   | Ok t => Ok (kv.1, t)
                   | Raise e => Raise e
                   end) (map_to_list d)) as [ys ->]; [|by eexists].
    apply Forall_forall. intros [k x] Hkx.
    pose proof Hkx as Hin%list_elem_of_In%Hcover%existsb_eqb.
    cbn [fst snd] in *.
    apply list_elem_of_fmap in Hin as ([k' t] & -> & Hin).
    pose proof Hin as Ht%list_elem_of_In%Hentries. cbn [fst snd] in *.
    apply elem_of_map_to_list in Hkx. rewrite Hkx in Ht.
    destruct (IH x t Ht) as [t' ->]; [|by eexists].
    by apply (height_entry entries k').
Qed.

(** A document that equals a dictionary has the keys of the dictionary,
    each once, and no others. *)
Lemma equal_to_dict_keys (h : heap) (entries : list (string * jtree)) (l : loc)
  (d : gmap string value) :
  equal_to h (JDict entries) (VRef l) = true →
  h !! l = Some (HDict d) →
  NoDup entries.*1 ∧ ∀ key, key ∈ entries.*1 ↔ is_Some (d !! key).
Proof.
  rewrite equal_to_dict. intros Heq Hl. rewrite Hl in Heq.
  rewrite !andb_true_iff in Heq. destruct Heq as [[Hnd Hentries] Hcover].
  rewrite forallb_forall in Hentries. rewrite forallb_forall in Hcover.
  split; [by apply distinct_NoDup|]. intros key. split.
  - intros ([key' t] & -> & Hin%list_elem_of_In%Hentries)%list_elem_of_fmap.
    cbn [fst snd] in *. by destruct (d !! key').
  - intros [x Hx%elem_of_map_to_list%list_elem_of_In%Hcover].
    by apply existsb_eqb in Hx.
Qed.

(** ** The sample printer and parser

    [json_decode] reads back every document that [json_encode] prints. *)

Lemma append_cons (c : ascii) (s t : string) :
  String c s ++ t = String c (s ++ t).
Proof. reflexivity. Qed.

Lemma append_nil_l (s : string) : "" ++ s = s.
Proof. reflexivity. Qed.

Lemma append_nil_r (s : string) : s ++ "" = s.
Proof. induction s as [|c s IH]; [done|]. by rewrite append_cons, IH. Qed.

Lemma append_assoc (s t u : string) : (s ++ t) ++ u = s ++ t ++ u.
Proof. induction s as [|c s IH]; [done|]. by rewrite !append_cons, IH. Qed.

Lemma length_append (s t : string) :
  String.length (s ++ t) = (String.length s + String.length t)%nat.
Proof. induction s as [|c s IH]; [done|]. rewrite append_cons. simpl. by rewrite IH. Qed.

Lemma skip_space_head (c : ascii) (s : string) :
  is_space c = false → skip_space (String c s) = String c s.
Proof. intros H. simpl. by rewrite H. Qed.

(** *** Strings *)

Lemma decode_string_escape (s rest : string) :
  decode_string (escape s ++ String double_quote rest) = Some (s, rest).
Proof.
  induction s as [|c s IH].
  - reflexivity.
  - cbn [escape]. rewrite append_assoc. unfold escape_char.
    destruct (Ascii.eqb_spec c double_quote) as [->|H1].
    { rewrite !append_cons, append_nil_l. cbn [decode_string].
      rewrite IH. reflexivity. }
    destruct (Ascii.eqb_spec c backslash) as [->|H2].
    { rewrite !append_cons, append_nil_l. cbn [decode_string].
      rewrite IH. reflexivity. }
    destruct (Ascii.eqb_spec c "010") as [->|H3].
    { rewrite !append_cons, append_nil_l. cbn [decode_string].
      rewrite IH. reflexivity. }
    destruct (Ascii.eqb_spec c "013") as [->|H4].
    { rewrite !append_cons, append_nil_l. cbn [decode_string].
      rewrite IH. reflexivity. }
    destruct (Ascii.eqb_spec c "009") as [->|H5].
    { rewrite !append_cons, append_nil_l. cbn [decode_string].
      rewrite IH. reflexivity. }
    rewrite append_cons, append_nil_l. cbn [decode_string].
    apply Ascii.eqb_neq in H1, H2. by rewrite H1, H2, IH.
Qed.

(** *** Numbers *)

Lemma number_char_plain (c : ascii) :
  is_number_char c = true →
  is_space c = false
  ∧ Ascii.eqb c double_quote = false
  ∧ Ascii.eqb c "[" = false ∧ Ascii.eqb c "]" = false
  ∧ Ascii.eqb c "{" = false ∧ Ascii.eqb c "}" = false
  ∧ c ≠ "n"%char ∧ c ≠ "t"%char ∧ c ≠ "f"%char.
Proof.
  destruct c as [[] [] [] [] [] [] [] []]; intros H; try discriminate H;
    by split_and!.
Qed.

Lemma span_number_rest (rest : string) :
  number_free rest = true → span_number rest = ("", rest).
Proof.
  destruct rest as [|c rest]; [done|]. simpl.
  by destruct (is_number_char c).
Qed.

Lemma span_number_uint (d : Decimal.uint) (rest : string) :
  number_free rest = true →
  span_number (NilEmpty.string_of_uint d ++ rest)
  = (NilEmpty.string_of_uint d, rest).
Proof.
  intros Hrest.
  induction d as [|d IH|d IH|d IH|d IH|d IH|d IH|d IH|d IH|d IH|d IH];
    cbn [NilEmpty.string_of_uint];
    [by apply span_number_rest|..];
    rewrite append_cons; cbn [span_number]; by rewrite IH.
Qed.

Lemma string_of_uint_nonempty (d : Decimal.uint) :
  ∃ d', NilZero.string_of_uint d = NilEmpty.string_of_uint d'
        ∧ d' ≠ Decimal.Nil.
Proof. destruct d; [by exists (Decimal.D0 Decimal.Nil)|by eexists..]. Qed.

Lemma string_of_uint_head (d : Decimal.uint) :
  d ≠ Decimal.Nil →
  ∃ c s, NilEmpty.string_of_uint d = String c s ∧ is_number_char c = true.
Proof. destruct d; [done|by eexists _, _..]. Qed.

Lemma string_of_int_head (i : Decimal.signed_int) :
  ∃ c s, NilZero.string_of_int i = String c s ∧ is_number_char c = true.
Proof.
  destruct i as [d|d]; [|by eexists _, _].
  destruct (string_of_uint_nonempty d) as (d' & Hd & Hne).
  simpl. rewrite Hd. by apply string_of_uint_head.
Qed.

Lemma span_number_int (i : Decimal.signed_int) (rest : string) :
  number_free rest = true →
  span_number (NilZero.string_of_int i ++ rest)
  = (NilZero.string_of_int i, rest).
Proof.
  intros Hrest. destruct i as [d|d]; cbn [NilZero.string_of_int];
    destruct (string_of_uint_nonempty d) as (d' & -> & _).
  - by apply span_number_uint.
  - rewrite append_cons. cbn [span_number].
    by rewrite (span_number_uint d' rest Hrest).
Qed.

Lemma int_of_string_to_int (n : Z) :
  NilZero.int_of_string (NilZero.string_of_int (Z.to_int n)) = Some (Z.to_int n).
Proof.
  apply NilZero.isi; destruct n as [|p|p]; simpl; try done;
    intros [= H]; by apply Unsigned.to_uint_nonnil in H.
Qed.

(** *** Lists and dictionaries *)

Lemma fold_left_join (sep p q : string) (l : list string) :
  fold_left (λ acc y, acc ++ sep ++ y) l (p ++ q)
  = p ++ fold_left (λ acc y, acc ++ sep ++ y) l q.
Proof.
  revert q. induction l as [|x l IH]; intros q; [done|].
  cbn [fold_left]. by rewrite append_assoc, IH.
Qed.

Lemma join_cons (sep x y : string) (l : list string) :
  join sep (x :: y :: l) = x ++ sep ++ join sep (y :: l).
Proof.
  unfold join. cbn [fold_left]. by rewrite !fold_left_join.
Qed.

Lemma join_length_elem (sep x : string) (l : list string) :
  x ∈ l → (String.length x ≤ String.length (join sep l))%nat.
Proof.
  induction l as [|y [|z l] IH]; [by intros ?%elem_of_nil|..].
  - by intros ->%list_elem_of_singleton.
  - rewrite join_cons, !length_append.
    intros [->|Hin]%elem_of_cons; [lia|]. specialize (IH Hin). lia.
Qed.

Lemma join_length_count (sep : string) (l : list string) :
  Forall (λ x, (1 ≤ String.length x)%nat) l →
  (List.length l ≤ String.length (join sep l))%nat.
Proof.
  induction l as [|y [|z l] IH]; intros Hl; [simpl; lia|..].
  - apply Forall_cons in Hl as [Hy _]. simpl in *. lia.
  - apply Forall_cons in Hl as [Hy Hl]. specialize (IH Hl).
    rewrite join_cons, !length_append. cbn [List.length] in *. lia.
Qed.

Lemma decode_items_unfold (decode : string → option (jtree * string))
  (k : nat) (s : string) :
  decode_items decode (S k) s =
  match decode s with
  | Some (t, rest) =>
      match skip_space rest with
      | String c rest' =>
          if Ascii.eqb c "]" then Some ([t], rest')
          else if Ascii.eqb c "," then
            match decode_items decode k rest' with
            | Some (ts, rest'') => Some (t :: ts, rest'')
            | None => None
            end
          else None
      | EmptyString => None
      end
  | None => None
  end.
Proof. reflexivity. Qed.

Lemma decode_items_pad (decode : string → option (jtree * string))
  (fuel : nat) (s : string) :
  (∀ s', decode (String " " s') = decode s') →
  decode_items decode fuel (String " " s) = decode_items decode fuel s.
Proof.
  intros Hpad. destruct fuel as [|k]; [done|].
  by rewrite !decode_items_unfold, Hpad.
Qed.

Lemma decode_items_encode (decode : string → option (jtree * string))
  (items : list jtree) (fuel : nat) (rest : string) :
  (∀ s, decode (String " " s) = decode s) →
  Forall (λ t, ∀ rest', number_free rest' = true →
                        decode (json_encode t ++ rest') = Some (t, rest'))
         items →
  items ≠ [] →
  (List.length items ≤ fuel)%nat →
  decode_items decode fuel
    (join ", " (List.map json_encode items) ++ String "]" rest)
  = Some (items, rest).
Proof.
  intros Hpad. revert fuel.
  induction items as [|t [|t2 items] IH]; intros fuel Hall Hne Hfuel; [done|..].
  - destruct fuel as [|k]; [simpl in Hfuel; lia|].
    apply Forall_cons in Hall as [Ht _].
    rewrite decode_items_unfold. cbn [List.map join fold_left].
    by rewrite Ht.
  - destruct fuel as [|k]; [simpl in Hfuel; lia|].
    apply Forall_cons in Hall as [Ht Hall].
    rewrite decode_items_unfold.
    change (List.map json_encode (t :: t2 :: items))
      with (json_encode t :: json_encode t2 :: List.map json_encode items).
    rewrite join_cons, !append_assoc, !append_cons, append_nil_l.
    rewrite Ht by done.
    cbn [skip_space is_space Ascii.eqb Bool.eqb orb].
    rewrite decode_items_pad by done.
    change (json_encode t2 :: List.map json_encode items)
      with (List.map json_encode (t2 :: items)).
    rewrite IH; [done|done|done|]. simpl in *. lia.
Qed.

Lemma decode_entries_unfold (decode : string → option (jtree * string))
  (k : nat) (s : string) :
  decode_entries decode (S k) s =
  match skip_space s with
  | String q s1 =>
      if Ascii.eqb q double_quote then
        match decode_string s1 with
        | Some (key, s2) =>
            match skip_space s2 with
            | String c s3 =>
                if Ascii.eqb c ":" then
                  match decode s3 with
                  | Some (t, s4) =>
                      match skip_space s4 with
                      | String c' s5 =>
                          if Ascii.eqb c' "}" then Some ([(key, t)], s5)
                          else if Ascii.eqb c' "," then
                            match decode_entries decode k s5 with
                            | Some (kts, s6) => Some ((key, t) :: kts, s6)
                            | None => None
                            end
                          else None
                      | EmptyString => None
                      end
                  | None => None
                  end
                else None
            | EmptyString => None
            end
        | None => None
        end
      else None
  | EmptyString => None
  end.
Proof. reflexivity. Qed.

Lemma decode_entries_pad (decode : string → option (jtree * string))
  (fuel : nat) (s : string) :
  decode_entries decode fuel (String " " s) = decode_entries decode fuel s.
Proof. destruct fuel as [|k]; [done|]. by rewrite !decode_entries_unfold. Qed.

Lemma decode_entries_encode (decode : string → option (jtree * string))
  (entries : list (string * jtree)) (fuel : nat) (rest : string) :
  (∀ s, decode (String " " s) = decode s) →
  Forall (λ kv : string * jtree,
            ∀ rest', number_free rest' = true →
                     decode (json_encode kv.2 ++ rest') = Some (kv.2, rest'))
         entries →
  entries ≠ [] →
  (List.length entries ≤ fuel)%nat →
  decode_entries decode fuel
    (join ", " (List.map encode_entry entries) ++ String "}" rest)
  = Some (entries, rest).
Proof.
  intros Hpad. revert fuel.
  induction entries as [|[key t] [|kv2 entries] IH]; intros fuel Hall Hne Hfuel;
    [done|..].
  - destruct fuel as [|k]; [simpl in Hfuel; lia|].
    apply Forall_cons in Hall as [Ht _]. cbn [fst snd] in Ht.
    rewrite decode_entries_unfold. cbn [List.map join fold_left].
    unfold encode_entry, quote. cbn [fst snd].
    rewrite !append_assoc, !append_cons, !append_assoc, !append_cons,
      !append_nil_l.
    rewrite skip_space_head by done.
    replace (Ascii.eqb double_quote double_quote) with true by done.
    rewrite decode_string_escape.
    rewrite skip_space_head by done.
    replace (Ascii.eqb ":" ":") with true by done.
    rewrite Hpad, Ht by done.
    by rewrite skip_space_head by done.
  - destruct fuel as [|k]; [simpl in Hfuel; lia|].
    apply Forall_cons in Hall as [Ht Hall]. cbn [fst snd] in Ht.
    rewrite decode_entries_unfold.
    change (List.map encode_entry ((key, t) :: kv2 :: entries))
      with (encode_entry (key, t) :: encode_entry kv2
              :: List.map encode_entry entries).
    rewrite join_cons. unfold encode_entry at 1, quote. cbn [fst snd].
    rewrite !append_assoc, !append_cons, !append_assoc, !append_cons,
      !append_nil_l.
    rewrite skip_space_head by done.
    replace (Ascii.eqb double_quote double_quote) with true by done.
    rewrite decode_string_escape.
    rewrite skip_space_head by done.
    replace (Ascii.eqb ":" ":") with true by done.
    rewrite Hpad, Ht by done.
    rewrite skip_space_head by done.
    replace (Ascii.eqb "," "}") with false by done.
    replace (Ascii.eqb "," ",") with true by done.
    rewrite decode_entries_pad.
    change (encode_entry kv2 :: List.map encode_entry entries)
      with (List.map encode_entry (kv2 :: entries)).
    rewrite IH; [done|done|done|]. simpl in *. lia.
Qed.

(** *** Documents *)

Lemma decode_value_unfold (k : nat) (s : string) :
  decode_value (S k) s =
  let s := skip_space s in
  if String.prefix "null" s
  then Some (JNull, String.substring 4 (String.length s - 4) s)
  else if String.prefix "true" s
  then Some (JBool true, String.substring 4 (String.length s - 4) s)
  else if String.prefix "false" s
  then Some (JBool false, String.substring 5 (String.length s - 5) s)
  else
    match s with
    | EmptyString => None
    | String c s' =>
        if Ascii.eqb c double_quote then
          match decode_string s' with
          | Some (text, rest) => Some (JStr text, rest)
          | None => None
          end
        else if Ascii.eqb c "[" then
          match skip_space s' with
          | String c' rest =>
              if Ascii.eqb c' "]" then Some (JList [], rest)
              else
                match decode_items (decode_value k) (String.length s') s' with
                | Some (ts, rest) => Some (JList ts, rest)
                | None => None
                end
          | EmptyString => None
          end
        else if Ascii.eqb c "{" then
          match skip_space s' with
          | String c' rest =>
              if Ascii.eqb c' "}" then Some (JDict [], rest)
              else
                match decode_entries (decode_value k) (String.length s') s' with
                | Some (kts, rest) => Some (JDict kts, rest)
                | None => None
                end
          | EmptyString => None
          end
        else
          let '(digits, rest) := span_number s in
          match NilZero.int_of_string digits with
          | Some i => Some (JInt (Z.of_int i), rest)
          | None => None
          end
    end.
Proof. reflexivity. Qed.

Lemma decode_value_pad (fuel : nat) (s : string) :
  decode_value fuel (String " " s) = decode_value fuel s.
Proof. destruct fuel as [|k]; [done|]. by rewrite !decode_value_unfold. Qed.

Lemma json_encode_list (items : list jtree) :
  json_encode (JList items)
  = "[" ++ join ", " (List.map json_encode items) ++ "]".
Proof. reflexivity. Qed.

Lemma json_encode_dict (entries : list (string * jtree)) :
  json_encode (JDict entries)
  = "{" ++ join ", " (List.map encode_entry entries) ++ "}".
Proof. reflexivity. Qed.

(** A printed document starts with a character that is neither a space
    nor a closing bracket. *)
Lemma json_encode_head (t : jtree) :
  ∃ c s, json_encode t = String c s
         ∧ is_space c = false
         ∧ Ascii.eqb c "]" = false ∧ Ascii.eqb c "}" = false.
Proof.
  destruct t as [| [] | n | text | items | entries];
    try by (eexists _, _; split; [reflexivity|done]).
  destruct (string_of_int_head (Z.to_int n)) as (c & s & Hs & Hc).
  apply number_char_plain in Hc as (? & _ & _ & ? & _ & ? & _).
  by exists c, s.
Qed.

Lemma json_encode_length (t : jtree) : (1 ≤ String.length (json_encode t))%nat.
Proof.
  destruct (json_encode_head t) as (c & s & -> & _). simpl. lia.
Qed.

Lemma substring_drop (n : nat) (p s : string) :
  String.length p = n →
  String.substring n (String.length (p ++ s) - n) (p ++ s) = s.
Proof.
  intros <-. rewrite length_append.
  replace (String.length p + String.length s - String.length p)%nat
    with (String.length s) by lia.
  induction p as [|c p IH]; [apply substring_all|].
  by rewrite append_cons.
Qed.

Lemma elem_of_map {A B} (f : A → B) (l : list A) (x : A) :
  x ∈ l → f x ∈ List.map f l.
Proof. intros H%list_elem_of_In. by apply list_elem_of_In, in_map. Qed.

Lemma prefix_append (p rest : string) : String.prefix p (p ++ rest) = true.
Proof.
  induction p as [|c p IH]; [by destruct rest|].
  rewrite append_cons. cbn [String.prefix].
  by destruct (ascii_dec c c).
Qed.

Lemma decode_value_encode (fuel : nat) (t : jtree) (rest : string) :
  (String.length (json_encode t) ≤ fuel)%nat →
  number_free rest = true →
  decode_value fuel (json_encode t ++ rest) = Some (t, rest).
Proof.
  revert t rest. induction fuel as [|k IH]; intros t rest Hfuel Hrest.
  { pose proof (json_encode_length t). lia. }
  rewrite decode_value_unfold.
  destruct t as [| [] | n | text | items | entries].
  - cbn [json_encode].
    change (skip_space ("null" ++ rest)) with ("null" ++ rest). cbv zeta.
    rewrite prefix_append.
    by rewrite (substring_drop 4 "null").
  - cbn [json_encode].
    change (skip_space ("true" ++ rest)) with ("true" ++ rest). cbv zeta.
    change (String.prefix "null" ("true" ++ rest)) with false.
    rewrite prefix_append.
    by rewrite (substring_drop 4 "true").
  - cbn [json_encode].
    change (skip_space ("false" ++ rest)) with ("false" ++ rest). cbv zeta.
    change (String.prefix "null" ("false" ++ rest)) with false.
    change (String.prefix "true" ("false" ++ rest)) with false.
    rewrite prefix_append.
    by rewrite (substring_drop 5 "false").
  - cbn [json_encode].
    destruct (string_of_int_head (Z.to_int n)) as (c & s & Hs & Hc).
    pose proof (span_number_int (Z.to_int n) rest Hrest) as Hspan.
    pose proof (int_of_string_to_int n) as Hint.
    apply number_char_plain in Hc
      as (Hsp & Hq & Hl & _ & Hd & _ & Hn & Ht & Hf).
    rewrite Hs in *. rewrite append_cons in *.
    rewrite skip_space_head by done. cbv zeta.
    cbn [String.prefix].
    destruct (ascii_dec "n" c) as [<-|_]; [done|].
    destruct (ascii_dec "t" c) as [<-|_]; [done|].
    destruct (ascii_dec "f" c) as [<-|_]; [done|].
    rewrite Hq, Hl, Hd, Hspan, Hint. by rewrite of_to.
  - cbn [json_encode]. unfold quote.
    rewrite !append_cons, append_assoc, append_cons, append_nil_l.
    rewrite skip_space_head by done. cbv zeta.
    replace (String.prefix "null" _) with false by done.
    replace (String.prefix "true" _) with false by done.
    replace (String.prefix "false" _) with false by done.
    replace (Ascii.eqb double_quote double_quote) with true by done.
    by rewrite decode_string_escape.
  - rewrite json_encode_list in *.
    rewrite !append_cons, !append_nil_l, append_assoc, append_cons,
      append_nil_l in *.
    rewrite skip_space_head by done. cbv zeta.
    replace (String.prefix "null" _) with false by done.
    replace (String.prefix "true" _) with false by done.
    replace (String.prefix "false" _) with false by done.
    replace (Ascii.eqb "[" double_quote) with false by done.
    replace (Ascii.eqb "[" "[") with true by done.
    destruct items as [|t items]; [done|].
    set (items' := t :: items) in *.
    assert (Hhead : ∃ c s, join ", " (List.map json_encode items')
                           ++ String "]" rest = String c s
                           ∧ is_space c = false ∧ Ascii.eqb c "]" = false).
    { destruct (json_encode_head t) as (c & s & Hs & Hsp & Hc & _).
      unfold items'. destruct items as [|t2 items].
      - cbn [List.map join fold_left]. rewrite Hs, append_cons. by eexists _, _.
      - change (List.map json_encode (t :: t2 :: items))
          with (json_encode t :: json_encode t2 :: List.map json_encode items).
        rewrite join_cons, Hs, !append_cons. by eexists _, _. }
    destruct Hhead as (c & s & Hs & Hsp & Hc).
    rewrite Hs at 1. rewrite skip_space_head, Hc by done.
    cbn [String.length] in Hfuel. rewrite length_append in Hfuel.
    cbn [String.length] in Hfuel.
    rewrite (decode_items_encode (decode_value k) items'); [done|..].
    + apply decode_value_pad.
    + apply Forall_forall. intros t' Hin rest' Hrest'. apply IH; [|done].
      pose proof (join_length_elem ", " (json_encode t')
                    (List.map json_encode items') (elem_of_map _ _ _ Hin))
        as Hlen.
      lia.
    + done.
    + rewrite length_append.
      assert (Hlen : (List.length (List.map json_encode items')
                      ≤ String.length
                          (join ", " (List.map json_encode items')))%nat).
      { apply join_length_count, Forall_forall.
        intros x (t' & <- & _)%list_elem_of_In%in_map_iff.
        apply json_encode_length. }
      rewrite length_map in Hlen. lia.
  - rewrite json_encode_dict in *.
    rewrite !append_cons, !append_nil_l, append_assoc, append_cons,
      append_nil_l in *.
    rewrite skip_space_head by done. cbv zeta.
    replace (String.prefix "null" _) with false by done.
    replace (String.prefix "true" _) with false by done.
    replace (String.prefix "false" _) with false by done.
    replace (Ascii.eqb "{" double_quote) with false by done.
    replace (Ascii.eqb "{" "[") with false by done.
    replace (Ascii.eqb "{" "{") with true by done.
    destruct entries as [|kv entries]; [done|].
    set (entries' := kv :: entries) in *.
    assert (Hhead : ∃ c s, join ", " (List.map encode_entry entries')
                           ++ String "}" rest = String c s
                           ∧ is_space c = false ∧ Ascii.eqb c "}" = false).
    { unfold entries'. destruct entries as [|kv2 entries].
      - cbn [List.map join fold_left]. unfold encode_entry, quote.
        rewrite !append_cons. by eexists _, _.
      - change (List.map encode_entry (kv :: kv2 :: entries))
          with (encode_entry kv :: encode_entry kv2
                  :: List.map encode_entry entries).
        rewrite join_cons. unfold encode_entry at 1, quote.
        rewrite !append_cons. by eexists _, _. }
    destruct Hhead as (c & s & Hs & Hsp & Hc).
    rewrite Hs at 1. rewrite skip_space_head, Hc by done.
    cbn [String.length] in Hfuel. rewrite length_append in Hfuel.
    cbn [String.length] in Hfuel.
    rewrite (decode_entries_encode (decode_value k) entries'); [done|..].
    + apply decode_value_pad.
    + apply Forall_forall. intros kv' Hin rest' Hrest'. apply IH; [|done].
      pose proof (join_length_elem ", " (encode_entry kv')
                    (List.map encode_entry entries') (elem_of_map _ _ _ Hin))
        as Hlen.
      unfold encode_entry at 1 in Hlen. rewrite !length_append in Hlen. lia.
    + done.
    + rewrite length_append.
      assert (Hlen : (List.length (List.map encode_entry entries')
                      ≤ String.length
                          (join ", " (List.map encode_entry entries')))%nat).
      { apply join_length_count, Forall_forall.
        intros x (kv' & <- & _)%list_elem_of_In%in_map_iff.
        unfold encode_entry, quote. rewrite append_cons. simpl. lia. }
      rewrite length_map in Hlen. lia.
Qed.

(** The sample parser reads back what the sample printer prints. *)
Lemma json_decode_encode (t : jtree) : json_decode (json_encode t) = Some t.
Proof.
  unfold json_decode.
  pose proof (decode_value_encode (String.length (json_encode t)) t ""
                (le_n _) eq_refl) as H.
  rewrite append_nil_r in H. by rewrite H.
Qed.

Lemma json_codec_reads_back : reads_back json_encode json_decode.
Proof. intros h v t _. apply json_decode_encode. Qed.

(** ** The round trip of [json()] *)

(** What [json()] prints is the tree of the dictionary that the instance
    was built from, as that dictionary is when [json()] is called. *)
Lemma SuiRawDescriptor_json_tree (depth : nat) (dumps : jtree → string)
  (h : heap) (self raw : value) (t : jtree) :
  descriptor_attr ObjectInfo._type_raw h self = Ok raw →
  snapshot depth h raw = Ok t →
  SuiRawDescriptor_json depth dumps h self = Ok (dumps t).
Proof.
  intros Hraw Ht. unfold SuiRawDescriptor_json, json_dumps.
  by rewrite Hraw, Ht.
Qed.

Lemma SuiRawObject_json_tree (depth : nat) (dumps : jtree → string)
  (h : heap) (self raw : value) (t : jtree) :
  object_attr ObjectRead._type_raw h self = Ok raw →
  snapshot depth h raw = Ok t →
  SuiRawObject_json depth dumps h self = Ok (dumps t).
Proof.
  intros Hraw Ht. unfold SuiRawObject_json, json_dumps.
  by rewrite Hraw, Ht.
Qed.

(** C6.  Let the JSON library read back what it prints, and let the input
    be JSON data: a value that equals some document nested no deeper than
    the library accepts.

    - For a descriptor built by [from_object_descriptor], [json()] returns
      a text, and parsing it gives a document equal to the record the
      classifier was given, as it was before the call: the same keys with
      equal values, nothing added and nothing left out.
    - For an object built by [from_object_type], [json()] returns a text,
      and parsing it gives a document equal to the mapping the object
      kept.  That mapping is the block's own [data] dictionary, which by
      then holds the entries it had and, under [previousTransaction] and
      [storageRebate], the two values of the block.

    In both cases the text is printed from the dictionary the instance
    kept, with nothing computed in between. *)
Theorem json_round_trip (depth : nat) (dumps : jtree → string)
  (loads : string → option jtree) (h : heap)
  (indata descriptor inblock : value) :
  reads_back dumps loads →
  (∀ self h' t0,
     from_object_descriptor indata h = (Ok self, h') →
     equal_to h t0 indata = true →
     (height t0 ≤ depth)%nat →
     descriptor_attr ObjectInfo._type_raw h' self = Ok indata
     ∧ ∃ s t, SuiRawDescriptor_json depth dumps h' self = Ok s
              ∧ loads s = Some t
              ∧ equal_to h t indata = true)
  ∧ (∀ self h' t0,
       from_object_type descriptor inblock h = (Ok self, h') →
       ∃ l d pt sr,
         getitem h inblock "data" = Ok (VRef l)
         ∧ h !! l = Some (HDict d)
         ∧ getitem h inblock "previousTransaction" = Ok pt
         ∧ getitem h inblock "storageRebate" = Ok sr
         ∧ object_attr ObjectRead._type_raw h' self = Ok (VRef l)
         ∧ h' !! l = Some (HDict (merged d pt sr))
         ∧ (equal_to h' t0 (VRef l) = true →
            (height t0 ≤ depth)%nat →
            ∃ s t, SuiRawObject_json depth dumps h' self = Ok s
                   ∧ loads s = Some t
                   ∧ equal_to h' t (VRef l) = true)).
Proof.
  intros Hlib. split.
  - intros self h' t0 Hrun Ht0 Hdepth.
    destruct (from_object_descriptor_effect h indata)
      as [[e He]|(o & Hraw & Hrun')]; [congruence|].
    rewrite Hrun' in Hrun. injection Hrun as <- <-.
    assert (Hattr : descriptor_attr ObjectInfo._type_raw
                      (<[fresh (dom h) := HDescriptor o]> h)
                      (VRef (fresh (dom h))) = Ok indata).
    { unfold descriptor_attr. by rewrite lookup_insert_eq, Hraw. }
    split; [done|].
    destruct (snapshot_complete depth h indata t0 Ht0 Hdepth) as [t Ht].
    pose proof (snapshot_sound depth h indata t Ht) as Heq.
    exists (dumps t), t. split_and!; [|by apply (Hlib h indata)|done].
    apply (SuiRawDescriptor_json_tree _ _ _ _ indata); [done|].
    by apply (snapshot_weaken depth h), Ht; apply alloc_subseteq.
  - intros self h' t0 Hrun.
    apply from_object_type_inv in Hrun
      as (l & d & pt & sr & lself & o & Hdata & Hl & Hpt & Hsr & -> & Hlself
            & _ & Hl' & Hraw & _).
    exists l, d, pt, sr.
    assert (Hattr : object_attr ObjectRead._type_raw h' (VRef lself)
                    = Ok (VRef l)).
    { unfold object_attr. by rewrite Hlself, Hraw. }
    split_and!; try done.
    intros Ht0 Hdepth.
    destruct (snapshot_complete depth h' (VRef l) t0 Ht0 Hdepth) as [t Ht].
    pose proof (snapshot_sound depth h' (VRef l) t Ht) as Heq.
    exists (dumps t), t. split_and!; [|by apply (Hlib h' (VRef l))|done].
    by apply (SuiRawObject_json_tree _ _ _ _ (VRef l)).
Qed.

Lemma json_round_trip_witness :
  let sig := "0x2::coin::Coin<0x2::sui::SUI>" in
  let h := sample_described sig in
  let run_d := from_object_descriptor (VRef 1) h in
  let run_o := from_object_type (VRef 7) (VRef 3) h in
  (∃ s t, SuiRawDescriptor_json 16 json_encode run_d.2 (VRef 8) = Ok s
          ∧ json_decode s = Some t
          ∧ equal_to h t (VRef 1) = true)
  ∧ (∃ s t, SuiRawObject_json 16 json_encode run_o.2 (VRef 8) = Ok s
            ∧ json_decode s = Some t
            ∧ equal_to run_o.2 t (VRef 4) = true).
Proof.
  intros sig h run_d run_o.
  destruct (json_round_trip 16 json_encode json_decode h (VRef 1) (VRef 7)
              (VRef 3) json_codec_reads_back) as [Hd Ho].
  split.
  - assert (Hrun : from_object_descriptor (VRef 1) h = (Ok (VRef 8), run_d.2))
      by (vm_compute; reflexivity).
    assert (Ht0 : equal_to h (sample_descriptor_document sig) (VRef 1) = true)
      by (vm_compute; reflexivity).
    assert (Hdepth : (height (sample_descriptor_document sig) ≤ 16)%nat)
      by (vm_compute; lia).
    exact (proj2 (Hd (VRef 8) run_d.2 _ Hrun Ht0 Hdepth)).
  - assert (Hrun : from_object_type (VRef 7) (VRef 3) h = (Ok (VRef 8), run_o.2))
      by (vm_compute; reflexivity).
    destruct (Ho (VRef 8) run_o.2 (sample_object_document sig) Hrun)
      as (l & d & pt & sr & Hdata & _ & _ & _ & _ & _ & Hjson).
    assert (Hdata' : getitem h (VRef 3) "data" = Ok (VRef 4))
      by (vm_compute; reflexivity).
    rewrite Hdata' in Hdata. injection Hdata as <-.
    assert (Ht0 : equal_to run_o.2 (sample_object_document sig) (VRef 4) = true)
      by (vm_compute; reflexivity).
    assert (Hdepth : (height (sample_object_document sig) ≤ 16)%nat)
      by (vm_compute; lia).
    exact (Hjson Ht0 Hdepth).
Defined.

(** A document with other content does not equal the record, nor does the
    record's document once a derived field is added to it. *)
Example equal_to_sample :
  let sig := "0x2::devnet_nft::DevNetNFT" in
  let h := sample_described sig in
  equal_to h (sample_descriptor_document sig) (VRef 1) = true
  ∧ equal_to h JNull (VRef 1) = false
  ∧ equal_to h (JDict []) (VRef 1) = false
  ∧ equal_to h (sample_descriptor_document "0x2::coin::Coin") (VRef 1) = false
  ∧ match sample_descriptor_document sig with
    | JDict entries =>
        equal_to h (JDict (("identifier", JStr "0xabc") :: entries)) (VRef 1)
    | _ => true
    end = false.
Proof. split_and!; vm_compute; reflexivity. Qed.
